(** * Circlo rental platform: bookings and payments of [backend/routes/api.js]

    A shallow embedding of the booking and payment handlers of the Express
    router, and the properties of the reservation and settlement engine
    stated over it.

    - [Sha256]   : SHA-256 and HMAC-SHA256, what Node's
                   [crypto.createHmac('sha256', key).update(text).digest('hex')]
                   computes;
    - [Binary64] : the IEEE-754 double arithmetic of JavaScript numbers, as far
                   as the price computation uses it;
    - [Api]      : the tables [Items] and [Bookings] and the handlers
                   [POST /bookings], [PUT /bookings/:id/status],
                   [POST /payments/create-order] and [POST /payments/verify].

    Every handler is modelled on the path where the connection to the store
    is obtained and the driver raises no error; a handler is one atomic step
    on the store. *)

From Stdlib Require Import ZArith List String Ascii Bool Lia QArith Sorted.
Import ListNotations.
Open Scope Z_scope.

(* ------------------------------------------------------------------------- *)
(** ** SHA-256 and HMAC (FIPS 180-4, RFC 2104) *)

Module Sha256.

Definition w32 (x : Z) : Z := x mod 2 ^ 32.

Definition add32 (x y : Z) : Z := w32 (x + y).

Definition rotr (n x : Z) : Z :=
  Z.lor (Z.shiftr x n) (w32 (Z.shiftl x (32 - n))).

Definition shr (n x : Z) : Z := Z.shiftr x n.

Definition xor3 (x y z : Z) : Z := Z.lxor x (Z.lxor y z).

Definition Ch (x y z : Z) : Z :=
  Z.lxor (Z.land x y) (Z.land (w32 (Z.lnot x)) z).

Definition Maj (x y z : Z) : Z :=
  xor3 (Z.land x y) (Z.land x z) (Z.land y z).

Definition Sigma0 (x : Z) : Z := xor3 (rotr 2 x) (rotr 13 x) (rotr 22 x).
Definition Sigma1 (x : Z) : Z := xor3 (rotr 6 x) (rotr 11 x) (rotr 25 x).
Definition sigma0 (x : Z) : Z := xor3 (rotr 7 x) (rotr 18 x) (shr 3 x).
Definition sigma1 (x : Z) : Z := xor3 (rotr 17 x) (rotr 19 x) (shr 10 x).

(** The round constants are the first 32 bits of the fractional parts of the
    cube roots of the first 64 primes, the initial hash value those of the
    square roots of the first 8: both are computed rather than tabulated. *)

Definition primes64 : list Z :=
  [2; 3; 5; 7; 11; 13; 17; 19; 23; 29; 31; 37; 41; 43; 47; 53;
   59; 61; 67; 71; 73; 79; 83; 89; 97; 101; 103; 107; 109; 113; 127; 131;
   137; 139; 149; 151; 157; 163; 167; 173; 179; 181; 191; 193; 197; 199;
   211; 223; 227; 229; 233; 239; 241; 251; 257; 263; 269; 271; 277; 281;
   283; 293; 307; 311].

(** [cbrt_between fuel lo hi n]: the largest [r] in [[lo, hi)] with
    [r^3 <= n], by bisection. *)
Fixpoint cbrt_between (fuel : nat) (lo hi n : Z) : Z :=
  match fuel with
  | O => lo
  | S fuel' =>
      if hi - lo <=? 1 then lo
      else
        let mid := (lo + hi) / 2 in
        if mid * mid * mid <=? n then cbrt_between fuel' mid hi n
        else cbrt_between fuel' lo mid n
  end.

Definition cbrt (n : Z) : Z := cbrt_between 128 0 (2 ^ 40) n.

Definition K256 : list Z :=
  Eval vm_compute in map (fun p => w32 (cbrt (p * 2 ^ 96))) primes64.

Definition H0 : list Z :=
  Eval vm_compute in
    map (fun p => w32 (Z.sqrt (p * 2 ^ 64))) (firstn 8 primes64).

(** *** Padding and parsing *)

Definition be_bytes (n : nat) (x : Z) : list Z :=
  map (fun i => Z.land (Z.shiftr x (8 * Z.of_nat i)) 255) (rev (seq 0 n)).

Definition pad (msg : list Z) : list Z :=
  let len := Z.of_nat (List.length msg) in
  let zeros := Z.to_nat ((55 - len) mod 64) in
  msg ++ [128] ++ repeat 0 zeros ++ be_bytes 8 (8 * len).

Definition be_word (b0 b1 b2 b3 : Z) : Z :=
  Z.lor (Z.shiftl b0 24) (Z.lor (Z.shiftl b1 16) (Z.lor (Z.shiftl b2 8) b3)).

Fixpoint words (fuel : nat) (bs : list Z) : list Z :=
  match fuel, bs with
  | S fuel', b0 :: b1 :: b2 :: b3 :: rest =>
      be_word b0 b1 b2 b3 :: words fuel' rest
  | _, _ => []
  end.

Fixpoint blocks (fuel : nat) (ws : list Z) : list (list Z) :=
  match fuel, ws with
  | S fuel', _ :: _ => firstn 16 ws :: blocks fuel' (skipn 16 ws)
  | _, _ => []
  end.

(** *** Message schedule and compression *)

Definition next_word (w : list Z) : Z :=
  add32 (add32 (sigma1 (nth 14 w 0)) (nth 9 w 0))
        (add32 (sigma0 (nth 1 w 0)) (nth 0 w 0)).

(** [w] is the window of the sixteen latest schedule words, oldest first. *)
Fixpoint schedule (n : nat) (w : list Z) : list Z :=
  match n, w with
  | S n', w0 :: rest => w0 :: schedule n' (rest ++ [next_word w])
  | _, _ => []
  end.

Record regs := Regs { ra : Z; rb : Z; rc : Z; rd : Z;
                      re : Z; rf : Z; rg : Z; rh : Z }.

Definition round (s : regs) (kw : Z * Z) : regs :=
  let t1 := add32 (add32 (add32 (rh s) (Sigma1 (re s)))
                         (add32 (Ch (re s) (rf s) (rg s)) (fst kw)))
                  (snd kw) in
  let t2 := add32 (Sigma0 (ra s)) (Maj (ra s) (rb s) (rc s)) in
  Regs (add32 t1 t2) (ra s) (rb s) (rc s) (add32 (rd s) t1) (re s) (rf s) (rg s).

Definition regs_of (h : list Z) : regs :=
  Regs (nth 0 h 0) (nth 1 h 0) (nth 2 h 0) (nth 3 h 0)
       (nth 4 h 0) (nth 5 h 0) (nth 6 h 0) (nth 7 h 0).

Definition list_of (s : regs) : list Z :=
  [ra s; rb s; rc s; rd s; re s; rf s; rg s; rh s].

Definition compress (h : list Z) (block : list Z) : list Z :=
  let s := fold_left round (combine K256 (schedule 64 block)) (regs_of h) in
  map (fun p => add32 (fst p) (snd p)) (combine h (list_of s)).

Definition sha256 (msg : list Z) : list Z :=
  let bs := pad msg in
  let ws := words (List.length bs) bs in
  let h := fold_left compress (blocks (List.length ws) ws) H0 in
  flat_map (be_bytes 4) h.

(** *** HMAC *)

Definition block_size : nat := 64.

Definition hmac_key (key : list Z) : list Z :=
  let k := if (List.length key <=? block_size)%nat then key else sha256 key in
  k ++ repeat 0 (block_size - List.length k).

Definition hmac_sha256 (key msg : list Z) : list Z :=
  let k := hmac_key key in
  let ipad := map (Z.lxor 54) k in
  let opad := map (Z.lxor 92) k in
  sha256 (opad ++ sha256 (ipad ++ msg)).

(** *** Strings, bytes and the hex digest *)

Fixpoint bytes_of_string (s : string) : list Z :=
  match s with
  | EmptyString => []
  | String c s' => Z.of_nat (nat_of_ascii c) :: bytes_of_string s'
  end.

Definition hex_digit (n : Z) : ascii :=
  let n := Z.to_nat n in
  if (n <? 10)%nat then ascii_of_nat (48 + n) else ascii_of_nat (87 + n).

Fixpoint hex (bs : list Z) : string :=
  match bs with
  | [] => EmptyString
  | b :: bs' => String (hex_digit (b / 16)) (String (hex_digit (b mod 16)) (hex bs'))
  end.

(** [crypto.createHmac('sha256', key).update(text).digest('hex')] *)
Definition createHmac_sha256_hex (key text : string) : string :=
  hex (hmac_sha256 (bytes_of_string key) (bytes_of_string text)).

End Sha256.

(* ------------------------------------------------------------------------- *)
(** ** JavaScript numbers

    A finite IEEE-754 binary64 value is carried as the dyadic rational
    [mant * 2 ^ expo]. Every operation computes the exact result and rounds
    it to 53 significant bits, to nearest and ties to even. The exponent
    range is not bounded: the model is that of the engine as long as no
    result leaves the range of normal doubles (no overflow to [Infinity],
    no subnormal result), and [NaN] has no representation. *)

Module Binary64.

Definition prec : Z := 53.

Record float := Float { mant : Z; expo : Z }.

(** [scaled a q = (t, sticky, s)]: [t] is the integer part of
    [(a / q) * 2 ^ s], for [a, q > 0], with [s] chosen so that [t] has at
    least two bits more than the precision; [sticky] tells whether anything
    was cut off. *)
Definition scaled (a q : Z) : Z * bool * Z :=
  let s := prec + 2 + Z.log2 q - Z.log2 a in
  let num := if 0 <=? s then a * 2 ^ s else a in
  let den := if 0 <=? s then q else q * 2 ^ (- s) in
  (num / den, negb (num mod den =? 0), s).

(** [nearest_even t sticky = (m, k)]: [m * 2 ^ k] is [t] (followed by
    [sticky]) rounded to [prec] bits, to nearest and ties to even. *)
Definition nearest_even (t : Z) (sticky : bool) : Z * Z :=
  let k := Z.log2 t + 1 - prec in
  let m := t / 2 ^ k in
  let low := t mod 2 ^ k in
  let half := 2 ^ (k - 1) in
  let up := (half <? low) || ((low =? half) && (sticky || Z.odd m)) in
  (if up then m + 1 else m, k).

(** [round_ne p q e]: the double nearest to [(p / q) * 2 ^ e], for [q > 0]. *)
Definition round_ne (p q e : Z) : float :=
  if p =? 0 then Float 0 0
  else
    let '(t, sticky, s) := scaled (Z.abs p) q in
    let '(m, k) := nearest_even t sticky in
    Float (Z.sgn p * m) (e - s + k).

(** [ToNumber] of a whole number and of a decimal or rational value. *)
Definition of_Z (n : Z) : float := round_ne n 1 0.
Definition of_Q (x : Q) : float := round_ne (Qnum x) (Zpos (Qden x)) 0.

Definition fmul (x y : float) : float :=
  round_ne (mant x * mant y) 1 (expo x + expo y).

Definition fadd (x y : float) : float :=
  let e := Z.min (expo x) (expo y) in
  round_ne (mant x * 2 ^ (expo x - e) + mant y * 2 ^ (expo y - e)) 1 e.

Definition fopp (x : float) : float := Float (- mant x) (expo x).

Definition fsub (x y : float) : float := fadd x (fopp y).

(** Division by a positive whole number. *)
Definition fdiv_pos (x : float) (c : Z) : float :=
  round_ne (mant x) c (expo x).

(** [Math.ceil]; the result is whole and is returned as its value. *)
Definition Math_ceil (x : float) : Z :=
  if 0 <=? expo x then mant x * 2 ^ expo x
  else - ((- mant x) / 2 ^ (- expo x)).

(** The double of a whole number of magnitude below [2 ^ 53], with its 53
    bits of mantissa. *)
Definition normal (n : Z) : float :=
  if n =? 0 then Float 0 0
  else Float (n * 2 ^ (52 - Z.log2 (Z.abs n))) (Z.log2 (Z.abs n) - 52).

(** Sum and product of whole doubles, again whole. *)
Definition add (x y : Z) : Z := Math_ceil (fadd (of_Z x) (of_Z y)).
Definition mul (x y : Z) : Z := Math_ceil (fmul (of_Z x) (of_Z y)).

End Binary64.

(* ------------------------------------------------------------------------- *)
(** ** The store and the handlers *)

Module Api.

(** A [date] is the value of a DATE column or of a date-only ISO 8601 string
    ([YYYY-MM-DD]), as the number of days since 1970-01-01. *)
Definition date := Z.

(** Day number of the civil date [y]-[m]-[d] (proleptic Gregorian). *)
Definition iso_date (y m d : Z) : date :=
  let y' := if m <=? 2 then y - 1 else y in
  let era := y' / 400 in
  let yoe := y' - era * 400 in
  let mp := if m <=? 2 then m + 9 else m - 3 in
  let doy := (153 * mp + 2) / 5 + d - 1 in
  let doe := yoe * 365 + yoe / 4 - yoe / 100 + doy in
  era * 146097 + doe - 719468.

(** The values the handlers write to [Bookings.status]: ['pending'] on
    insertion, the four values the validator of the status route lets
    through, ['confirmed'] on payment verification. *)
Inductive booking_status := pending | confirmed | rejected | completed | cancelled.

(** [Bookings.payment_status]: ['unpaid'] on insertion, ['paid'] on payment
    verification, ['completed'] from [POST /payments/process]. *)
Inductive payment_status := unpaid | paid | payment_completed.

Module Item.
Record t := mk { id : string; owner_id : string; price : Q; price_unit : string }.
End Item.

Module Booking.
Record t := mk {
  id : string;
  user_id : string;
  item_id : string;
  start_date : date;
  end_date : date;
  status : booking_status;
  payment_status : payment_status;
  created_at : Z }.
End Booking.

Record DB := mkDB { Items : list Item.t; Bookings : list Booking.t }.

Definition set_Bookings (db : DB) (bs : list Booking.t) : DB :=
  mkDB (Items db) bs.

(** Request bodies. A date field that fails [isISO8601()] is [None]. *)
Module BookingReq.
Record body := mk {
  item_id : string;
  start_date : option date;
  end_date : option date }.
End BookingReq.

Module OrderReq.
Record body := mk {
  booking_id : string;
  item_id : string;
  start_date : date;
  end_date : date }.
End OrderReq.

Module VerifyReq.
Record body := mk {
  razorpay_order_id : string;
  razorpay_payment_id : string;
  razorpay_signature : string;
  booking_id : string }.
End VerifyReq.

Record Breakdown := mkBreakdown {
  rent_payment : Z;
  platform_fee : Z;
  safety_deposit : Z;
  total : Z }.

(** What [razorpay.orders.create] is called with. *)
Module Order.
Record notes := mkNotes {
  booking_id : string;
  item_id : string;
  start_date : date;
  end_date : date;
  rent_payment : Z;
  platform_fee : Z;
  safety_deposit : Z }.
Record options := mk {
  amount : Z;
  currency : string;
  receipt : string;
  order_notes : notes }.
End Order.

(** The responses of the four handlers. *)
Inductive reply :=
| ValidationErrors                       (* 400 { errors } *)
| ItemNotFound                           (* 404 Item not found *)
| CannotBookOwnItem                      (* 400 Cannot book your own item *)
| ItemNotAvailable                       (* 400 Item is not available for selected dates *)
| BookingCreated (bookingId : string)    (* 201 *)
| NotAuthorized                          (* 403 Not authorized to update this booking *)
| StatusUpdated                          (* 200 Booking status updated successfully *)
| OrderCreated (order_id : string) (amount : Z) (breakdown : Breakdown) (* 200 *)
| FailedToCreateOrder                    (* 500 Failed to create payment order *)
| InvalidPaymentSignature                (* 400 Invalid payment signature *)
| PaymentVerified (payment_id : string). (* 200 *)

Definition http_status (r : reply) : Z :=
  match r with
  | ValidationErrors | CannotBookOwnItem | ItemNotAvailable
  | InvalidPaymentSignature => 400
  | NotAuthorized => 403
  | ItemNotFound => 404
  | FailedToCreateOrder => 500
  | BookingCreated _ => 201
  | StatusUpdated | OrderCreated _ _ _ | PaymentVerified _ => 200
  end.

(** *** POST /bookings *)

(** [status NOT IN ('cancelled', 'rejected')] *)
Definition status_not_in_cancelled_rejected (s : booking_status) : bool :=
  match s with
  | cancelled | rejected => false
  | _ => true
  end.

(** The three disjuncts on the dates of a row, against the requested
    [start_date] and [end_date]. *)
Definition dates_overlap (b : Booking.t) (start_date end_date : date) : bool :=
  ((Booking.start_date b <=? start_date) && (Booking.end_date b >=? start_date))
  || ((Booking.start_date b <=? end_date) && (Booking.end_date b >=? end_date))
  || ((Booking.start_date b >=? start_date) && (Booking.end_date b <=? end_date)).

Definition overlap_row (item_id : string) (start_date end_date : date)
    (b : Booking.t) : bool :=
  String.eqb (Booking.item_id b) item_id
  && status_not_in_cancelled_rejected (Booking.status b)
  && dates_overlap b start_date end_date.

Definition overlapCheck (db : DB) (item_id : string) (start_date end_date : date)
    : list Booking.t :=
  filter (overlap_row item_id start_date end_date) (Bookings db).

Definition itemCheck (db : DB) (item_id : string) : list Item.t :=
  filter (fun i => String.eqb (Item.id i) item_id) (Items db).

Section Handlers.

(** [body("item_id").isUUID()] of express-validator. *)
Variable isUUID : string -> bool.

(** [user] is [req.user.id], [bookingId] the result of [uuidv4()] and [now]
    the store's [CURRENT_TIMESTAMP]. *)
Definition createBooking (user : string) (req : BookingReq.body)
    (bookingId : string) (now : Z) (db : DB) : reply * DB :=
  match isUUID (BookingReq.item_id req),
        BookingReq.start_date req, BookingReq.end_date req with
  | true, Some start_date, Some end_date =>
      let item_id := BookingReq.item_id req in
      match itemCheck db item_id with
      | [] => (ItemNotFound, db)
      | item :: _ =>
          if String.eqb (Item.owner_id item) user then (CannotBookOwnItem, db)
          else
            match overlapCheck db item_id start_date end_date with
            | _ :: _ => (ItemNotAvailable, db)
            | [] =>
                (BookingCreated bookingId,
                 set_Bookings db
                   (Bookings db ++
                    [Booking.mk bookingId user item_id start_date end_date
                                pending unpaid now]))
            end
      end
  | _, _, _ => (ValidationErrors, db)
  end.

End Handlers.

(** *** PUT /bookings/:id/status *)

(** [body("status").isIn(["confirmed", "rejected", "completed", "cancelled"])] *)
Definition parse_status (s : string) : option booking_status :=
  if String.eqb s "confirmed"%string then Some confirmed
  else if String.eqb s "rejected"%string then Some rejected
  else if String.eqb s "completed"%string then Some completed
  else if String.eqb s "cancelled"%string then Some cancelled
  else None.

(** The join of [Bookings] and [Items] on the booking [bookingId] and the
    owner [user]. *)
Definition ownerCheck (db : DB) (bookingId user : string) : list string :=
  flat_map
    (fun b =>
       if String.eqb (Booking.id b) bookingId then
         map (fun _ => Booking.id b)
             (filter (fun i => String.eqb (Item.id i) (Booking.item_id b)
                               && String.eqb (Item.owner_id i) user)
                     (Items db))
       else [])
    (Bookings db).

Definition set_status (st : booking_status) (b : Booking.t) : Booking.t :=
  Booking.mk (Booking.id b) (Booking.user_id b) (Booking.item_id b)
             (Booking.start_date b) (Booking.end_date b)
             st (Booking.payment_status b) (Booking.created_at b).

(** [UPDATE Bookings SET ... WHERE id = ?] *)
Definition update_where_id (bookingId : string) (f : Booking.t -> Booking.t)
    (bs : list Booking.t) : list Booking.t :=
  map (fun b => if String.eqb (Booking.id b) bookingId then f b else b) bs.

Definition updateBookingStatus (user bookingId status : string) (db : DB)
    : reply * DB :=
  match parse_status status with
  | None => (ValidationErrors, db)
  | Some st =>
      match ownerCheck db bookingId user with
      | [] => (NotAuthorized, db)
      | _ :: _ =>
          (StatusUpdated,
           set_Bookings db (update_where_id bookingId (set_status st) (Bookings db)))
      end
  end.

(** *** POST /payments/create-order *)

Definition msPerDay : Z := 1000 * 60 * 60 * 24.

(** The time value of [new Date(d)] for a date-only string: UTC midnight. *)
Definition getTime (d : date) : Z := d * msPerDay.

Definition daysDiff (start_date end_date : date) : Z :=
  Binary64.Math_ceil
    (Binary64.fdiv_pos
       (Binary64.fsub (Binary64.of_Z (getTime end_date))
                      (Binary64.of_Z (getTime start_date)))
       msPerDay).

Definition rentPayment (PRICE : Q) (days : Z) : Z :=
  Binary64.Math_ceil (Binary64.fmul (Binary64.of_Q PRICE) (Binary64.of_Z days)).

Definition platformFee (rent : Z) : Z :=
  Binary64.Math_ceil (Binary64.fmul (Binary64.of_Z rent) (Binary64.of_Q (15 # 100))).

Definition safetyDeposit : Z := 200.

Definition totalAmount (rent fee : Z) : Z :=
  Binary64.add (Binary64.add rent fee) safetyDeposit.

Definition computeBreakdown (PRICE : Q) (start_date end_date : date) : Breakdown :=
  let rent := rentPayment PRICE (daysDiff start_date end_date) in
  let fee := platformFee rent in
  mkBreakdown rent fee safetyDeposit (totalAmount rent fee).

Definition order_options (req : OrderReq.body) (bd : Breakdown) : Order.options :=
  Order.mk (Binary64.mul (total bd) 100) "INR"%string
           ("booking_" ++ OrderReq.booking_id req)%string
           (Order.mkNotes (OrderReq.booking_id req) (OrderReq.item_id req)
                          (OrderReq.start_date req) (OrderReq.end_date req)
                          (rent_payment bd) (platform_fee bd) (safety_deposit bd)).

Section Gateway.

(** [razorpay.orders.create]: the identifier of the order the gateway opens,
    or [None] when the call is rejected. *)
Variable orders_create : Order.options -> option string.

(** The reply, and the calls made to the gateway. *)
Definition createOrder (req : OrderReq.body) (db : DB)
    : reply * list Order.options :=
  match itemCheck db (OrderReq.item_id req) with
  | [] => (ItemNotFound, [])
  | item :: _ =>
      let bd := computeBreakdown (Item.price item)
                  (OrderReq.start_date req) (OrderReq.end_date req) in
      let opts := order_options req bd in
      match orders_create opts with
      | None => (FailedToCreateOrder, [opts])
      | Some order_id => (OrderCreated order_id (total bd) bd, [opts])
      end
  end.

End Gateway.

(** *** POST /payments/verify *)

(** [process.env.RAZORPAY_KEY_SECRET || 'your_key_secret'] *)
Definition key_secret (RAZORPAY_KEY_SECRET : option string) : string :=
  match RAZORPAY_KEY_SECRET with
  | Some k => if String.eqb k EmptyString then "your_key_secret"%string else k
  | None => "your_key_secret"%string
  end.

Definition expected_signature (env : option string) (req : VerifyReq.body) : string :=
  let text := (VerifyReq.razorpay_order_id req ++ "|"
               ++ VerifyReq.razorpay_payment_id req)%string in
  Sha256.createHmac_sha256_hex (key_secret env) text.

Definition set_confirmed_paid (b : Booking.t) : Booking.t :=
  Booking.mk (Booking.id b) (Booking.user_id b) (Booking.item_id b)
             (Booking.start_date b) (Booking.end_date b)
             confirmed paid (Booking.created_at b).

Definition verifyPayment (env : option string) (req : VerifyReq.body) (db : DB)
    : reply * DB :=
  if negb (String.eqb (expected_signature env req) (VerifyReq.razorpay_signature req))
  then (InvalidPaymentSignature, db)
  else
    (PaymentVerified (VerifyReq.razorpay_payment_id req),
     set_Bookings db
       (update_where_id (VerifyReq.booking_id req) set_confirmed_paid (Bookings db))).

End Api.

Import Api.

(* ------------------------------------------------------------------------- *)
(** ** The client, [RazorpayPayment.handlePayment] *)

(** The [amount] option handed to the checkout, from the [amount] field of
    the create-order response. *)
Definition checkout_amount (amount : Z) : Z := Binary64.mul amount 100.

(* ------------------------------------------------------------------------- *)
(** ** Sequences of requests *)

Inductive op :=
| CreateBooking (user : string) (req : BookingReq.body) (bookingId : string) (now : Z)
| UpdateBookingStatus (user bookingId status : string)
| VerifyPayment (env : option string) (req : VerifyReq.body).

Definition run (isUUID : string -> bool) (o : op) (db : DB) : reply * DB :=
  match o with
  | CreateBooking user req bookingId now => createBooking isUUID user req bookingId now db
  | UpdateBookingStatus user bookingId status => updateBookingStatus user bookingId status db
  | VerifyPayment env req => verifyPayment env req db
  end.

Fixpoint run_all (isUUID : string -> bool) (ops : list op) (db : DB) : DB :=
  match ops with
  | [] => db
  | o :: ops' => run_all isUUID ops' (snd (run isUUID o db))
  end.

(** The store before any booking is made. *)
Definition initial (items : list Item.t) : DB := mkDB items [].

Definition reachable (isUUID : string -> bool) (db : DB) : Prop :=
  exists items ops, db = run_all isUUID ops (initial items).

(* ------------------------------------------------------------------------- *)
(** ** The properties *)

Definition active (b : Booking.t) : Prop :=
  Booking.status b <> cancelled /\ Booking.status b <> rejected.

(** Two ranges overlap when they share a day, both ends included. *)
Definition ranges_overlap (s1 e1 s2 e2 : date) : Prop := s1 <= e2 /\ s2 <= e1.

Definition compatible (a b : Booking.t) : Prop :=
  Booking.item_id a = Booking.item_id b ->
  active a -> active b ->
  ~ ranges_overlap (Booking.start_date a) (Booking.end_date a)
                   (Booking.start_date b) (Booking.end_date b).

Definition no_double_booking (db : DB) : Prop :=
  ForallOrdPairs compatible (Bookings db).

(** [user] owns the item of a booking named [bookingId]. *)
Definition owns_item_of (db : DB) (user bookingId : string) : Prop :=
  exists b i,
    In b (Bookings db) /\ Booking.id b = bookingId
    /\ In i (Items db) /\ Item.id i = Booking.item_id b /\ Item.owner_id i = user.

(** Some row named [bookingId] is cancelled or rejected. *)
Definition names_inactive (bookingId : string) (db : DB) : bool :=
  existsb (fun b => String.eqb (Booking.id b) bookingId
                    && negb (status_not_in_cancelled_rejected (Booking.status b)))
          (Bookings db).

(** The request, handled alone, moves a cancelled or rejected booking to a
    status that is neither: a status update that passes the validator and
    the check of the owner, or a verification whose signature matches. A
    request that is refused reactivates nothing. *)
Definition reactivates (o : op) (db : DB) : bool :=
  match o with
  | CreateBooking _ _ _ _ => false
  | UpdateBookingStatus user bookingId status =>
      match parse_status status, ownerCheck db bookingId user with
      | Some st, _ :: _ =>
          status_not_in_cancelled_rejected st && names_inactive bookingId db
      | _, _ => false
      end
  | VerifyPayment env req =>
      String.eqb (expected_signature env req) (VerifyReq.razorpay_signature req)
      && names_inactive (VerifyReq.booking_id req) db
  end.

Fixpoint never_reactivates (isUUID : string -> bool) (ops : list op) (db : DB) : bool :=
  match ops with
  | [] => true
  | o :: ops' =>
      negb (reactivates o db) && never_reactivates isUUID ops' (snd (run isUUID o db))
  end.

(** The transitions of the status diagram
    [pending -> confirmed | rejected], [confirmed -> completed | cancelled].
    No handler consults it. *)
Definition enumerated_transition (from to : booking_status) : bool :=
  match from, to with
  | pending, confirmed | pending, rejected
  | confirmed, completed | confirmed, cancelled => true
  | _, _ => false
  end.

(** The orders opened through create-order, latest first, as pairs of the
    booking named in the notes and the identifier the gateway returned. No
    handler stores or reads them. *)
Definition order_log := list (string * string).

Definition log_order (r : reply * list Order.options) (log : order_log) : order_log :=
  match r with
  | (OrderCreated order_id _ _, opts :: _) =>
      (Order.booking_id (Order.order_notes opts), order_id) :: log
  | _ => log
  end.

Fixpoint latest_order (log : order_log) (bookingId : string) : option string :=
  match log with
  | [] => None
  | (b, o) :: log' => if String.eqb b bookingId then Some o else latest_order log' bookingId
  end.

(** Flipping bit [i] of a string, bit 0 being the lowest bit of the first
    character. *)
Definition flip_ascii (i : nat) (c : ascii) : ascii :=
  let 'Ascii b0 b1 b2 b3 b4 b5 b6 b7 := c in
  match i with
  | 0%nat => Ascii (negb b0) b1 b2 b3 b4 b5 b6 b7
  | 1%nat => Ascii b0 (negb b1) b2 b3 b4 b5 b6 b7
  | 2%nat => Ascii b0 b1 (negb b2) b3 b4 b5 b6 b7
  | 3%nat => Ascii b0 b1 b2 (negb b3) b4 b5 b6 b7
  | 4%nat => Ascii b0 b1 b2 b3 (negb b4) b5 b6 b7
  | 5%nat => Ascii b0 b1 b2 b3 b4 (negb b5) b6 b7
  | 6%nat => Ascii b0 b1 b2 b3 b4 b5 (negb b6) b7
  | _ => Ascii b0 b1 b2 b3 b4 b5 b6 (negb b7)
  end.

Fixpoint flip_bit (i : nat) (s : string) : string :=
  match s with
  | EmptyString => EmptyString
  | String c s' =>
      if (i <? 8)%nat then String (flip_ascii i c) s'
      else String c (flip_bit (i - 8) s')
  end.

(* ------------------------------------------------------------------------- *)
(** ** Sample data *)

Module Sample.

Local Open Scope string_scope.

Definition is_hex (c : ascii) : bool :=
  let n := nat_of_ascii c in
  ((48 <=? n) && (n <=? 57) || (65 <=? n) && (n <=? 70)
   || (97 <=? n) && (n <=? 102))%nat.

(** The shape 8-4-4-4-12 of hexadecimal digits. *)
Fixpoint uuid_from (pos : nat) (s : string) : bool :=
  match s with
  | EmptyString => Nat.eqb pos 36
  | String c s' =>
      (if existsb (Nat.eqb pos) [8; 13; 18; 23]%nat
       then Ascii.eqb c "-"%char else is_hex c)
      && uuid_from (S pos) s'
  end.

Definition isUUID : string -> bool := uuid_from 0.

Definition drill : string := "7c9e6679-7425-40de-944b-e07fc1f90ae7".
Definition tent : string := "0b8f3a52-1d4e-4c6a-9f27-5a3e8c1d2b40".

Definition b1 : string := "3d6f0a1e-8c2b-4f7d-a5e9-1b4c7d2e9f01".
Definition b2 : string := "9a4e2c7b-5f18-4d3a-8b6c-2e7f1a9d4c02".

Definition items : list Item.t :=
  [ Item.mk drill "owner-1" (100 # 1) "day";
    Item.mk tent "owner-2" (7 # 100) "day" ].

Definition may_1 : date := iso_date 2024 5 1.
Definition may_3 : date := iso_date 2024 5 3.
Definition may_5 : date := iso_date 2024 5 5.
Definition may_6 : date := iso_date 2024 5 6.
Definition may_10 : date := iso_date 2024 5 10.

Definition request (item : string) (s e : date) : BookingReq.body :=
  BookingReq.mk item (Some s) (Some e).

Definition booking (id item : string) (s e : date) (st : booking_status)
    : Booking.t :=
  Booking.mk id "renter-1" item s e st unpaid 0.

(** One booking of the drill, 1 to 5 May. *)
Definition one_booking (st : booking_status) : DB :=
  mkDB items [booking b1 drill may_1 may_5 st].

(** A booking is made, rejected by the owner, the same days are booked by
    somebody else, and the owner then confirms the first booking. *)
Definition revive_rejected : list op :=
  [ CreateBooking "renter-1" (request drill may_1 may_5) b1 1;
    UpdateBookingStatus "owner-1" b1 "rejected";
    CreateBooking "renter-2" (request drill may_3 may_6) b2 2;
    UpdateBookingStatus "owner-1" b1 "confirmed" ].

(** The same without the last step. *)
Definition reject_and_rebook : list op := firstn 3 revive_rejected.

(** Two bookings of the drill on disjoint days. *)
Definition two_bookings : DB :=
  mkDB items [booking b1 drill may_1 may_5 pending;
              booking b2 drill may_6 may_10 pending].

Definition secret : option string := Some "rzp_secret_5Kx".

(** The signature the gateway issues for a payment of an order. *)
Definition signature_of (order payment : string) : string :=
  Sha256.createHmac_sha256_hex (key_secret secret) (order ++ "|" ++ payment).

Definition signed (order payment booking : string) : VerifyReq.body :=
  VerifyReq.mk order payment (signature_of order payment) booking.

Definition forged : VerifyReq.body :=
  VerifyReq.mk "order_N7a1" "pay_Q2b8"
    "5bdcc146bf60754e6a042426089575c75a003f089d2739839dec58b964ec3843" b1.

(** A gateway that refuses orders of less than one rupee. *)
Definition gateway (opts : Order.options) : option string :=
  if (100 <=? Order.amount opts)%Z then Some "order_N7a1" else None.

(** A gateway that accepts whatever it is asked. *)
Definition other_gateway (opts : Order.options) : option string :=
  Some ("order_" ++ Order.receipt opts).

Definition order_req : OrderReq.body := OrderReq.mk b1 drill may_1 may_3.
Definition other_order_req : OrderReq.body := OrderReq.mk b2 drill may_1 may_3.

(** An order is opened for the first of two bookings; its identifier and
    signature are then presented for the second. *)
Definition opened : order_log :=
  log_order (createOrder gateway order_req two_bookings) [].

Definition replayed : VerifyReq.body := signed "order_N7a1" "pay_Q2b8" b2.

End Sample.

(* ------------------------------------------------------------------------- *)
(** ** The other handlers of the router *)

(** *** The middleware [authenticateToken] *)

Module Auth.

(** [s.split(sep)] for a one-character separator. *)
Fixpoint split (sep : ascii) (s : string) : list string :=
  match s with
  | EmptyString => [EmptyString]
  | String c s' =>
      if Ascii.eqb c sep then EmptyString :: split sep s'
      else
        match split sep s' with
        | [] => [String c EmptyString]
        | w :: ws => String c w :: ws
        end
  end.

(** The character [sep] does not occur in [s]. *)
Fixpoint free_of (sep : ascii) (s : string) : bool :=
  match s with
  | EmptyString => true
  | String c s' => negb (Ascii.eqb c sep) && free_of sep s'
  end.

(** [authHeader && authHeader.split(" ")[1]]; [None] is a value that
    [!token] takes for missing. *)
Definition token_of (authorization : option string) : option string :=
  match authorization with
  | None => None
  | Some authHeader =>
      if String.eqb authHeader EmptyString then None
      else
        match nth_error (split " " authHeader) 1 with
        | None => None
        | Some t => if String.eqb t EmptyString then None else Some t
        end
  end.

(** [process.env.JWT_SECRET || "your-secret-key"] *)
Definition jwt_secret (JWT_SECRET : option string) : string :=
  match JWT_SECRET with
  | Some k => if String.eqb k EmptyString then "your-secret-key"%string else k
  | None => "your-secret-key"%string
  end.

Inductive outcome (user : Type) :=
| AccessTokenRequired          (* 401 Access token required *)
| InvalidToken                 (* 403 Invalid token *)
| Next (req_user : user).      (* next(), with req.user set *)

Arguments AccessTokenRequired {user}.
Arguments InvalidToken {user}.
Arguments Next {user} req_user.

Section Middleware.

Variable user : Type.

(** [jwt.verify(token, secret)]: the payload of a token that verifies. *)
Variable jwt_verify : string -> string -> option user.

Definition authenticateToken (env : option string) (authorization : option string)
    : outcome user :=
  match token_of authorization with
  | None => AccessTokenRequired
  | Some token =>
      match jwt_verify token (jwt_secret env) with
      | None => InvalidToken
      | Some u => Next u
      end
  end.

End Middleware.

End Auth.

(** *** GET /bookings *)

Module User.
Record t := mk { id : string; name : string; phone : string }.
End User.

Module Listing.

(** A row of the join of a booking with its item and a user. *)
Record row := mk { booking : Booking.t; item : Item.t; person : User.t }.

(** [ORDER BY b.created_at DESC], by insertion. *)
Fixpoint insert_desc (r : row) (rs : list row) : list row :=
  match rs with
  | [] => [r]
  | r' :: rs' =>
      if Booking.created_at (booking r') <? Booking.created_at (booking r)
      then r :: rs
      else r' :: insert_desc r rs'
  end.

Fixpoint order_by_created_at_desc (rs : list row) : list row :=
  match rs with
  | [] => []
  | r :: rs' => insert_desc r (order_by_created_at_desc rs')
  end.

(** [FROM Bookings b JOIN Items i ON b.item_id = i.id JOIN Users u ON ...],
    the user joined being the renter ([on_renter]) or the owner of the
    item. *)
Definition join (on_renter : bool) (users : list User.t) (db : DB) : list row :=
  flat_map
    (fun b =>
       flat_map
         (fun i =>
            if String.eqb (Booking.item_id b) (Item.id i) then
              map (mk b i)
                  (filter (fun u => String.eqb
                                      (if on_renter then Booking.user_id b
                                       else Item.owner_id i)
                                      (User.id u))
                          users)
            else [])
         (Items db))
    (Bookings db).

(** [type] is the query parameter, ["renter"] when absent; [user] is
    [req.user.id]. *)
Definition getBookings (type : option string) (user : string)
    (users : list User.t) (db : DB) : list row :=
  let type := match type with Some t => t | None => "renter"%string end in
  if String.eqb type "owner" then
    order_by_created_at_desc
      (filter (fun r => String.eqb (Item.owner_id (item r)) user)
              (join true users db))
  else
    order_by_created_at_desc
      (filter (fun r => String.eqb (Booking.user_id (booking r)) user)
              (join false users db)).

End Listing.

(** *** POST /payments/process *)

Module Payments.

(** [booking_id] and [payment_method] are strings or absent;
    [payment_details], when present, is an object, here of string fields. *)
Record body := mk {
  booking_id : option string;
  payment_method : option string;
  payment_details : option (list (string * string)) }.

(** [!field] for a string field. *)
Definition missing (field : option string) : bool :=
  match field with
  | None => true
  | Some s => String.eqb s EmptyString
  end.

(** [!payment_details]: an object is never falsy. *)
Definition missing_details (field : option (list (string * string))) : bool :=
  match field with
  | None => true
  | Some _ => false
  end.

Inductive reply :=
| MissingRequiredFields (booking_id payment_method payment_details : bool) (* 400 *)
| BookingNotFound                                                         (* 404 *)
| PaymentProcessed (id : string) (amount : Binary64.float) (booking_id : string). (* 200 *)

(** The join of the booking [booking_id] of [user] with its item; each row
    carries [DATEDIFF(b.end_date, b.start_date)], the days from start to
    end. *)
Definition bookingCheck (db : DB) (booking_id user : string)
    : list (Booking.t * Item.t * Z) :=
  flat_map
    (fun b =>
       if String.eqb (Booking.id b) booking_id && String.eqb (Booking.user_id b) user
       then
         map (fun i => (b, i, Booking.end_date b - Booking.start_date b))
             (filter (fun i => String.eqb (Booking.item_id b) (Item.id i)) (Items db))
       else [])
    (Bookings db).

(** [booking.DAYS || 1] *)
Definition days_or_1 (DAYS : Z) : Z := if DAYS =? 0 then 1 else DAYS.

(** [days * parseFloat(booking.PRICE)] *)
Definition totalAmount (DAYS : Z) (PRICE : Q) : Binary64.float :=
  Binary64.fmul (Binary64.of_Z (days_or_1 DAYS)) (Binary64.of_Q PRICE).

Definition set_payment_completed (b : Booking.t) : Booking.t :=
  Booking.mk (Booking.id b) (Booking.user_id b) (Booking.item_id b)
             (Booking.start_date b) (Booking.end_date b)
             (Booking.status b) payment_completed (Booking.created_at b).

(** [user] is [req.user.id] and [paymentId] the result of [uuidv4()]. *)
Definition processPayment (user : string) (req : body) (paymentId : string) (db : DB)
    : reply * DB :=
  if missing (booking_id req) || missing (payment_method req)
     || missing_details (payment_details req)
  then (MissingRequiredFields (missing (booking_id req)) (missing (payment_method req))
                              (missing_details (payment_details req)), db)
  else
    let id := match booking_id req with Some s => s | None => EmptyString end in
    match bookingCheck db id user with
    | [] => (BookingNotFound, db)
    | (b, i, DAYS) :: _ =>
        (PaymentProcessed paymentId (totalAmount DAYS (Item.price i)) id,
         set_Bookings db (update_where_id id set_payment_completed (Bookings db)))
    end.

End Payments.

(** *** POST /reviews *)

Module Review.
Record t := mk {
  id : string;
  user_id : string;
  item_id : string;
  rating : Z;
  comment : string;
  created_at : Z }.
End Review.

Module Reviews.

(** [rating] is [None] when the field is not an integer; [comment] is the
    empty string when the field is absent. Lengths are counted on strings of
    one-byte characters. *)
Record body := mk {
  item_id : string;
  rating : option Z;
  comment : string }.

Inductive reply :=
| ValidationErrors          (* 400 { errors } *)
| OnlyRentedItems           (* 400 Can only review items you have rented *)
| AlreadyReviewed           (* 400 You have already reviewed this item *)
| ReviewCreated (reviewId : string).   (* 201 *)

(** [isInt({ min: 1, max: 5 })] *)
Definition valid_rating (rating : option Z) : option Z :=
  match rating with
  | Some r => if (1 <=? r) && (r <=? 5) then Some r else None
  | None => None
  end.

(** [isLength({ min: 10 })] *)
Definition valid_comment (comment : string) : bool :=
  (10 <=? String.length comment)%nat.

(** The completed bookings of the item by the user. *)
Definition bookingCheck (db : DB) (user item_id : string) : list Booking.t :=
  filter (fun b => String.eqb (Booking.user_id b) user
                   && String.eqb (Booking.item_id b) item_id
                   && match Booking.status b with completed => true | _ => false end)
         (Bookings db).

Definition existingReview (reviews : list Review.t) (user item_id : string)
    : list Review.t :=
  filter (fun r => String.eqb (Review.user_id r) user
                   && String.eqb (Review.item_id r) item_id)
         reviews.

Section Handler.

Variable isUUID : string -> bool.

(** [user] is [req.user.id], [reviewId] the result of [uuidv4()], [now] the
    store's [CURRENT_TIMESTAMP]. *)
Definition createReview (user : string) (req : body) (reviewId : string) (now : Z)
    (db : DB) (reviews : list Review.t) : reply * list Review.t :=
  match isUUID (item_id req), valid_rating (rating req), valid_comment (comment req) with
  | true, Some r, true =>
      match bookingCheck db user (item_id req) with
      | [] => (OnlyRentedItems, reviews)
      | _ :: _ =>
          match existingReview reviews user (item_id req) with
          | _ :: _ => (AlreadyReviewed, reviews)
          | [] =>
              (ReviewCreated reviewId,
               reviews ++ [Review.mk reviewId user (item_id req) r (comment req) now])
          end
      end
  | _, _, _ => (ValidationErrors, reviews)
  end.

End Handler.

End Reviews.

(** *** Sequences of all the requests that write *)

Inductive request :=
| BookingRequest (o : op)
| ProcessPayment (user : string) (req : Payments.body) (paymentId : string)
| CreateReview (user : string) (req : Reviews.body) (reviewId : string) (now : Z).

(** The store: the tables [Items] and [Bookings], and [Reviews]. *)
Definition serve (isUUID : string -> bool) (r : request) (st : DB * list Review.t)
    : DB * list Review.t :=
  match r with
  | BookingRequest o => (snd (run isUUID o (fst st)), snd st)
  | ProcessPayment user req paymentId =>
      (snd (Payments.processPayment user req paymentId (fst st)), snd st)
  | CreateReview user req reviewId now =>
      (fst st, snd (Reviews.createReview isUUID user req reviewId now (fst st) (snd st)))
  end.

Fixpoint serve_all (isUUID : string -> bool) (rs : list request)
    (st : DB * list Review.t) : DB * list Review.t :=
  match rs with
  | [] => st
  | r :: rs' => serve_all isUUID rs' (serve isUUID r st)
  end.

(** What may become of a row: nothing but its two statuses changes, it does
    not return to pending once it has left it, nor to unpaid. *)
Definition evolves (b b' : Booking.t) : Prop :=
  Booking.id b' = Booking.id b
  /\ Booking.user_id b' = Booking.user_id b
  /\ Booking.item_id b' = Booking.item_id b
  /\ Booking.start_date b' = Booking.start_date b
  /\ Booking.end_date b' = Booking.end_date b
  /\ Booking.created_at b' = Booking.created_at b
  /\ (Booking.status b <> pending -> Booking.status b' <> pending)
  /\ (Booking.payment_status b <> unpaid -> Booking.payment_status b' <> unpaid).

(** The rows [bs'] are the rows [bs], each possibly evolved, followed by
    new ones. *)
Definition extends (bs bs' : list Booking.t) : Prop :=
  exists old added, bs' = old ++ added /\ Forall2 evolves bs old.

(** The item of the booking exists and is not the renter's. *)
Definition books_item_of_another (db : DB) (b : Booking.t) : Prop :=
  exists it rest,
    itemCheck db (Booking.item_id b) = it :: rest
    /\ Item.owner_id it <> Booking.user_id b.

Definition all_of_another (db : DB) : Prop :=
  Forall (books_item_of_another db) (Bookings db).

(** The review has between one and five stars and a comment of ten
    characters or more. *)
Definition well_formed_review (r : Review.t) : Prop :=
  1 <= Review.rating r <= 5 /\ (10 <= String.length (Review.comment r))%nat.

(** The author of the review has a booking of the reviewed item that has
    left the pending state. *)
Definition backed_by_booking (db : DB) (r : Review.t) : Prop :=
  exists b, In b (Bookings db)
            /\ Booking.user_id b = Review.user_id r
            /\ Booking.item_id b = Review.item_id r
            /\ Booking.status b <> pending.

(** The reviews are by different users or of different items. *)
Definition one_review_each (reviews : list Review.t) : Prop :=
  ForallOrdPairs
    (fun r r' => ~ (Review.user_id r = Review.user_id r'
                    /\ Review.item_id r = Review.item_id r'))
    reviews.

(* ------------------------------------------------------------------------- *)
(** ** Requests in flight

    A handler is an async function: it runs up to the next statement it
    awaits on the store and gives way to the other requests meanwhile. No
    handler opens a transaction, and every request has a connection of its
    own. A request in flight is carried as the statement it awaits next,
    with what the handler holds in its variables at that point. *)

Inductive answer :=
| Reply (r : reply)
| PaymentReply (r : Payments.reply)
| ReviewReply (r : Reviews.reply).

Inductive task :=
(* POST /bookings; [row] is the row the request is about to insert *)
| AwaitItemCheck (row : Booking.t)       (* SELECT owner_id FROM Items WHERE id = ? *)
| AwaitOverlapCheck (row : Booking.t)    (* SELECT id FROM Bookings WHERE ... *)
| AwaitInsertBooking (row : Booking.t)   (* INSERT INTO Bookings ... *)
(* PUT /bookings/:id/status *)
| AwaitOwnerCheck (user bookingId : string) (status : booking_status)
| AwaitUpdateStatus (bookingId : string) (status : booking_status)
(* POST /payments/verify, the signature having matched *)
| AwaitUpdateVerified (req : VerifyReq.body)
(* POST /payments/process *)
| AwaitBookingCheck (user booking_id paymentId : string)
| AwaitUpdatePayment (booking_id paymentId : string) (amount : Binary64.float)
(* POST /reviews; [row] is the row the request is about to insert *)
| AwaitRentedCheck (row : Review.t)      (* SELECT id FROM Bookings ... 'completed' *)
| AwaitExistingReview (row : Review.t)   (* SELECT id FROM Reviews WHERE ... *)
| AwaitInsertReview (row : Review.t)     (* INSERT INTO Reviews ... *)
(* the response is sent *)
| Answered (a : answer).

(** What a handler does before its first statement on the store: the
    validators, and the signature check of the verification. *)
Definition arrive (isUUID : string -> bool) (r : request) : task :=
  match r with
  | BookingRequest (CreateBooking user req bookingId now) =>
      match isUUID (BookingReq.item_id req),
            BookingReq.start_date req, BookingReq.end_date req with
      | true, Some start_date, Some end_date =>
          AwaitItemCheck (Booking.mk bookingId user (BookingReq.item_id req)
                                     start_date end_date pending unpaid now)
      | _, _, _ => Answered (Reply ValidationErrors)
      end
  | BookingRequest (UpdateBookingStatus user bookingId status) =>
      match parse_status status with
      | Some st => AwaitOwnerCheck user bookingId st
      | None => Answered (Reply ValidationErrors)
      end
  | BookingRequest (VerifyPayment env req) =>
      if negb (String.eqb (expected_signature env req) (VerifyReq.razorpay_signature req))
      then Answered (Reply InvalidPaymentSignature)
      else AwaitUpdateVerified req
  | ProcessPayment user req paymentId =>
      if Payments.missing (Payments.booking_id req)
         || Payments.missing (Payments.payment_method req)
         || Payments.missing_details (Payments.payment_details req)
      then Answered (PaymentReply
                       (Payments.MissingRequiredFields
                          (Payments.missing (Payments.booking_id req))
                          (Payments.missing (Payments.payment_method req))
                          (Payments.missing_details (Payments.payment_details req))))
      else AwaitBookingCheck user
             (match Payments.booking_id req with Some s => s | None => EmptyString end)
             paymentId
  | CreateReview user req reviewId now =>
      match isUUID (Reviews.item_id req), Reviews.valid_rating (Reviews.rating req),
            Reviews.valid_comment (Reviews.comment req) with
      | true, Some r, true =>
          AwaitRentedCheck (Review.mk reviewId user (Reviews.item_id req) r
                                      (Reviews.comment req) now)
      | _, _, _ => Answered (ReviewReply Reviews.ValidationErrors)
      end
  end.

(** One awaited statement, on the tables as they are when it runs, and what
    the handler does with its result up to the next one. *)
Definition resume (t : task) (st : DB * list Review.t) : task * (DB * list Review.t) :=
  let db := fst st in
  let reviews := snd st in
  match t with
  | AwaitItemCheck row =>
      match itemCheck db (Booking.item_id row) with
      | [] => (Answered (Reply ItemNotFound), st)
      | item :: _ =>
          if String.eqb (Item.owner_id item) (Booking.user_id row)
          then (Answered (Reply CannotBookOwnItem), st)
          else (AwaitOverlapCheck row, st)
      end
  | AwaitOverlapCheck row =>
      match overlapCheck db (Booking.item_id row)
                         (Booking.start_date row) (Booking.end_date row) with
      | _ :: _ => (Answered (Reply ItemNotAvailable), st)
      | [] => (AwaitInsertBooking row, st)
      end
  | AwaitInsertBooking row =>
      (Answered (Reply (BookingCreated (Booking.id row))),
       (set_Bookings db
          (Bookings db ++
           [Booking.mk (Booking.id row) (Booking.user_id row) (Booking.item_id row)
                       (Booking.start_date row) (Booking.end_date row)
                       pending unpaid (Booking.created_at row)]),
        reviews))
  | AwaitOwnerCheck user bookingId status =>
      match ownerCheck db bookingId user with
      | [] => (Answered (Reply NotAuthorized), st)
      | _ :: _ => (AwaitUpdateStatus bookingId status, st)
      end
  | AwaitUpdateStatus bookingId status =>
      (Answered (Reply StatusUpdated),
       (set_Bookings db (update_where_id bookingId (set_status status) (Bookings db)),
        reviews))
  | AwaitUpdateVerified req =>
      (Answered (Reply (PaymentVerified (VerifyReq.razorpay_payment_id req))),
       (set_Bookings db
          (update_where_id (VerifyReq.booking_id req) set_confirmed_paid (Bookings db)),
        reviews))
  | AwaitBookingCheck user booking_id paymentId =>
      match Payments.bookingCheck db booking_id user with
      | [] => (Answered (PaymentReply Payments.BookingNotFound), st)
      | (b, i, DAYS) :: _ =>
          (AwaitUpdatePayment booking_id paymentId
             (Payments.totalAmount DAYS (Item.price i)), st)
      end
  | AwaitUpdatePayment booking_id paymentId amount =>
      (Answered (PaymentReply (Payments.PaymentProcessed paymentId amount booking_id)),
       (set_Bookings db
          (update_where_id booking_id Payments.set_payment_completed (Bookings db)),
        reviews))
  | AwaitRentedCheck row =>
      match Reviews.bookingCheck db (Review.user_id row) (Review.item_id row) with
      | [] => (Answered (ReviewReply Reviews.OnlyRentedItems), st)
      | _ :: _ => (AwaitExistingReview row, st)
      end
  | AwaitExistingReview row =>
      match Reviews.existingReview reviews (Review.user_id row) (Review.item_id row) with
      | _ :: _ => (Answered (ReviewReply Reviews.AlreadyReviewed), st)
      | [] => (AwaitInsertReview row, st)
      end
  | AwaitInsertReview row =>
      (Answered (ReviewReply (Reviews.ReviewCreated (Review.id row))),
       (db, reviews ++ [row]))
  | Answered a => (Answered a, st)
  end.

(** The tables and the requests in flight, in the order of their arrival. *)
Record world := mkWorld {
  tables : DB * list Review.t;
  flight : list task }.

(** A request arrives, or the request at a position of the list is resumed
    for one statement. *)
Inductive event :=
| Arrive (r : request)
| Resume (n : nat).

Fixpoint replace_nth {A : Type} (n : nat) (x : A) (l : list A) : list A :=
  match l, n with
  | [], _ => []
  | _ :: l', O => x :: l'
  | a :: l', S n' => a :: replace_nth n' x l'
  end.

Definition step (isUUID : string -> bool) (e : event) (w : world) : world :=
  match e with
  | Arrive r => mkWorld (tables w) (flight w ++ [arrive isUUID r])
  | Resume n =>
      match nth_error (flight w) n with
      | None => w
      | Some t =>
          mkWorld (snd (resume t (tables w)))
                  (replace_nth n (fst (resume t (tables w))) (flight w))
      end
  end.

Fixpoint steps (isUUID : string -> bool) (evs : list event) (w : world) : world :=
  match evs with
  | [] => w
  | e :: evs' => steps isUUID evs' (step isUUID e w)
  end.

(** Nothing in flight, no booking and no review. *)
Definition quiet (items : list Item.t) : world := mkWorld (initial items, []) [].

(** The requests are handled one at a time: each arrives and runs its
    statements (three at most) before the next one arrives; [n] is the
    position the first of them takes in the list. *)
Fixpoint serially (n : nat) (rs : list request) : list event :=
  match rs with
  | [] => []
  | r :: rs' => Arrive r :: Resume n :: Resume n :: Resume n :: serially (S n) rs'
  end.

(** The answer of a request that is handled alone. *)
Definition answer_to (isUUID : string -> bool) (r : request) (st : DB * list Review.t)
    : answer :=
  match r with
  | BookingRequest o => Reply (fst (run isUUID o (fst st)))
  | ProcessPayment user req paymentId =>
      PaymentReply (fst (Payments.processPayment user req paymentId (fst st)))
  | CreateReview user req reviewId now =>
      ReviewReply (fst (Reviews.createReview isUUID user req reviewId now (fst st) (snd st)))
  end.

(** The statement the task awaits is an insert of a booking, and the
    overlap query of its request would by now return a row. *)
Definition stale_booking (t : task) (st : DB * list Review.t) : bool :=
  match t with
  | AwaitInsertBooking row =>
      match overlapCheck (fst st) (Booking.item_id row)
                         (Booking.start_date row) (Booking.end_date row) with
      | [] => false
      | _ :: _ => true
      end
  | _ => false
  end.

(** The statement the task awaits is an insert of a review, and the query
    for a review of the same user and item would by now return a row. *)
Definition stale_review (t : task) (st : DB * list Review.t) : bool :=
  match t with
  | AwaitInsertReview row =>
      match Reviews.existingReview (snd st) (Review.user_id row) (Review.item_id row) with
      | [] => false
      | _ :: _ => true
      end
  | _ => false
  end.

(** The statement the task awaits sets a status that is neither cancelled
    nor rejected on a booking that is now cancelled or rejected. *)
Definition revives (t : task) (st : DB * list Review.t) : bool :=
  match t with
  | AwaitUpdateStatus bookingId status =>
      status_not_in_cancelled_rejected status && names_inactive bookingId (fst st)
  | AwaitUpdateVerified req => names_inactive (VerifyReq.booking_id req) (fst st)
  | _ => false
  end.

Definition stale_or_revives (t : task) (st : DB * list Review.t) : bool :=
  stale_booking t st || revives t st.

(** No statement of the schedule is run by a task that is [bad] at that
    moment. *)
Fixpoint never (isUUID : string -> bool) (bad : task -> DB * list Review.t -> bool)
    (evs : list event) (w : world) : bool :=
  match evs with
  | [] => true
  | e :: evs' =>
      negb (match e with
            | Arrive _ => false
            | Resume n =>
                match nth_error (flight w) n with
                | Some t => bad t (tables w)
                | None => false
                end
            end)
      && never isUUID bad evs' (step isUUID e w)
  end.

(** The rows the review tasks are about to insert are well formed. *)
Definition carries_well_formed (t : task) : Prop :=
  match t with
  | AwaitRentedCheck row | AwaitExistingReview row | AwaitInsertReview row =>
      well_formed_review row
  | _ => True
  end.

(** *** More sample data *)

Module Sample2.

Local Open Scope string_scope.

Definition users : list User.t :=
  [ User.mk "owner-1" "Asha" "9810000001";
    User.mk "renter-1" "Bala" "9810000002";
    User.mk "renter-2" "Chitra" "9810000003" ].

(** The tokens of a toy verifier: the token is the user's identifier
    followed by a dot and the secret. *)
Definition jwt_verify (token secret : string) : option string :=
  match Auth.split "." token with
  | [u; k] => if String.eqb k secret then Some u else None
  | _ => None
  end.

Definition pay (booking : string) : Payments.body :=
  Payments.mk (Some booking) (Some "upi") (Some [("vpa", "bala@upi")]).

Definition review (item : string) (stars : Z) : Reviews.body :=
  Reviews.mk item (Some stars) "Worked well, battery lasted two days.".

(** The first renter books the drill, the owner confirms and completes the
    booking, the renter pays and reviews; the second renter books later
    days. *)
Definition season : list request :=
  [ BookingRequest (CreateBooking "renter-1" (Sample.request Sample.drill Sample.may_1 Sample.may_5) Sample.b1 1);
    BookingRequest (UpdateBookingStatus "owner-1" Sample.b1 "confirmed");
    ProcessPayment "renter-1" (pay Sample.b1) "pay-1";
    BookingRequest (UpdateBookingStatus "owner-1" Sample.b1 "completed");
    CreateReview "renter-1" (review Sample.drill 5) "rev-1" 9;
    BookingRequest (CreateBooking "renter-2" (Sample.request Sample.drill Sample.may_6 Sample.may_10) Sample.b2 10);
    CreateReview "renter-1" (review Sample.drill 4) "rev-2" 11 ].

Definition start : DB * list Review.t := (initial Sample.items, []).

(** The store after the first request, and after the first three. *)
Definition booked : DB * list Review.t :=
  serve_all Sample.isUUID (firstn 1 season) start.

Definition paid_for : DB * list Review.t :=
  serve_all Sample.isUUID (firstn 3 season) start.

End Sample2.

(** *** Requests that overlap in time *)

Module Sample3.

Local Open Scope string_scope.

Definition book (user : string) (s e : date) (id : string) (now : Z) : request :=
  BookingRequest (CreateBooking user (Sample.request Sample.drill s e) id now).

(** Two renters ask for the drill on common days at the same moment: each
    request runs its two checks before either inserts its row. *)
Definition race : list event :=
  [ Arrive (book "renter-1" Sample.may_1 Sample.may_5 Sample.b1 1);
    Arrive (book "renter-2" Sample.may_3 Sample.may_6 Sample.b2 2);
    Resume 0; Resume 1; Resume 0; Resume 1; Resume 0; Resume 1 ].

(** The same for days that are apart. *)
Definition side_by_side : list event :=
  [ Arrive (book "renter-1" Sample.may_1 Sample.may_5 Sample.b1 1);
    Arrive (book "renter-2" Sample.may_6 Sample.may_10 Sample.b2 2);
    Resume 0; Resume 1; Resume 0; Resume 1; Resume 0; Resume 1 ].

(** A renter with a completed booking of the drill sends the same review
    twice at the same moment. *)
Definition rented : DB :=
  mkDB Sample.items
       [Sample.booking Sample.b1 Sample.drill Sample.may_1 Sample.may_5 completed].

Definition review_race : list event :=
  [ Arrive (CreateReview "renter-1" (Sample2.review Sample.drill 5) "rev-1" 9);
    Arrive (CreateReview "renter-1" (Sample2.review Sample.drill 5) "rev-2" 9);
    Resume 0; Resume 1; Resume 0; Resume 1; Resume 0; Resume 1 ].

(** The same, the first request inserting its row before the second looks
    for a review. *)
Definition review_twice : list event :=
  [ Arrive (CreateReview "renter-1" (Sample2.review Sample.drill 5) "rev-1" 9);
    Arrive (CreateReview "renter-1" (Sample2.review Sample.drill 5) "rev-2" 9);
    Resume 0; Resume 0; Resume 1; Resume 0; Resume 1; Resume 1 ].

(** An item whose rent for a day, with fee and deposit, is above 2^53
    paise. *)
Definition crane : string := "c1d2e3f4-a5b6-4c7d-8e9f-0a1b2c3d4e5f".

Definition yard : DB :=
  mkDB [Item.mk crane "owner-3" (3378144248262807 # 1) "day"] [].

Definition crane_order : OrderReq.body :=
  OrderReq.mk Sample.b1 crane Sample.may_5 Sample.may_6.

End Sample3.

(* ------------------------------------------------------------------------- *)
(** ** Test vectors of the two arithmetic models *)

Example sha256_abc :
  Sha256.hex (Sha256.sha256 (Sha256.bytes_of_string "abc"))
  = "ba7816bf8f01cfea414140de5dae2223b00361a396177a9cb410ff61f20015ad"%string.
Proof. vm_compute. reflexivity. Qed.

(** RFC 4231, test case 2. *)
Example hmac_sha256_rfc4231 :
  Sha256.createHmac_sha256_hex "Jefe" "what do ya want for nothing?"
  = "5bdcc146bf60754e6a042426089575c75a003f089d2739839dec58b964ec3843"%string.
Proof. vm_compute. reflexivity. Qed.

Example sha256_constants :
  nth 0 Sha256.K256 0 = 1116352408 /\ nth 63 Sha256.K256 0 = 3329325298
  /\ nth 0 Sha256.H0 0 = 1779033703 /\ nth 7 Sha256.H0 0 = 1541459225.
Proof. vm_compute. repeat split. Qed.

(** [0.15] is [0x1.3333333333333p-3]; [0.07 * 100] is above 7;
    [2^53 + 1] is not a double. *)
Example binary64_samples :
  Binary64.of_Q (15 # 100) = Binary64.Float 5404319552844595 (-55)
  /\ Binary64.Math_ceil (Binary64.fmul (Binary64.of_Q (7 # 100)) (Binary64.of_Z 100)) = 8
  /\ Binary64.Math_ceil (Binary64.fmul (Binary64.of_Z 300) (Binary64.of_Q (15 # 100))) = 45
  /\ Binary64.Math_ceil (Binary64.of_Z (2 ^ 53 + 1)) = 2 ^ 53
  /\ Binary64.Math_ceil (Binary64.of_Q (- 5 # 2)) = - 2.
Proof. vm_compute. repeat split. Qed.

(** Above [2 ^ 53] a product of whole doubles is rounded: the nearest
    double to [100 * (2 ^ 53 + 2)] is 56 higher. *)
Example binary64_rounds_large_products :
  Binary64.mul (2 ^ 53 + 2) 100 = 100 * (2 ^ 53 + 2) + 56.
Proof. vm_compute. reflexivity. Qed.

Example iso_date_samples :
  iso_date 1970 1 1 = 0 /\ iso_date 2024 5 1 = 19844 /\ iso_date 2024 2 29 = 19782.
Proof. vm_compute. repeat split. Qed.

(* ------------------------------------------------------------------------- *)
(** ** Exact results of the double arithmetic *)

Section Exact.

Import Binary64.

Lemma pow2_pos (k : Z) : 0 <= k -> 0 < 2 ^ k.
Proof. intros. apply Z.pow_pos_nonneg; lia. Qed.

Lemma pow2_split (a b : Z) : 0 <= a -> 0 <= b -> 2 ^ (a + b) = 2 ^ a * 2 ^ b.
Proof. intros. apply Z.pow_add_r; assumption. Qed.

Lemma scaled_exact (a q b i j : Z) :
  0 < a -> 0 < q -> 0 < b -> 0 <= i -> 0 <= j ->
  Z.log2 b <= 52 ->
  a * 2 ^ i = q * b * 2 ^ j ->
  exists r, 54 - Z.log2 b <= r <= 55 - Z.log2 b
            /\ scaled a q = (b * 2 ^ r, false, r + i - j).
Proof.
  intros Ha Hq Hb Hi Hj Hl Heq.
  assert (Hlb : 0 <= Z.log2 b) by apply Z.log2_nonneg.
  assert (Hlog : Z.log2 a + i = Z.log2 (q * b) + j).
  { rewrite (Z.add_comm (Z.log2 a)), (Z.add_comm (Z.log2 (q * b))).
    rewrite <- !Z.log2_mul_pow2 by nia. rewrite Heq. reflexivity. }
  assert (Hqb : Z.log2 q + Z.log2 b <= Z.log2 (q * b) <= Z.log2 q + Z.log2 b + 1).
  { split; [apply Z.log2_mul_below|apply Z.log2_mul_above]; lia. }
  set (s := prec + 2 + Z.log2 q - Z.log2 a).
  exists (s + j - i). split; [unfold s, prec; lia|].
  assert (Hr : 2 <= s + j - i) by (unfold s, prec; lia).
  unfold scaled. fold s.
  assert (Hnum : (if 0 <=? s then a * 2 ^ s else a)
                 = (b * 2 ^ (s + j - i)) * (if 0 <=? s then q else q * 2 ^ (- s))).
  { destruct (Z.leb_spec 0 s) as [Hs|Hs].
    - apply (Z.mul_reg_r _ _ (2 ^ i)); [pose proof (pow2_pos i Hi); lia|].
      replace (a * 2 ^ s * 2 ^ i) with (a * 2 ^ i * 2 ^ s) by ring.
      rewrite Heq.
      replace (b * 2 ^ (s + j - i) * q * 2 ^ i) with (q * b * (2 ^ (s + j - i) * 2 ^ i)) by ring.
      rewrite <- pow2_split by lia. replace (s + j - i + i) with (j + s) by ring.
      rewrite pow2_split by lia. ring.
    - apply (Z.mul_reg_r _ _ (2 ^ i)); [pose proof (pow2_pos i Hi); lia|].
      rewrite Heq.
      replace (b * 2 ^ (s + j - i) * (q * 2 ^ (- s)) * 2 ^ i)
        with (q * b * (2 ^ (s + j - i) * 2 ^ (- s) * 2 ^ i)) by ring.
      rewrite <- !pow2_split by lia. replace (s + j - i + - s + i) with j by ring.
      reflexivity. }
  assert (Hden : 0 < (if 0 <=? s then q else q * 2 ^ (- s))).
  { destruct (Z.leb_spec 0 s); [lia|]. pose proof (pow2_pos (- s)). nia. }
  rewrite Hnum. rewrite Z.div_mul by lia. rewrite Z.mod_mul by lia.
  simpl. f_equal. lia.
Qed.

Lemma nearest_even_exact (b r : Z) :
  0 < b -> Z.log2 b <= 52 -> 54 - Z.log2 b <= r ->
  nearest_even (b * 2 ^ r) false
  = (b * 2 ^ (52 - Z.log2 b), r + Z.log2 b - 52).
Proof.
  intros Hb Hl Hr.
  assert (Hlb : 0 <= Z.log2 b) by apply Z.log2_nonneg.
  unfold nearest_even.
  rewrite Z.log2_mul_pow2 by lia.
  replace (r + Z.log2 b + 1 - prec) with (r + Z.log2 b - 52) by (unfold prec; lia).
  set (k := r + Z.log2 b - 52).
  assert (Hk : 2 <= k) by (unfold k; lia).
  assert (Hsplit : b * 2 ^ r = b * 2 ^ (52 - Z.log2 b) * 2 ^ k).
  { rewrite <- Z.mul_assoc, <- pow2_split by lia. f_equal. f_equal. unfold k. lia. }
  rewrite Hsplit. rewrite Z.div_mul by (pose proof (pow2_pos k); lia).
  rewrite Z.mod_mul by (pose proof (pow2_pos k); lia).
  assert (Hh : 0 < 2 ^ (k - 1)) by (apply pow2_pos; lia).
  destruct (Z.ltb_spec (2 ^ (k - 1)) 0); [lia|].
  destruct (Z.eqb_spec 0 (2 ^ (k - 1))); [lia|].
  reflexivity.
Qed.

Lemma round_ne_exact (p q e n i j : Z) :
  0 < q -> n <> 0 -> Z.abs n < 2 ^ 53 -> 0 <= i -> 0 <= j ->
  p * 2 ^ i = q * n * 2 ^ j ->
  round_ne p q e
  = Float (n * 2 ^ (52 - Z.log2 (Z.abs n))) (e + j - i + Z.log2 (Z.abs n) - 52).
Proof.
  intros Hq Hn Hb Hi Hj Hp.
  assert (Hl : Z.log2 (Z.abs n) <= 52).
  { assert (Z.log2 (Z.abs n) < 53) by (apply Z.log2_lt_pow2; lia). lia. }
  pose proof (pow2_pos i Hi) as Pi. pose proof (pow2_pos j Hj) as Pj.
  assert (Hp0 : p <> 0) by nia.
  assert (Ha : Z.abs p * 2 ^ i = q * Z.abs n * 2 ^ j).
  { apply (f_equal Z.abs) in Hp. rewrite !Z.abs_mul in Hp.
    rewrite (Z.abs_eq (2 ^ i)), (Z.abs_eq (2 ^ j)), (Z.abs_eq q) in Hp by lia.
    exact Hp. }
  assert (Hsgn : Z.sgn p = Z.sgn n).
  { apply (f_equal Z.sgn) in Hp. rewrite !Z.sgn_mul in Hp.
    rewrite (Z.sgn_pos (2 ^ i)), (Z.sgn_pos (2 ^ j)), (Z.sgn_pos q) in Hp by lia.
    lia. }
  destruct (scaled_exact (Z.abs p) q (Z.abs n) i j) as [r [Hr Hs]]; try lia.
  unfold round_ne. destruct (Z.eqb_spec p 0); [contradiction|].
  rewrite Hs. rewrite nearest_even_exact by lia.
  rewrite Hsgn. rewrite Z.mul_assoc. rewrite (Z.mul_comm (Z.sgn n)), Z.abs_sgn.
  f_equal. lia.
Qed.

Lemma Math_ceil_normal (n : Z) : Z.abs n < 2 ^ 53 -> Math_ceil (normal n) = n.
Proof.
  intros Hb. unfold normal. destruct (Z.eqb_spec n 0) as [->|Hn]; [reflexivity|].
  assert (Hl : 0 <= Z.log2 (Z.abs n) <= 52).
  { split; [apply Z.log2_nonneg|].
    assert (Z.log2 (Z.abs n) < 53) by (apply Z.log2_lt_pow2; lia). lia. }
  unfold Math_ceil. cbn [mant expo].
  destruct (Z.leb_spec 0 (Z.log2 (Z.abs n) - 52)) as [H|H].
  - replace (Z.log2 (Z.abs n) - 52) with 0 by lia.
    replace (52 - Z.log2 (Z.abs n)) with 0 by lia. rewrite Z.pow_0_r. lia.
  - replace (- (Z.log2 (Z.abs n) - 52)) with (52 - Z.log2 (Z.abs n)) by lia.
    rewrite <- Z.mul_opp_l. rewrite Z.div_mul by (pose proof (pow2_pos (52 - Z.log2 (Z.abs n))); lia).
    lia.
Qed.

Lemma of_Z_normal (n : Z) : Z.abs n < 2 ^ 53 -> of_Z n = normal n.
Proof.
  intros Hb. unfold of_Z, normal. destruct (Z.eqb_spec n 0) as [->|Hn]; [reflexivity|].
  rewrite (round_ne_exact n 1 0 n 0 0) by lia. f_equal; lia.
Qed.

Lemma round_ne_zero (q e : Z) : round_ne 0 q e = Float 0 0.
Proof. reflexivity. Qed.


Lemma log2_abs_le (n : Z) : Z.abs n < 2 ^ 53 -> 0 <= Z.log2 (Z.abs n) <= 52.
Proof.
  intros Hb. split; [apply Z.log2_nonneg|].
  destruct (Z.eq_dec n 0) as [->|Hn]; [simpl; lia|].
  assert (Z.log2 (Z.abs n) < 53) by (apply Z.log2_lt_pow2; lia). lia.
Qed.

Lemma normal_shape (n : Z) :
  Z.abs n < 2 ^ 53 -> exists u, 0 <= u /\ normal n = Float (n * 2 ^ u) (- u).
Proof.
  intros Hb. unfold normal. destruct (Z.eqb_spec n 0) as [->|Hn].
  - exists 0. split; [lia|reflexivity].
  - pose proof (log2_abs_le n Hb). exists (52 - Z.log2 (Z.abs n)).
    split; [lia|]. f_equal. lia.
Qed.

Lemma round_ne_shift (n w e : Z) :
  Z.abs n < 2 ^ 53 -> 0 <= w -> e + w = 0 -> round_ne (n * 2 ^ w) 1 e = normal n.
Proof.
  intros Hb Hw He. unfold normal. destruct (Z.eqb_spec n 0) as [->|Hn].
  - reflexivity.
  - rewrite (round_ne_exact _ 1 _ n 0 w) by (try lia; ring). f_equal. lia.
Qed.

Lemma fmul_normal (x y : Z) :
  Z.abs x < 2 ^ 53 -> Z.abs y < 2 ^ 53 -> Z.abs (x * y) < 2 ^ 53 ->
  fmul (normal x) (normal y) = normal (x * y).
Proof.
  intros Hx Hy Hxy.
  destruct (normal_shape x Hx) as [u [Hu ->]]. destruct (normal_shape y Hy) as [v [Hv ->]].
  unfold fmul. cbn [mant expo].
  replace (x * 2 ^ u * (y * 2 ^ v)) with (x * y * 2 ^ (u + v))
    by (rewrite pow2_split by lia; ring).
  apply round_ne_shift; lia.
Qed.

Lemma fadd_shapes (x y u v : Z) :
  0 <= u -> 0 <= v ->
  fadd (Float (x * 2 ^ u) (- u)) (Float (y * 2 ^ v) (- v))
  = round_ne ((x + y) * 2 ^ Z.max u v) 1 (- Z.max u v).
Proof.
  intros Hu Hv. unfold fadd. cbn [mant expo].
  replace (Z.min (- u) (- v)) with (- Z.max u v) by lia.
  f_equal.
  replace (- u - - Z.max u v) with (Z.max u v - u) by lia.
  replace (- v - - Z.max u v) with (Z.max u v - v) by lia.
  rewrite <- !Z.mul_assoc, <- !pow2_split by lia.
  replace (u + (Z.max u v - u)) with (Z.max u v) by lia.
  replace (v + (Z.max u v - v)) with (Z.max u v) by lia. ring.
Qed.

Lemma fadd_normal (x y : Z) :
  Z.abs x < 2 ^ 53 -> Z.abs y < 2 ^ 53 -> Z.abs (x + y) < 2 ^ 53 ->
  fadd (normal x) (normal y) = normal (x + y).
Proof.
  intros Hx Hy Hxy.
  destruct (normal_shape x Hx) as [u [Hu ->]]. destruct (normal_shape y Hy) as [v [Hv ->]].
  rewrite fadd_shapes by assumption. apply round_ne_shift; lia.
Qed.

(** A product and a sum of two whole doubles that stay below [2 ^ 53] are
    exact. *)
Lemma mul_exact (x y : Z) :
  Z.abs x < 2 ^ 53 -> Z.abs y < 2 ^ 53 -> Z.abs (x * y) < 2 ^ 53 ->
  Binary64.mul x y = x * y.
Proof.
  intros Hx Hy Hxy. unfold mul. rewrite !of_Z_normal by assumption.
  rewrite fmul_normal by assumption. apply Math_ceil_normal. exact Hxy.
Qed.

Lemma add_exact (x y : Z) :
  Z.abs x < 2 ^ 53 -> Z.abs y < 2 ^ 53 -> Z.abs (x + y) < 2 ^ 53 ->
  Binary64.add x y = x + y.
Proof.
  intros Hx Hy Hxy. unfold add. rewrite !of_Z_normal by assumption.
  rewrite fadd_normal by assumption. apply Math_ceil_normal. exact Hxy.
Qed.


Lemma fopp_normal (x : Z) : fopp (normal x) = normal (- x).
Proof.
  unfold normal, fopp. destruct (Z.eqb_spec x 0) as [->|Hx]; [reflexivity|].
  destruct (Z.eqb_spec (- x) 0); [lia|]. cbn [mant expo].
  rewrite Z.abs_opp. f_equal. ring.
Qed.

(** Between two dates of the range of [Date] (100 000 000 days either side
    of the epoch) the number of days is the difference of the day numbers. *)
Lemma daysDiff_exact (start_date end_date : date) :
  Z.abs start_date <= 10 ^ 8 -> Z.abs end_date <= 10 ^ 8 ->
  daysDiff start_date end_date = end_date - start_date.
Proof.
  intros Hs He. unfold daysDiff, getTime.
  assert (Hc : msPerDay = 84375 * 2 ^ 10) by reflexivity.
  assert (B : 10 ^ 8 * msPerDay < 2 ^ 53) by reflexivity.
  assert (Bs : Z.abs (start_date * msPerDay) < 2 ^ 53)
    by (rewrite Z.abs_mul; change (Z.abs msPerDay) with msPerDay; unfold msPerDay in *; lia).
  assert (Be : Z.abs (end_date * msPerDay) < 2 ^ 53)
    by (rewrite Z.abs_mul; change (Z.abs msPerDay) with msPerDay; unfold msPerDay in *; lia).
  rewrite !of_Z_normal by assumption.
  unfold fsub. rewrite fopp_normal.
  assert (Bs' : Z.abs (- (start_date * msPerDay)) < 2 ^ 53) by (rewrite Z.abs_opp; exact Bs).
  destruct (normal_shape _ Be) as [u [Hu ->]].
  destruct (normal_shape _ Bs') as [v [Hv ->]].
  rewrite fadd_shapes by assumption.
  set (d := end_date - start_date). set (w := Z.max u v).
  assert (Hw : 0 <= w) by (unfold w; lia).
  destruct (Z.eq_dec d 0) as [Hd|Hd].
  { replace (end_date * msPerDay + - (start_date * msPerDay)) with (d * msPerDay)
      by (unfold d; ring).
    rewrite Hd. reflexivity. }
  assert (Bn : Z.abs (84375 * d) < 2 ^ 53) by (unfold d; lia).
  rewrite (round_ne_exact _ 1 _ (84375 * d) 0 (10 + w)); try lia.
  2:{ rewrite pow2_split by lia. rewrite Hc. unfold d. ring. }
  unfold fdiv_pos. cbn [mant expo].
  pose proof (log2_abs_le _ Bn) as Hl.
  assert (Bd : Z.abs d < 2 ^ 53) by (unfold d; lia).
  rewrite (round_ne_exact _ msPerDay _ d 10 (52 - Z.log2 (Z.abs (84375 * d))));
    try lia; try reflexivity; try (rewrite Hc; ring).
  replace (Float _ _) with (normal d).
  - apply Math_ceil_normal. exact Bd.
  - unfold normal. destruct (Z.eqb_spec d 0); [contradiction|]. f_equal. lia.
Qed.

(** The rent of a whole price is the price times the days. *)
Lemma rentPayment_whole (P days : Z) :
  Z.abs P < 2 ^ 53 -> Z.abs days < 2 ^ 53 -> Z.abs (P * days) < 2 ^ 53 ->
  rentPayment (P # 1) days = P * days.
Proof.
  intros HP Hd HPd. unfold rentPayment.
  change (of_Q (P # 1)) with (of_Z P).
  apply mul_exact; assumption.
Qed.

End Exact.

(* ------------------------------------------------------------------------- *)
(** ** Updates of rows *)

Lemma update_where_id_marks (bookingId : string) (f : Booking.t -> Booking.t)
    (P : Booking.t -> Prop) (bs : list Booking.t) :
  (forall b, P (f b)) ->
  Forall (fun b => Booking.id b = bookingId -> P b) (update_where_id bookingId f bs).
Proof.
  intros Hf. unfold update_where_id. apply Forall_forall. intros b' Hin.
  apply in_map_iff in Hin. destruct Hin as [b [Hb _]].
  destruct (String.eqb (Booking.id b) bookingId) eqn:E; subst b'.
  - intros _. apply Hf.
  - intros Hid. apply String.eqb_neq in E. contradiction.
Qed.

Lemma update_where_id_others (bookingId : string) (f : Booking.t -> Booking.t)
    (bs : list Booking.t) (b : Booking.t) :
  In b bs -> Booking.id b <> bookingId -> In b (update_where_id bookingId f bs).
Proof.
  intros Hin Hid. unfold update_where_id. apply in_map_iff. exists b. split; [|exact Hin].
  apply String.eqb_neq in Hid. rewrite Hid. reflexivity.
Qed.

Lemma update_where_id_named (bookingId : string) (f : Booking.t -> Booking.t)
    (bs : list Booking.t) (b : Booking.t) :
  In b bs -> Booking.id b = bookingId -> In (f b) (update_where_id bookingId f bs).
Proof.
  intros Hin Hid. unfold update_where_id. apply in_map_iff. exists b. split; [|exact Hin].
  apply String.eqb_eq in Hid. rewrite Hid. reflexivity.
Qed.

Lemma set_confirmed_paid_marks (b : Booking.t) :
  Booking.status (set_confirmed_paid b) = confirmed
  /\ Booking.payment_status (set_confirmed_paid b) = paid.
Proof. split; reflexivity. Qed.

(* ------------------------------------------------------------------------- *)
(** ** Payment verification *)

Lemma key_secret_configured (k : string) :
  k <> EmptyString -> key_secret (Some k) = k.
Proof.
  intros Hk. unfold key_secret. apply String.eqb_neq in Hk. rewrite Hk. reflexivity.
Qed.

Lemma verifyPayment_match (env : option string) (req : VerifyReq.body) (db : DB) :
  VerifyReq.razorpay_signature req = expected_signature env req ->
  verifyPayment env req db
  = (PaymentVerified (VerifyReq.razorpay_payment_id req),
     set_Bookings db
       (update_where_id (VerifyReq.booking_id req) set_confirmed_paid (Bookings db))).
Proof.
  intros H. unfold verifyPayment. rewrite <- H, String.eqb_refl. reflexivity.
Qed.

Lemma verifyPayment_mismatch (env : option string) (req : VerifyReq.body) (db : DB) :
  VerifyReq.razorpay_signature req <> expected_signature env req ->
  verifyPayment env req db = (InvalidPaymentSignature, db).
Proof.
  intros H. unfold verifyPayment.
  destruct (String.eqb (expected_signature env req) (VerifyReq.razorpay_signature req)) eqn:E.
  - apply String.eqb_eq in E. congruence.
  - reflexivity.
Qed.

Lemma flip_ascii_neq (i : nat) (c : ascii) : flip_ascii i c <> c.
Proof.
  destruct c as [b0 b1 b2 b3 b4 b5 b6 b7]. unfold flip_ascii.
  do 7 (destruct i as [|i];
        [intros H; injection H; intros;
         repeat match goal with
                | h : negb ?b = ?b |- _ => destruct b; discriminate h
                end|]).
  intros H; injection H; intros.
  repeat match goal with
         | h : negb ?b = ?b |- _ => destruct b; discriminate h
         end.
Qed.

Lemma flip_bit_neq (s : string) :
  forall i, (i < 8 * String.length s)%nat -> flip_bit i s <> s.
Proof.
  induction s as [|c s IH]; intros i Hi; simpl in *.
  - lia.
  - destruct (i <? 8)%nat eqn:E.
    + intros H. injection H. intros H'. exact (flip_ascii_neq i c H').
    + apply Nat.ltb_ge in E. intros H. injection H. apply IH. lia.
Qed.

(** C2. The verifier accepts, and marks the named booking confirmed and
    paid, exactly when the supplied signature is the hex digest of
    HMAC-SHA256 under the key in use of [O ++ "|" ++ P]; any other
    signature, and so any obtained by flipping one bit of that digest, is
    answered with the signature error and the store is not touched. The key
    in use is the configured one whenever that is not empty. *)
Theorem verify_accepts_iff_signature_is_hmac :
  forall (env : option string) (O P s bookingId : string) (db : DB),
    let K := key_secret env in
    let expected := Sha256.createHmac_sha256_hex K (O ++ "|" ++ P)%string in
    let out := verifyPayment env (VerifyReq.mk O P s bookingId) db in
    (fst out = PaymentVerified P <-> s = expected)
    /\ (s = expected ->
        Items (snd out) = Items db
        /\ List.length (Bookings (snd out)) = List.length (Bookings db)
        /\ Forall (fun b => Booking.id b = bookingId ->
                            Booking.status b = confirmed
                            /\ Booking.payment_status b = paid)
                  (Bookings (snd out)))
    /\ (s <> expected -> out = (InvalidPaymentSignature, db))
    /\ (forall i, (i < 8 * String.length expected)%nat ->
          verifyPayment env (VerifyReq.mk O P (flip_bit i expected) bookingId) db
          = (InvalidPaymentSignature, db))
    /\ (forall k, k <> EmptyString -> env = Some k -> K = k).
Proof.
  intros env O P s bookingId db K expected out.
  assert (Hexp : forall s', expected_signature env (VerifyReq.mk O P s' bookingId) = expected)
    by reflexivity.
  repeat split.
  - intros Hout. destruct (string_dec s expected) as [e|n]; [exact e|].
    unfold out in Hout. rewrite verifyPayment_mismatch in Hout; [discriminate|].
    simpl. rewrite Hexp. exact n.
  - intros e. unfold out. rewrite verifyPayment_match; [reflexivity|].
    simpl. rewrite Hexp. exact e.
  - unfold out. rewrite verifyPayment_match by (simpl; rewrite Hexp; assumption).
    reflexivity.
  - unfold out. rewrite verifyPayment_match by (simpl; rewrite Hexp; assumption).
    simpl. unfold update_where_id. apply length_map.
  - unfold out. rewrite verifyPayment_match by (simpl; rewrite Hexp; assumption).
    simpl. apply update_where_id_marks. intros b. apply set_confirmed_paid_marks.
  - intros n. unfold out. apply verifyPayment_mismatch. simpl. rewrite Hexp. exact n.
  - intros i Hi. apply verifyPayment_mismatch. simpl. rewrite Hexp.
    apply flip_bit_neq. exact Hi.
  - intros k Hk ->. apply key_secret_configured. exact Hk.
Qed.

Lemma verify_accepts_iff_signature_is_hmac_witness :
  fst (verifyPayment Sample.secret
         (VerifyReq.mk "order_N7a1" "pay_Q2b8"
            (Sample.signature_of "order_N7a1" "pay_Q2b8") Sample.b1)
         (Sample.one_booking pending))
  = PaymentVerified "pay_Q2b8".
Proof.
  refine (proj2 (proj1 (verify_accepts_iff_signature_is_hmac Sample.secret
                          "order_N7a1" "pay_Q2b8"
                          (Sample.signature_of "order_N7a1" "pay_Q2b8")
                          Sample.b1 (Sample.one_booking pending)))
                _).
  vm_compute. reflexivity.
Defined.

(** C3. When the supplied signature differs from the expected digest the
    reply is the signature error (HTTP 400) and the store, hence every field
    of every booking, is what it was before the call. *)
Theorem verify_mismatch_leaves_store_unchanged :
  forall (env : option string) (req : VerifyReq.body) (db : DB),
    VerifyReq.razorpay_signature req <> expected_signature env req ->
    fst (verifyPayment env req db) = InvalidPaymentSignature
    /\ http_status (fst (verifyPayment env req db)) = 400
    /\ snd (verifyPayment env req db) = db.
Proof.
  intros env req db H. rewrite (verifyPayment_mismatch env req db H).
  repeat split.
Qed.

Lemma verify_mismatch_leaves_store_unchanged_witness :
  snd (verifyPayment Sample.secret Sample.forged (Sample.one_booking pending))
  = Sample.one_booking pending.
Proof.
  refine (proj2 (proj2 (verify_mismatch_leaves_store_unchanged Sample.secret
                          Sample.forged (Sample.one_booking pending) _))).
  vm_compute. discriminate.
Defined.

(** C8, as stated, fails. An order opened for one booking, with its genuine
    signature, is accepted against another booking for which no order was
    ever opened, and that booking is marked confirmed and paid. *)
Lemma verify_accepts_order_of_another_booking :
  ~ (forall (env : option string) (log : order_log) (req : VerifyReq.body) (db : DB),
       latest_order log (VerifyReq.booking_id req)
       <> Some (VerifyReq.razorpay_order_id req) ->
       fst (verifyPayment env req db)
       <> PaymentVerified (VerifyReq.razorpay_payment_id req)
       /\ snd (verifyPayment env req db) = db).
Proof.
  intros H.
  assert (P : latest_order Sample.opened (VerifyReq.booking_id Sample.replayed)
              <> Some (VerifyReq.razorpay_order_id Sample.replayed))
    by (vm_compute; discriminate).
  apply (H Sample.secret Sample.opened Sample.replayed Sample.two_bookings) in P.
  destruct P as [P _]. apply P. vm_compute. reflexivity.
Qed.

(** C8, amended. The verifier decides on the signature alone: whatever
    orders were opened, and for whichever bookings, a request whose signature
    is the digest of its own order and payment identifiers is accepted, and
    every booking named by its [booking_id] becomes confirmed and paid. *)
Theorem verify_consults_no_order :
  forall (env : option string) (log : order_log) (req : VerifyReq.body) (db : DB),
    VerifyReq.razorpay_signature req = expected_signature env req ->
    fst (verifyPayment env req db) = PaymentVerified (VerifyReq.razorpay_payment_id req)
    /\ (forall b, In b (Bookings db) -> Booking.id b = VerifyReq.booking_id req ->
          In (set_confirmed_paid b) (Bookings (snd (verifyPayment env req db))))
    /\ Forall (fun b => Booking.id b = VerifyReq.booking_id req ->
                        Booking.status b = confirmed /\ Booking.payment_status b = paid)
              (Bookings (snd (verifyPayment env req db))).
Proof.
  intros env log req db H. rewrite (verifyPayment_match env req db H). simpl.
  repeat split.
  - intros b Hin Hid. apply update_where_id_named; assumption.
  - apply update_where_id_marks. intros b. apply set_confirmed_paid_marks.
Qed.

Lemma verify_consults_no_order_witness :
  fst (verifyPayment Sample.secret Sample.replayed Sample.two_bookings)
  = PaymentVerified (VerifyReq.razorpay_payment_id Sample.replayed).
Proof.
  refine (proj1 (verify_consults_no_order Sample.secret Sample.opened
                   Sample.replayed Sample.two_bookings _)).
  vm_compute. reflexivity.
Defined.

(* ------------------------------------------------------------------------- *)
(** ** The overlap query *)

Lemma dates_overlap_spec (b : Booking.t) (s e : date) :
  dates_overlap b s e = true <->
  (Booking.start_date b <= s /\ s <= Booking.end_date b)
  \/ (Booking.start_date b <= e /\ e <= Booking.end_date b)
  \/ (s <= Booking.start_date b /\ Booking.end_date b <= e).
Proof.
  unfold dates_overlap.
  rewrite !orb_true_iff, !andb_true_iff, !Z.leb_le, !Z.geb_le. tauto.
Qed.

(** Ranges that share a day are caught by the query, whatever the order of
    the ends of either range. *)
Lemma ranges_overlap_caught (b : Booking.t) (s e : date) :
  ranges_overlap (Booking.start_date b) (Booking.end_date b) s e ->
  dates_overlap b s e = true.
Proof.
  unfold ranges_overlap. intros [H1 H2]. apply dates_overlap_spec. lia.
Qed.

Lemma overlap_row_spec (item : string) (s e : date) (b : Booking.t) :
  overlap_row item s e b = true <->
  Booking.item_id b = item
  /\ status_not_in_cancelled_rejected (Booking.status b) = true
  /\ dates_overlap b s e = true.
Proof.
  unfold overlap_row. rewrite !andb_true_iff, String.eqb_eq. tauto.
Qed.

Lemma active_iff (b : Booking.t) :
  active b <-> status_not_in_cancelled_rejected (Booking.status b) = true.
Proof.
  unfold active. destruct (Booking.status b); simpl; split;
    intros H; try reflexivity; try discriminate;
    try (split; discriminate); destruct H as [H1 H2]; congruence.
Qed.

Lemma overlapCheck_nonempty (db : DB) (item : string) (s e : date) :
  overlapCheck db item s e <> [] <->
  exists b, In b (Bookings db) /\ overlap_row item s e b = true.
Proof.
  unfold overlapCheck. split.
  - intros H. destruct (filter _ _) as [|b l] eqn:E; [contradiction|].
    exists b. apply filter_In. rewrite E. left. reflexivity.
  - intros [b Hb] E. apply filter_In in Hb. rewrite E in Hb. exact Hb.
Qed.

Lemma status_not_in_spec (st : booking_status) :
  status_not_in_cancelled_rejected st = true <->
  st = pending \/ st = confirmed \/ st = completed.
Proof.
  destruct st; simpl; split; intros H; try reflexivity; try discriminate; auto;
    destruct H as [H|[H|H]]; discriminate.
Qed.

(* ------------------------------------------------------------------------- *)
(** ** Booking creation *)

Section CreateBooking.

Variable isUUID : string -> bool.

Lemma createBooking_created (user item : string) (s e : date) (bookingId : string)
    (now : Z) (db : DB) (it : Item.t) (rest : list Item.t) :
  isUUID item = true ->
  itemCheck db item = it :: rest ->
  Item.owner_id it <> user ->
  overlapCheck db item s e = [] ->
  createBooking isUUID user (BookingReq.mk item (Some s) (Some e)) bookingId now db
  = (BookingCreated bookingId,
     set_Bookings db
       (Bookings db ++ [Booking.mk bookingId user item s e pending unpaid now])).
Proof.
  intros Hu Hi Ho Hc. unfold createBooking. simpl.
  rewrite Hu, Hi, Hc. apply String.eqb_neq in Ho. rewrite Ho. reflexivity.
Qed.

Lemma createBooking_unavailable (user item : string) (s e : date) (bookingId : string)
    (now : Z) (db : DB) (it : Item.t) (rest : list Item.t) :
  isUUID item = true ->
  itemCheck db item = it :: rest ->
  Item.owner_id it <> user ->
  overlapCheck db item s e <> [] ->
  createBooking isUUID user (BookingReq.mk item (Some s) (Some e)) bookingId now db
  = (ItemNotAvailable, db).
Proof.
  intros Hu Hi Ho Hc. unfold createBooking. simpl.
  rewrite Hu, Hi. apply String.eqb_neq in Ho. rewrite Ho.
  destruct (overlapCheck db item s e); [contradiction|reflexivity].
Qed.

(** Whatever the request, the handler leaves the store as it is or appends
    one pending, unpaid row that no active booking of the item conflicts
    with. *)
Lemma createBooking_cases (user : string) (req : BookingReq.body) (bookingId : string)
    (now : Z) (db : DB) :
  snd (createBooking isUUID user req bookingId now db) = db
  \/ exists s e,
       BookingReq.start_date req = Some s /\ BookingReq.end_date req = Some e
       /\ overlapCheck db (BookingReq.item_id req) s e = []
       /\ createBooking isUUID user req bookingId now db
          = (BookingCreated bookingId,
             set_Bookings db
               (Bookings db ++
                [Booking.mk bookingId user (BookingReq.item_id req) s e
                            pending unpaid now])).
Proof.
  unfold createBooking.
  destruct (isUUID (BookingReq.item_id req)); [|left; reflexivity].
  destruct (BookingReq.start_date req) as [s|]; [|left; reflexivity].
  destruct (BookingReq.end_date req) as [e|]; [|left; reflexivity].
  destruct (itemCheck db (BookingReq.item_id req)) as [|it rest]; [left; reflexivity|].
  destruct (String.eqb (Item.owner_id it) user); [left; reflexivity|].
  destruct (overlapCheck db (BookingReq.item_id req) s e) eqn:E; [|left; reflexivity].
  right. exists s, e. repeat split. exact E.
Qed.

(** For a well-formed request for an existing item of another user, the
    reply is "not available" exactly when the overlap query returns a row. *)
Lemma createBooking_unavailable_iff (user item : string) (s e : date)
    (bookingId : string) (now : Z) (db : DB) (it : Item.t) (rest : list Item.t) :
  isUUID item = true ->
  itemCheck db item = it :: rest ->
  Item.owner_id it <> user ->
  (fst (createBooking isUUID user (BookingReq.mk item (Some s) (Some e))
          bookingId now db) = ItemNotAvailable
   <-> exists b, In b (Bookings db) /\ overlap_row item s e b = true).
Proof.
  intros Hu Hi Ho. rewrite <- overlapCheck_nonempty. split.
  - intros Hr E.
    rewrite (createBooking_created user item s e bookingId now db it rest Hu Hi Ho E)
      in Hr. discriminate.
  - intros Hne.
    rewrite (createBooking_unavailable user item s e bookingId now db it rest
               Hu Hi Ho Hne). reflexivity.
Qed.

End CreateBooking.

(** C5. For two well-ordered ranges the date part of the overlap query
    holds exactly when [s1 <= e2] and [s2 <= e1], and so a well-formed request
    for [[s2, e2]] is answered "not available" exactly when an active booking
    [[s1, e1]] of the item has [s1 <= e2] and [s2 <= e1], the stored ranges
    being well ordered; a booking of 1 to 5 May makes a request for 5 to 10
    May unavailable, and lets a request for 6 to 10 May through. *)
Theorem overlap_check_inclusive :
  (forall (b : Booking.t) (s2 e2 : date),
     Booking.start_date b <= Booking.end_date b -> s2 <= e2 ->
     (dates_overlap b s2 e2 = true <->
      Booking.start_date b <= e2 /\ s2 <= Booking.end_date b))
  /\ (forall (isUUID : string -> bool) (user item : string) (s2 e2 : date)
             (bookingId : string) (now : Z) (db : DB) (it : Item.t)
             (rest : list Item.t),
        isUUID item = true ->
        itemCheck db item = it :: rest ->
        Item.owner_id it <> user ->
        Forall (fun b => Booking.start_date b <= Booking.end_date b) (Bookings db) ->
        s2 <= e2 ->
        (fst (createBooking isUUID user (BookingReq.mk item (Some s2) (Some e2))
                bookingId now db) = ItemNotAvailable
         <-> exists b, In b (Bookings db) /\ Booking.item_id b = item /\ active b
                       /\ Booking.start_date b <= e2 /\ s2 <= Booking.end_date b))
  /\ fst (createBooking Sample.isUUID "renter-2"
            (Sample.request Sample.drill (iso_date 2024 5 5) (iso_date 2024 5 10))
            Sample.b2 2
            (mkDB Sample.items
               [Sample.booking Sample.b1 Sample.drill
                  (iso_date 2024 5 1) (iso_date 2024 5 5) pending]))
     = ItemNotAvailable
  /\ fst (createBooking Sample.isUUID "renter-2"
            (Sample.request Sample.drill (iso_date 2024 5 6) (iso_date 2024 5 10))
            Sample.b2 2
            (mkDB Sample.items
               [Sample.booking Sample.b1 Sample.drill
                  (iso_date 2024 5 1) (iso_date 2024 5 5) pending]))
     = BookingCreated Sample.b2.
Proof.
  assert (Hdates : forall (b : Booking.t) (s2 e2 : date),
             Booking.start_date b <= Booking.end_date b -> s2 <= e2 ->
             (dates_overlap b s2 e2 = true <->
              Booking.start_date b <= e2 /\ s2 <= Booking.end_date b)).
  { intros b s2 e2 Hb Hr. rewrite dates_overlap_spec. lia. }
  split; [exact Hdates|]. split; [|split; vm_compute; reflexivity].
  intros isUUID user item s2 e2 bookingId now db it rest Hu Hi Ho Hwf Hr.
  rewrite (createBooking_unavailable_iff isUUID user item s2 e2 bookingId now db it rest
             Hu Hi Ho).
  rewrite Forall_forall in Hwf.
  split; intros [b [Hin Hb]]; exists b; (split; [exact Hin|]).
  - apply overlap_row_spec in Hb. destruct Hb as [H1 [H2 H3]].
    apply Hdates in H3; [|apply Hwf; exact Hin|exact Hr].
    apply active_iff in H2. tauto.
  - destruct Hb as [H1 [H2 H3]]. apply overlap_row_spec.
    split; [exact H1|]. split; [apply active_iff; exact H2|].
    apply Hdates; [apply Hwf; exact Hin|exact Hr|exact H3].
Qed.

Lemma overlap_check_inclusive_witness :
  dates_overlap (Sample.booking Sample.b1 Sample.drill Sample.may_1 Sample.may_5 pending)
                Sample.may_5 Sample.may_10 = true
  /\ fst (createBooking Sample.isUUID "renter-2"
            (BookingReq.mk Sample.drill (Some Sample.may_5) (Some Sample.may_10))
            Sample.b2 2 (Sample.one_booking pending))
     = ItemNotAvailable.
Proof.
  split.
  - apply (proj1 overlap_check_inclusive
             (Sample.booking Sample.b1 Sample.drill Sample.may_1 Sample.may_5 pending)
             Sample.may_5 Sample.may_10).
    + vm_compute. discriminate.
    + vm_compute. discriminate.
    + vm_compute. split; discriminate.
  - refine (proj2 (proj1 (proj2 overlap_check_inclusive) Sample.isUUID "renter-2"%string
                     Sample.drill Sample.may_5 Sample.may_10 Sample.b2 2
                     (Sample.one_booking pending)
                     (Item.mk Sample.drill "owner-1" (100 # 1) "day") []
                     _ _ _ _ _) _).
    + vm_compute. reflexivity.
    + vm_compute. reflexivity.
    + vm_compute. discriminate.
    + repeat constructor. vm_compute. discriminate.
    + vm_compute. discriminate.
    + exists (Sample.booking Sample.b1 Sample.drill Sample.may_1 Sample.may_5 pending).
      split; [left; reflexivity|]. split; [reflexivity|].
      split; [split; discriminate|]. vm_compute. split; discriminate.
Defined.

(** C6, as stated, fails. A completed booking of 1 to 5 May makes a request
    for 5 to 10 May unavailable although no booking of the store is pending
    or confirmed. *)
Lemma completed_booking_blocks :
  ~ (forall (isUUID : string -> bool) (user : string) (req : BookingReq.body)
            (bookingId : string) (now : Z) (db : DB),
       fst (createBooking isUUID user req bookingId now db) = ItemNotAvailable ->
       exists b, In b (Bookings db)
                 /\ (Booking.status b = pending \/ Booking.status b = confirmed)).
Proof.
  intros H.
  destruct (H Sample.isUUID "renter-2"%string
              (Sample.request Sample.drill Sample.may_5 Sample.may_10)
              Sample.b2 2 (Sample.one_booking completed)) as [b [Hin Hst]].
  - vm_compute. reflexivity.
  - simpl in Hin. destruct Hin as [Hb|[]]. subst b. simpl in Hst.
    destruct Hst; discriminate.
Qed.

(** C6, amended. A request with well-formed fields for an existing item of
    another user is answered "not available" exactly when some booking of
    that item whose status is pending, confirmed or completed meets the
    requested dates in the overlap query; cancelled and rejected bookings
    never block. *)
Theorem unavailable_iff_blocking_booking :
  forall (isUUID : string -> bool) (user item : string) (s e : date)
         (bookingId : string) (now : Z) (db : DB) (it : Item.t) (rest : list Item.t),
    isUUID item = true ->
    itemCheck db item = it :: rest ->
    Item.owner_id it <> user ->
    (fst (createBooking isUUID user (BookingReq.mk item (Some s) (Some e))
            bookingId now db) = ItemNotAvailable
     <->
     exists b, In b (Bookings db)
               /\ Booking.item_id b = item
               /\ (Booking.status b = pending \/ Booking.status b = confirmed
                   \/ Booking.status b = completed)
               /\ dates_overlap b s e = true).
Proof.
  intros isUUID user item s e bookingId now db it rest Hu Hi Ho.
  rewrite (createBooking_unavailable_iff isUUID user item s e bookingId now db it rest
             Hu Hi Ho).
  split; intros [b [Hin Hb]]; exists b.
  - apply overlap_row_spec in Hb. rewrite status_not_in_spec in Hb. tauto.
  - split; [exact Hin|]. apply overlap_row_spec. rewrite status_not_in_spec. tauto.
Qed.

Lemma unavailable_iff_blocking_booking_witness :
  fst (createBooking Sample.isUUID "renter-2"
         (BookingReq.mk Sample.drill (Some Sample.may_5) (Some Sample.may_10))
         Sample.b2 2 (Sample.one_booking completed))
  = ItemNotAvailable.
Proof.
  refine (proj2 (unavailable_iff_blocking_booking Sample.isUUID "renter-2" Sample.drill
                   Sample.may_5 Sample.may_10 Sample.b2 2 (Sample.one_booking completed)
                   (Item.mk Sample.drill "owner-1" (100 # 1) "day") []
                   _ _ _) _).
  - vm_compute. reflexivity.
  - vm_compute. reflexivity.
  - vm_compute. discriminate.
  - exists (Sample.booking Sample.b1 Sample.drill Sample.may_1 Sample.may_5 completed).
    vm_compute. repeat split; auto.
Defined.




(* ------------------------------------------------------------------------- *)
(** ** Status updates *)

Lemma nonempty_iff_In {A : Type} (l : list A) : l <> [] <-> exists x, In x l.
Proof.
  destruct l as [|a l]; split.
  - intros H. contradiction.
  - intros [x []].
  - intros _. exists a. left. reflexivity.
  - intros _. discriminate.
Qed.

Lemma ownerCheck_nonempty (db : DB) (bookingId user : string) :
  ownerCheck db bookingId user <> [] <-> owns_item_of db user bookingId.
Proof.
  rewrite nonempty_iff_In. unfold ownerCheck, owns_item_of. split.
  - intros [x Hx]. apply in_flat_map in Hx. destruct Hx as [b [Hb Hx]].
    destruct (String.eqb (Booking.id b) bookingId) eqn:E; [|destruct Hx].
    apply in_map_iff in Hx. destruct Hx as [i [_ Hi]].
    apply filter_In in Hi. destruct Hi as [Hi Hc].
    apply andb_true_iff in Hc. destruct Hc as [H1 H2].
    exists b, i. apply String.eqb_eq in E, H1, H2. tauto.
  - intros [b [i [Hb [Hid [Hi [Hitem Hown]]]]]].
    exists (Booking.id b). apply in_flat_map. exists b. split; [exact Hb|].
    apply String.eqb_eq in Hid. rewrite Hid.
    apply in_map_iff. exists i. split; [reflexivity|].
    apply filter_In. split; [exact Hi|].
    apply andb_true_iff. split; apply String.eqb_eq; assumption.
Qed.

Lemma parse_status_names :
  parse_status "confirmed" = Some confirmed
  /\ parse_status "rejected" = Some rejected
  /\ parse_status "completed" = Some completed
  /\ parse_status "cancelled" = Some cancelled
  /\ parse_status "pending" = None.
Proof. repeat split. Qed.

Lemma updateBookingStatus_applied (user bookingId status : string) (st : booking_status)
    (db : DB) :
  parse_status status = Some st ->
  owns_item_of db user bookingId ->
  updateBookingStatus user bookingId status db
  = (StatusUpdated,
     set_Bookings db (update_where_id bookingId (set_status st) (Bookings db))).
Proof.
  intros Hp Ho. unfold updateBookingStatus. rewrite Hp.
  apply ownerCheck_nonempty in Ho.
  destruct (ownerCheck db bookingId user); [contradiction|reflexivity].
Qed.

(** C4, as stated, fails. The owner of the item asks for a rejected booking
    to be confirmed, which is no transition of the diagram, and the booking
    becomes confirmed. *)
Lemma rejected_becomes_confirmed :
  ~ (forall (user bookingId status : string) (st : booking_status) (db : DB)
            (b : Booking.t),
       parse_status status = Some st ->
       In b (Bookings db) -> Booking.id b = bookingId ->
       enumerated_transition (Booking.status b) st = false ->
       snd (updateBookingStatus user bookingId status db) = db).
Proof.
  intros H.
  specialize (H "owner-1"%string Sample.b1 "confirmed"%string confirmed
                (Sample.one_booking rejected)
                (Sample.booking Sample.b1 Sample.drill Sample.may_1 Sample.may_5 rejected)).
  assert (E : snd (updateBookingStatus "owner-1" Sample.b1 "confirmed"
                     (Sample.one_booking rejected))
              = Sample.one_booking confirmed) by (vm_compute; reflexivity).
  rewrite E in H. clear E.
  assert (D : Sample.one_booking confirmed <> Sample.one_booking rejected)
    by (vm_compute; discriminate).
  apply D, H.
  - reflexivity.
  - left. reflexivity.
  - reflexivity.
  - reflexivity.
Qed.

(** C4, amended. A status update is applied whatever the current status of
    the booking: when the requested value is one of confirmed, rejected,
    completed and cancelled and the caller owns the item of the booking,
    every booking of that identifier takes the requested status and nothing
    else changes; a caller who does not own the item is answered "not
    authorized" and any other value is answered with the validation errors,
    the store being left as it was in both cases. *)
Theorem status_update_is_unconditional :
  forall (user bookingId status : string) (db : DB),
    let out := updateBookingStatus user bookingId status db in
    (parse_status status = None -> out = (ValidationErrors, db))
    /\ (forall st, parse_status status = Some st ->
          ~ owns_item_of db user bookingId -> out = (NotAuthorized, db))
    /\ (forall st, parse_status status = Some st ->
          owns_item_of db user bookingId ->
          fst out = StatusUpdated
          /\ Items (snd out) = Items db
          /\ (forall b, In b (Bookings db) -> Booking.id b = bookingId ->
                In (set_status st b) (Bookings (snd out)))
          /\ (forall b, In b (Bookings db) -> Booking.id b <> bookingId ->
                In b (Bookings (snd out)))
          /\ Forall (fun b => Booking.id b = bookingId -> Booking.status b = st)
                    (Bookings (snd out))).
Proof.
  intros user bookingId status db out. split; [|split].
  - intros Hp. unfold out, updateBookingStatus. rewrite Hp. reflexivity.
  - intros st Hp Ho. unfold out, updateBookingStatus. rewrite Hp.
    destruct (ownerCheck db bookingId user) eqn:E; [reflexivity|].
    exfalso. apply Ho. apply ownerCheck_nonempty. rewrite E. discriminate.
  - intros st Hp Ho. unfold out.
    rewrite (updateBookingStatus_applied user bookingId status st db Hp Ho). simpl.
    repeat split.
    + intros b Hin Hid. apply update_where_id_named; assumption.
    + intros b Hin Hid. apply update_where_id_others; assumption.
    + apply update_where_id_marks. intros b. reflexivity.
Qed.

Lemma status_update_is_unconditional_witness :
  fst (updateBookingStatus "owner-1" Sample.b1 "confirmed" (Sample.one_booking rejected))
  = StatusUpdated.
Proof.
  refine (proj1 (proj2 (proj2 (status_update_is_unconditional "owner-1" Sample.b1
                                 "confirmed" (Sample.one_booking rejected)))
                       confirmed _ _)).
  - reflexivity.
  - exists (Sample.booking Sample.b1 Sample.drill Sample.may_1 Sample.may_5 rejected),
           (Item.mk Sample.drill "owner-1" (100 # 1) "day").
    simpl. repeat split; auto.
Defined.

(* ------------------------------------------------------------------------- *)
(** ** No double booking *)

Lemma names_inactive_false (bookingId : string) (db : DB) :
  names_inactive bookingId db = false ->
  forall b, In b (Bookings db) -> Booking.id b = bookingId -> active b.
Proof.
  unfold names_inactive. intros H b Hin Hid. apply active_iff.
  destruct (status_not_in_cancelled_rejected (Booking.status b)) eqn:E; [reflexivity|].
  assert (Hex : existsb (fun b => String.eqb (Booking.id b) bookingId
                  && negb (status_not_in_cancelled_rejected (Booking.status b)))
                  (Bookings db) = true).
  { apply existsb_exists. exists b. split; [exact Hin|].
    apply String.eqb_eq in Hid. rewrite Hid, E. reflexivity. }
  congruence.
Qed.

Lemma ForallOrdPairs_snoc {A : Type} (R : A -> A -> Prop) (l : list A) (x : A) :
  ForallOrdPairs R l -> Forall (fun a => R a x) l -> ForallOrdPairs R (l ++ [x]).
Proof.
  induction 1 as [|a l Ha Hl IH]; intros Hx; simpl.
  - constructor; constructor.
  - inversion Hx as [|? ? Hax Hlx]; subst. constructor.
    + apply Forall_app. split; [exact Ha|]. constructor; [exact Hax|constructor].
    + apply IH. exact Hlx.
Qed.

Lemma ForallOrdPairs_map_In {A B : Type} (R : A -> A -> Prop) (R' : B -> B -> Prop)
    (g : A -> B) (l : list A) :
  (forall a b, In a l -> In b l -> R a b -> R' (g a) (g b)) ->
  ForallOrdPairs R l -> ForallOrdPairs R' (map g l).
Proof.
  intros Hg H. induction H as [|a l Ha Hl IH]; simpl.
  - constructor.
  - constructor.
    + apply Forall_forall. intros y Hy. apply in_map_iff in Hy.
      destruct Hy as [b [Hb Hin]]. subst y.
      apply Hg; [left; reflexivity|right; exact Hin|].
      rewrite Forall_forall in Ha. apply Ha. exact Hin.
    + apply IH. intros x y Hx Hy. apply Hg; right; assumption.
Qed.

(** An update of the rows named [bookingId] that keeps item and dates and
    makes no row active that was not keeps the bookings compatible. *)
Lemma update_where_id_compatible (bookingId : string) (f : Booking.t -> Booking.t)
    (bs : list Booking.t) :
  (forall b, Booking.item_id (f b) = Booking.item_id b
             /\ Booking.start_date (f b) = Booking.start_date b
             /\ Booking.end_date (f b) = Booking.end_date b) ->
  (forall b, In b bs -> Booking.id b = bookingId -> active (f b) -> active b) ->
  ForallOrdPairs compatible bs ->
  ForallOrdPairs compatible (update_where_id bookingId f bs).
Proof.
  intros Hkeep Hact. unfold update_where_id. apply ForallOrdPairs_map_In.
  intros a b Ha Hb Hab.
  assert (Hg : forall x, In x bs ->
             let y := if String.eqb (Booking.id x) bookingId then f x else x in
             Booking.item_id y = Booking.item_id x
             /\ Booking.start_date y = Booking.start_date x
             /\ Booking.end_date y = Booking.end_date x
             /\ (active y -> active x)).
  { intros x Hx. simpl. destruct (String.eqb (Booking.id x) bookingId) eqn:E.
    - apply String.eqb_eq in E. destruct (Hkeep x) as [H1 [H2 H3]].
      split; [exact H1|split; [exact H2|split; [exact H3|]]].
      intros Hy. apply (Hact x Hx E Hy).
    - split; [|split; [|split]]; auto. }
  destruct (Hg a Ha) as [Ia [Sa [Ea Aa]]]. destruct (Hg b Hb) as [Ib [Sb [Eb Ab]]].
  unfold compatible. rewrite Ia, Sa, Ea, Ib, Sb, Eb.
  intros Hitem Hacta Hactb. apply Hab; auto.
Qed.

Section Invariant.

Variable isUUID : string -> bool.

Lemma createBooking_keeps_invariant (user : string) (req : BookingReq.body)
    (bookingId : string) (now : Z) (db : DB) :
  no_double_booking db ->
  no_double_booking (snd (createBooking isUUID user req bookingId now db)).
Proof.
  intros Hinv.
  destruct (createBooking_cases isUUID user req bookingId now db)
    as [E|[s [e [_ [_ [Hc E]]]]]]; rewrite E; [exact Hinv|].
  unfold no_double_booking. simpl. apply ForallOrdPairs_snoc; [exact Hinv|].
  apply Forall_forall. intros a Ha Hitem Hacta _ Hov. simpl in *.
  assert (Hin : In a (overlapCheck db (BookingReq.item_id req) s e)).
  { apply filter_In. split; [exact Ha|]. apply overlap_row_spec.
    repeat split; [exact Hitem|apply active_iff; exact Hacta|].
    apply ranges_overlap_caught. exact Hov. }
  rewrite Hc in Hin. destruct Hin.
Qed.

Lemma run_keeps_invariant (o : op) (db : DB) :
  reactivates o db = false ->
  no_double_booking db -> no_double_booking (snd (run isUUID o db)).
Proof.
  intros Hg Hinv. destruct o as [user req bookingId now|user bookingId status|env req];
    simpl in *.
  - apply createBooking_keeps_invariant. exact Hinv.
  - unfold updateBookingStatus.
    destruct (parse_status status) as [st|]; [|exact Hinv].
    destruct (ownerCheck db bookingId user); [exact Hinv|].
    unfold no_double_booking. simpl. apply update_where_id_compatible; [| |exact Hinv].
    + intros b. repeat split.
    + intros b Hin Hid Hact. apply andb_false_iff in Hg. destruct Hg as [Hst|Hn].
      * apply active_iff in Hact. simpl in Hact. congruence.
      * apply (names_inactive_false bookingId db Hn b Hin Hid).
  - unfold verifyPayment.
    destruct (String.eqb (expected_signature env req)
                         (VerifyReq.razorpay_signature req)); [|exact Hinv].
    simpl in Hg. unfold no_double_booking. simpl.
    apply update_where_id_compatible; [| |exact Hinv].
    + intros b. repeat split.
    + intros b Hin Hid _.
      apply (names_inactive_false (VerifyReq.booking_id req) db Hg b Hin Hid).
Qed.

Lemma run_all_keeps_invariant (ops : list op) :
  forall db, never_reactivates isUUID ops db = true ->
             no_double_booking db -> no_double_booking (run_all isUUID ops db).
Proof.
  induction ops as [|o ops IH]; intros db Hg Hinv; simpl in *.
  - exact Hinv.
  - apply andb_true_iff in Hg. destruct Hg as [Ho Hops].
    apply IH; [exact Hops|]. apply run_keeps_invariant; [|exact Hinv].
    apply negb_true_iff. exact Ho.
Qed.

End Invariant.

(* ------------------------------------------------------------------------- *)
(** ** Requests in flight *)

Lemma nth_error_last {A : Type} (l : list A) (x : A) :
  nth_error (l ++ [x]) (List.length l) = Some x.
Proof. induction l as [|a l IH]; simpl; [reflexivity|exact IH]. Qed.

Lemma replace_nth_last {A : Type} (l : list A) (x y : A) :
  replace_nth (List.length l) y (l ++ [x]) = l ++ [y].
Proof. induction l as [|a l IH]; simpl; [reflexivity|rewrite IH; reflexivity]. Qed.

Lemma Forall_replace_nth {A : Type} (P : A -> Prop) (n : nat) (x : A) (l : list A) :
  P x -> Forall P l -> Forall P (replace_nth n x l).
Proof.
  intros Hx H. revert n. induction H as [|a l Ha H IH]; intros n.
  - destruct n; constructor.
  - destruct n as [|n]; simpl; constructor; auto.
Qed.

Lemma Forall_nth_error {A : Type} (P : A -> Prop) (l : list A) (n : nat) (x : A) :
  Forall P l -> nth_error l n = Some x -> P x.
Proof.
  intros H Hn. rewrite Forall_forall in H. apply H. exact (nth_error_In _ _ Hn).
Qed.

Ltac step_through :=
  cbn [resume fst snd Booking.id Booking.user_id Booking.item_id Booking.start_date
       Booking.end_date Booking.created_at Review.id Review.user_id Review.item_id].

Section Flight.

Variable isUUID : string -> bool.

(** A request that runs its statements with no other statement in between
    is answered, and leaves the tables, as the handler taken as a whole
    does. *)
Lemma handled_alone (r : request) (st : DB * list Review.t) :
  resume (fst (resume (fst (resume (arrive isUUID r) st))
                      (snd (resume (arrive isUUID r) st))))
         (snd (resume (fst (resume (arrive isUUID r) st))
                      (snd (resume (arrive isUUID r) st))))
  = (Answered (answer_to isUUID r st), serve isUUID r st).
Proof.
  destruct st as [db reviews].
  destruct r as [[user req bookingId now|user bookingId status|env req]
                |user req paymentId|user req reviewId now];
    unfold arrive, answer_to, serve, run; cbn [fst snd].
  - unfold createBooking.
    destruct (isUUID (BookingReq.item_id req)); [|reflexivity].
    destruct (BookingReq.start_date req) as [s|]; [|reflexivity].
    destruct (BookingReq.end_date req) as [e|]; [|reflexivity].
    step_through.
    destruct (itemCheck db (BookingReq.item_id req)) as [|it rest]; [reflexivity|].
    destruct (String.eqb (Item.owner_id it) user); [reflexivity|].
    step_through.
    destruct (overlapCheck db (BookingReq.item_id req) s e); reflexivity.
  - unfold updateBookingStatus.
    destruct (parse_status status) as [st|]; [|reflexivity].
    step_through.
    destruct (ownerCheck db bookingId user); reflexivity.
  - unfold verifyPayment.
    destruct (negb (String.eqb (expected_signature env req)
                               (VerifyReq.razorpay_signature req))); reflexivity.
  - unfold Payments.processPayment.
    destruct (Payments.missing (Payments.booking_id req)
              || Payments.missing (Payments.payment_method req)
              || Payments.missing_details (Payments.payment_details req));
      [reflexivity|].
    step_through.
    destruct (Payments.bookingCheck db _ user) as [|[[b i] d] l]; reflexivity.
  - unfold Reviews.createReview.
    destruct (isUUID (Reviews.item_id req)); [|reflexivity].
    destruct (Reviews.valid_rating (Reviews.rating req)) as [stars|]; [|reflexivity].
    destruct (Reviews.valid_comment (Reviews.comment req)); [|reflexivity].
    step_through.
    destruct (Reviews.bookingCheck db user (Reviews.item_id req)); [reflexivity|].
    step_through.
    destruct (Reviews.existingReview reviews user (Reviews.item_id req)); reflexivity.
Qed.

Lemma step_resume_last (st : DB * list Review.t) (fl : list task) (t : task) :
  step isUUID (Resume (List.length fl)) (mkWorld st (fl ++ [t]))
  = mkWorld (snd (resume t st)) (fl ++ [fst (resume t st)]).
Proof.
  unfold step. cbn [flight tables]. rewrite nth_error_last, replace_nth_last.
  reflexivity.
Qed.

Lemma steps_alone (r : request) (evs : list event) (w : world) :
  steps isUUID (Arrive r :: Resume (List.length (flight w))
                :: Resume (List.length (flight w))
                :: Resume (List.length (flight w)) :: evs) w
  = steps isUUID evs
      (mkWorld (serve isUUID r (tables w))
               (flight w ++ [Answered (answer_to isUUID r (tables w))])).
Proof.
  destruct w as [st fl]. cbn [steps flight tables]. unfold step at 4.
  cbn [flight tables]. rewrite !step_resume_last.
  rewrite (handled_alone r st). reflexivity.
Qed.

Lemma serially_is_serve_all (rs : list request) :
  forall w, tables (steps isUUID (serially (List.length (flight w)) rs) w)
            = serve_all isUUID rs (tables w).
Proof.
  induction rs as [|r rs IH]; intros w; [reflexivity|].
  cbn [serially serve_all]. rewrite steps_alone.
  set (w' := mkWorld (serve isUUID r (tables w))
                     (flight w ++ [Answered (answer_to isUUID r (tables w))])).
  assert (Hl : S (List.length (flight w)) = List.length (flight w')).
  { unfold w'. cbn [flight]. rewrite length_app. simpl. lia. }
  rewrite Hl. rewrite (IH w'). reflexivity.
Qed.

Lemma serve_all_bookings (ops : list op) :
  forall (db : DB) (reviews : list Review.t),
    serve_all isUUID (map BookingRequest ops) (db, reviews)
    = (run_all isUUID ops db, reviews).
Proof.
  induction ops as [|o ops IH]; intros db reviews; [reflexivity|].
  simpl. apply IH.
Qed.

(** A row that the overlap query does not conflict with can be added. *)
Lemma insert_compatible (db : DB) (row : Booking.t) :
  overlapCheck db (Booking.item_id row) (Booking.start_date row) (Booking.end_date row)
  = [] ->
  no_double_booking db ->
  ForallOrdPairs compatible (Bookings db ++ [row]).
Proof.
  intros Hc Hinv. apply ForallOrdPairs_snoc; [exact Hinv|].
  apply Forall_forall. intros a Ha Hitem Hacta _ Hov.
  assert (Hin : In a (overlapCheck db (Booking.item_id row)
                        (Booking.start_date row) (Booking.end_date row))).
  { apply filter_In. split; [exact Ha|]. apply overlap_row_spec.
    repeat split; [exact Hitem|apply active_iff; exact Hacta|].
    apply ranges_overlap_caught. exact Hov. }
  rewrite Hc in Hin. destruct Hin.
Qed.

Lemma resume_keeps_no_double_booking (t : task) (st : DB * list Review.t) :
  stale_or_revives t st = false ->
  no_double_booking (fst st) ->
  no_double_booking (fst (snd (resume t st))).
Proof.
  intros Hg Hinv. unfold stale_or_revives in Hg. apply orb_false_iff in Hg.
  destruct Hg as [Hs Hr]. destruct st as [db reviews].
  destruct t as [row|row|row|user bookingId status|bookingId status|req
                |user booking_id paymentId|booking_id paymentId amount
                |row|row|row|a]; cbn [resume stale_booking revives fst snd] in *.
  - destruct (itemCheck db (Booking.item_id row)) as [|it rest]; [exact Hinv|].
    destruct (String.eqb (Item.owner_id it) (Booking.user_id row)); exact Hinv.
  - destruct (overlapCheck db _ _ _); exact Hinv.
  - destruct (overlapCheck db (Booking.item_id row) (Booking.start_date row)
                           (Booking.end_date row)) eqn:Hc; [|discriminate].
    unfold no_double_booking. cbn [Bookings set_Bookings].
    apply (insert_compatible db
             (Booking.mk (Booking.id row) (Booking.user_id row) (Booking.item_id row)
                         (Booking.start_date row) (Booking.end_date row)
                         pending unpaid (Booking.created_at row)));
      [exact Hc|exact Hinv].
  - destruct (ownerCheck db bookingId user); exact Hinv.
  - unfold no_double_booking. cbn [Bookings set_Bookings].
    apply update_where_id_compatible; [| |exact Hinv].
    + intros b. repeat split.
    + intros b Hin Hid Hact. apply andb_false_iff in Hr. destruct Hr as [Hst|Hn].
      * apply active_iff in Hact. simpl in Hact. congruence.
      * apply (names_inactive_false bookingId db Hn b Hin Hid).
  - unfold no_double_booking. cbn [Bookings set_Bookings].
    apply update_where_id_compatible; [| |exact Hinv].
    + intros b. repeat split.
    + intros b Hin Hid _.
      apply (names_inactive_false (VerifyReq.booking_id req) db Hr b Hin Hid).
  - destruct (Payments.bookingCheck db booking_id user) as [|[[b i] d] l]; exact Hinv.
  - unfold no_double_booking. cbn [Bookings set_Bookings].
    apply update_where_id_compatible; [| |exact Hinv].
    + intros b. repeat split.
    + intros b _ _ Hact. exact Hact.
  - destruct (Reviews.bookingCheck db _ _); exact Hinv.
  - destruct (Reviews.existingReview reviews _ _); exact Hinv.
  - exact Hinv.
  - exact Hinv.
Qed.

Lemma steps_keep_no_double_booking (evs : list event) :
  forall w,
    never isUUID stale_or_revives evs w = true ->
    no_double_booking (fst (tables w)) ->
    no_double_booking (fst (tables (steps isUUID evs w))).
Proof.
  induction evs as [|e evs IH]; intros w Hg Hinv; [exact Hinv|].
  cbn [never steps] in *. apply andb_true_iff in Hg. destruct Hg as [He Hevs].
  apply IH; [exact Hevs|]. destruct e as [r|n]; [exact Hinv|].
  unfold step. destruct (nth_error (flight w) n) as [t|]; [|exact Hinv].
  cbn [tables]. apply resume_keeps_no_double_booking; [|exact Hinv].
  apply negb_true_iff. exact He.
Qed.

End Flight.

(** C1, as stated, fails. A booking of the drill for 1 to 5 May is rejected
    by the owner, 3 to 6 May are then booked by somebody else, and the owner
    sets the first booking to confirmed: the store now holds two active
    bookings of the drill that share 3 to 5 May. *)
Lemma revived_booking_double_books :
  ~ (forall (isUUID : string -> bool) (db : DB),
       reachable isUUID db -> no_double_booking db).
Proof.
  intros H.
  specialize (H Sample.isUUID
                (run_all Sample.isUUID Sample.revive_rejected (initial Sample.items))).
  assert (R : reachable Sample.isUUID
                (run_all Sample.isUUID Sample.revive_rejected (initial Sample.items))).
  { exists Sample.items, Sample.revive_rejected. reflexivity. }
  apply H in R. unfold no_double_booking in R.
  assert (E : Bookings (run_all Sample.isUUID Sample.revive_rejected (initial Sample.items))
              = [Booking.mk Sample.b1 "renter-1" Sample.drill 19844 19848 confirmed unpaid 1;
                 Booking.mk Sample.b2 "renter-2" Sample.drill 19846 19849 pending unpaid 2])
    by (vm_compute; reflexivity).
  rewrite E in R. clear E.
  inversion R as [|a l Ha _]; subst. inversion Ha as [|b l' Hab _]; subst.
  apply Hab; simpl.
  - reflexivity.
  - split; discriminate.
  - split; discriminate.
  - unfold ranges_overlap. simpl. lia.
Qed.

(** C1, amended. Starting from a store without bookings, take any
    interleaving of the statements of booking creations, status updates,
    payment verifications, direct payments and reviews in which no booking
    row is inserted at a moment when the overlap query of its request would
    return a row, and no status update to confirmed or completed and no
    payment verification writes at a moment when the booking it names is
    cancelled or rejected. Then the bookings of an item whose status is
    neither cancelled nor rejected are pairwise non-overlapping, both ends
    included. This is so in particular when the requests are handled one at
    a time and none of those that are accepted names, for a status that is
    neither cancelled nor rejected, a booking that is cancelled or rejected
    at that moment. *)
Theorem no_double_booking_without_reactivation :
  forall (isUUID : string -> bool) (items : list Item.t),
    (forall evs : list event,
        never isUUID stale_or_revives evs (quiet items) = true ->
        no_double_booking (fst (tables (steps isUUID evs (quiet items)))))
    /\ (forall ops : list op,
          never_reactivates isUUID ops (initial items) = true ->
          fst (tables (steps isUUID (serially 0 (map BookingRequest ops)) (quiet items)))
          = run_all isUUID ops (initial items)
          /\ no_double_booking (run_all isUUID ops (initial items))).
Proof.
  intros isUUID items. split.
  - intros evs Hg. apply steps_keep_no_double_booking; [exact Hg|].
    unfold no_double_booking, quiet, initial. simpl. constructor.
  - intros ops Hg. split.
    + unfold quiet.
      pose proof (serially_is_serve_all isUUID (map BookingRequest ops)
                    (mkWorld (initial items, []) [])) as H.
      cbn [flight tables List.length] in H. rewrite H, serve_all_bookings.
      reflexivity.
    + apply run_all_keeps_invariant; [exact Hg|].
      unfold no_double_booking, initial. simpl. constructor.
Qed.

Lemma no_double_booking_without_reactivation_witness :
  no_double_booking
    (fst (tables (steps Sample.isUUID Sample3.side_by_side (quiet Sample.items))))
  /\ fst (tables (steps Sample.isUUID
                    (serially 0 (map BookingRequest Sample.reject_and_rebook))
                    (quiet Sample.items)))
     = run_all Sample.isUUID Sample.reject_and_rebook (initial Sample.items)
  /\ no_double_booking
       (run_all Sample.isUUID Sample.reject_and_rebook (initial Sample.items)).
Proof.
  split.
  - refine (proj1 (no_double_booking_without_reactivation Sample.isUUID Sample.items)
              Sample3.side_by_side _).
    vm_compute. reflexivity.
  - refine (proj2 (no_double_booking_without_reactivation Sample.isUUID Sample.items)
              Sample.reject_and_rebook _).
    vm_compute. reflexivity.
Defined.

(** The first condition is needed: two requests for the drill on common
    days, each of which runs its checks before the other inserts its row,
    are both accepted, with no status update at all. *)
Example interleaved_creations_double_book :
  never Sample.isUUID revives Sample3.race (quiet Sample.items) = true
  /\ map Booking.status
         (Bookings (fst (tables (steps Sample.isUUID Sample3.race (quiet Sample.items)))))
     = [pending; pending]
  /\ ~ no_double_booking
         (fst (tables (steps Sample.isUUID Sample3.race (quiet Sample.items)))).
Proof.
  split; [vm_compute; reflexivity|]. split; [vm_compute; reflexivity|].
  intros R. unfold no_double_booking in R.
  assert (E : Bookings (fst (tables (steps Sample.isUUID Sample3.race
                                           (quiet Sample.items))))
              = [Booking.mk Sample.b1 "renter-1" Sample.drill 19844 19848 pending unpaid 1;
                 Booking.mk Sample.b2 "renter-2" Sample.drill 19846 19849 pending unpaid 2])
    by (vm_compute; reflexivity).
  rewrite E in R. clear E.
  inversion R as [|a l Ha _]; subst. inversion Ha as [|b l' Hab _]; subst.
  apply Hab; simpl.
  - reflexivity.
  - split; discriminate.
  - split; discriminate.
  - unfold ranges_overlap. simpl. lia.
Qed.

(* ------------------------------------------------------------------------- *)
(** ** The price breakdown and the payment order *)

Lemma createOrder_created (gateway : Order.options -> option string)
    (req : OrderReq.body) (db : DB) (order_id : string) (amount : Z)
    (bd : Breakdown) (calls : list Order.options) :
  createOrder gateway req db = (OrderCreated order_id amount bd, calls) ->
  exists it rest,
    itemCheck db (OrderReq.item_id req) = it :: rest
    /\ bd = computeBreakdown (Item.price it) (OrderReq.start_date req)
                             (OrderReq.end_date req)
    /\ amount = total bd
    /\ calls = [order_options req bd]
    /\ gateway (order_options req bd) = Some order_id.
Proof.
  unfold createOrder. intros H.
  destruct (itemCheck db (OrderReq.item_id req)) as [|it rest]; [discriminate|].
  exists it, rest.
  remember (computeBreakdown (Item.price it) (OrderReq.start_date req)
                             (OrderReq.end_date req)) as bd' eqn:Hbd.
  destruct (gateway (order_options req bd')) as [oid|] eqn:G; [|discriminate].
  injection H. intros Hc Hb Ha Ho. rewrite Hb in Hbd, Hc, Ha, G. rewrite Ho in G.
  split; [reflexivity|]. split; [symmetry; exact Hb|].
  split; [symmetry; exact Ha|]. split; [symmetry; exact Hc|exact G].
Qed.

(** C7, as stated, fails. From 1 May to 3 May the handler counts two days,
    so the breakdown is not 300, 45, 200 and 545. *)
Lemma three_days_are_charged_as_two :
  ~ (computeBreakdown (100 # 1) (iso_date 2024 5 1) (iso_date 2024 5 3)
     = mkBreakdown 300 45 200 545).
Proof. vm_compute. discriminate. Qed.

(** C7, amended. For a unit price of 100, start date 2024-05-01 and end date
    2024-05-03 the handler counts the two days between the dates and replies
    with rent 200, platform fee 30, safety deposit 200 and total 430; for a
    whole price and dates in the range of [Date] the rent is the price times
    the difference of the dates; and two create-order requests for items of
    the same price and with the same dates get the same breakdown, whatever
    the booking, the store and the gateway. *)
Theorem breakdown_counts_difference_of_dates :
  computeBreakdown (100 # 1) (iso_date 2024 5 1) (iso_date 2024 5 3)
  = mkBreakdown 200 30 200 430
  /\ (forall (P : Z) (start_date end_date : date),
        Z.abs start_date <= 10 ^ 8 -> Z.abs end_date <= 10 ^ 8 ->
        Z.abs P < 2 ^ 53 -> Z.abs (P * (end_date - start_date)) < 2 ^ 53 ->
        rent_payment (computeBreakdown (P # 1) start_date end_date)
        = P * (end_date - start_date))
  /\ (forall (gateway1 gateway2 : Order.options -> option string)
             (req1 req2 : OrderReq.body) (db1 db2 : DB)
             (it1 it2 : Item.t) (rest1 rest2 : list Item.t)
             (o1 o2 : string) (a1 a2 : Z) (bd1 bd2 : Breakdown)
             (c1 c2 : list Order.options),
        itemCheck db1 (OrderReq.item_id req1) = it1 :: rest1 ->
        itemCheck db2 (OrderReq.item_id req2) = it2 :: rest2 ->
        Item.price it1 = Item.price it2 ->
        OrderReq.start_date req1 = OrderReq.start_date req2 ->
        OrderReq.end_date req1 = OrderReq.end_date req2 ->
        createOrder gateway1 req1 db1 = (OrderCreated o1 a1 bd1, c1) ->
        createOrder gateway2 req2 db2 = (OrderCreated o2 a2 bd2, c2) ->
        bd1 = bd2 /\ a1 = a2).
Proof.
  split; [vm_compute; reflexivity|]. split.
  - intros P s e Hs He HP HPd. unfold computeBreakdown. cbn [rent_payment].
    rewrite daysDiff_exact by assumption.
    apply rentPayment_whole; [exact HP| |exact HPd].
    assert (10 ^ 8 + 10 ^ 8 < 2 ^ 53) by reflexivity. lia.
  - intros g1 g2 req1 req2 db1 db2 it1 it2 rest1 rest2 o1 o2 a1 a2 bd1 bd2 c1 c2
           Hi1 Hi2 Hp Hs He H1 H2.
    apply createOrder_created in H1. apply createOrder_created in H2.
    destruct H1 as [i1 [r1 [E1 [B1 [A1 _]]]]]. destruct H2 as [i2 [r2 [E2 [B2 [A2 _]]]]].
    rewrite Hi1 in E1. rewrite Hi2 in E2.
    injection E1. injection E2. intros. subst i1 i2.
    assert (bd1 = bd2) by (rewrite B1, B2, Hp, Hs, He; reflexivity).
    split; [assumption|]. subst a1 a2. congruence.
Qed.

Lemma breakdown_counts_difference_of_dates_witness :
  rent_payment (computeBreakdown (100 # 1) Sample.may_1 Sample.may_3)
  = 100 * (Sample.may_3 - Sample.may_1)
  /\ (mkBreakdown 200 30 200 430 = mkBreakdown 200 30 200 430 /\ 430 = 430).
Proof.
  split.
  - refine (proj1 (proj2 breakdown_counts_difference_of_dates)
              100 Sample.may_1 Sample.may_3 _ _ _ _);
      vm_compute; first [reflexivity | discriminate].
  - refine (proj2 (proj2 breakdown_counts_difference_of_dates)
              Sample.gateway Sample.other_gateway
              Sample.order_req Sample.other_order_req
              (initial Sample.items) Sample.two_bookings
              (Item.mk Sample.drill "owner-1" (100 # 1) "day")
              (Item.mk Sample.drill "owner-1" (100 # 1) "day") [] []
              "order_N7a1"%string
              "order_booking_9a4e2c7b-5f18-4d3a-8b6c-2e7f1a9d4c02"%string
              430 430 (mkBreakdown 200 30 200 430) (mkBreakdown 200 30 200 430)
              [order_options Sample.order_req (mkBreakdown 200 30 200 430)]
              [order_options Sample.other_order_req (mkBreakdown 200 30 200 430)]
              _ _ _ _ _ _ _);
      vm_compute; reflexivity.
Defined.

(** C10, as stated, fails. A day of a crane at 3378144248262807 a day
    costs 3884865885502428 with fee and deposit; the gateway is asked for
    388486588550242816, the double nearest to the product by 100, which is
    16 more than 100 times the total of the reply. *)
Lemma gateway_amount_is_rounded :
  ~ (forall (gateway : Order.options -> option string) (req : OrderReq.body) (db : DB)
            (order_id : string) (amount : Z) (bd : Breakdown)
            (calls : list Order.options),
       createOrder gateway req db = (OrderCreated order_id amount bd, calls) ->
       exists opts, calls = [opts] /\ Order.amount opts = 100 * total bd).
Proof.
  intros H.
  destruct (H Sample.other_gateway Sample3.crane_order Sample3.yard
              "order_booking_3d6f0a1e-8c2b-4f7d-a5e9-1b4c7d2e9f01"%string
              3884865885502428
              (mkBreakdown 3378144248262807 506721637239421 200 3884865885502428)
              [order_options Sample3.crane_order
                 (mkBreakdown 3378144248262807 506721637239421 200 3884865885502428)])
    as [opts [Hc Ha]].
  - vm_compute. reflexivity.
  - injection Hc as <-. vm_compute in Ha. discriminate.
Qed.

(** C10, amended. When create-order succeeds the gateway was called once,
    with an amount that is the product by 100, on doubles, of the amount of
    the reply, which is the total of the breakdown of the reply; the client
    multiplies the amount of the reply by 100 in the same way. As long as
    the product stays below [2 ^ 53] it is exact: the amount in paise is 100
    times the total in rupees. *)
Theorem gateway_amount_is_hundred_times_total :
  forall (gateway : Order.options -> option string) (req : OrderReq.body) (db : DB)
         (order_id : string) (amount : Z) (bd : Breakdown)
         (calls : list Order.options),
    createOrder gateway req db = (OrderCreated order_id amount bd, calls) ->
    exists opts,
      calls = [opts]
      /\ gateway opts = Some order_id
      /\ amount = total bd
      /\ Order.amount opts = Binary64.mul amount 100
      /\ checkout_amount amount = Order.amount opts
      /\ (Z.abs (amount * 100) < 2 ^ 53 -> Order.amount opts = 100 * amount).
Proof.
  intros gateway req db order_id amount bd calls H.
  apply createOrder_created in H. destruct H as [it [rest [_ [_ [Ha [Hc Hg]]]]]].
  exists (order_options req bd). cbn [order_options Order.amount]. rewrite <- Ha.
  repeat split; try assumption.
  intros Hb. rewrite mul_exact; [ring| |reflexivity|exact Hb]. lia.
Qed.

Lemma gateway_amount_is_hundred_times_total_witness :
  exists opts,
    [order_options Sample.order_req (mkBreakdown 200 30 200 430)] = [opts]
    /\ Sample.gateway opts = Some "order_N7a1"%string
    /\ 430 = total (mkBreakdown 200 30 200 430)
    /\ Order.amount opts = Binary64.mul 430 100
    /\ checkout_amount 430 = Order.amount opts
    /\ Order.amount opts = 100 * 430.
Proof.
  assert (H : createOrder Sample.gateway Sample.order_req (initial Sample.items)
              = (OrderCreated "order_N7a1" 430 (mkBreakdown 200 30 200 430),
                 [order_options Sample.order_req (mkBreakdown 200 30 200 430)]))
    by (vm_compute; reflexivity).
  destruct (gateway_amount_is_hundred_times_total Sample.gateway Sample.order_req
              (initial Sample.items) "order_N7a1" 430 (mkBreakdown 200 30 200 430)
              [order_options Sample.order_req (mkBreakdown 200 30 200 430)] H)
    as [opts [H1 [H2 [H3 [H4 [H5 H6]]]]]].
  exists opts.
  split; [exact H1|]. split; [exact H2|]. split; [exact H3|].
  split; [exact H4|]. split; [exact H5|].
  apply H6. vm_compute. reflexivity.
Defined.


(* ------------------------------------------------------------------------- *)
(** ** Repeated and composed requests *)

Lemma update_where_id_twice (bookingId : string) (f g : Booking.t -> Booking.t)
    (bs : list Booking.t) :
  (forall b, Booking.id (f b) = Booking.id b) ->
  update_where_id bookingId g (update_where_id bookingId f bs)
  = update_where_id bookingId (fun b => g (f b)) bs.
Proof.
  intros Hid. unfold update_where_id. rewrite map_map. apply map_ext. intros b.
  destruct (String.eqb (Booking.id b) bookingId) eqn:E.
  - rewrite Hid, E. reflexivity.
  - rewrite E. reflexivity.
Qed.

Lemma update_where_id_ext (bookingId : string) (f g : Booking.t -> Booking.t)
    (bs : list Booking.t) :
  (forall b, f b = g b) ->
  update_where_id bookingId f bs = update_where_id bookingId g bs.
Proof.
  intros H. unfold update_where_id. apply map_ext. intros b.
  destruct (String.eqb (Booking.id b) bookingId); [apply H|reflexivity].
Qed.

Lemma update_where_id_unnamed (bookingId : string) (f : Booking.t -> Booking.t)
    (bs : list Booking.t) :
  (forall b, In b bs -> Booking.id b <> bookingId) ->
  update_where_id bookingId f bs = bs.
Proof.
  intros H. unfold update_where_id. rewrite <- (map_id bs) at 2.
  apply map_ext_in. intros b Hb. apply H in Hb. apply String.eqb_neq in Hb.
  rewrite Hb. reflexivity.
Qed.

Lemma set_Bookings_same (db : DB) : set_Bookings db (Bookings db) = db.
Proof. destruct db. reflexivity. Qed.

Lemma ownerCheck_after_update (db : DB) (bookingId user b' : string)
    (f : Booking.t -> Booking.t) :
  (forall b, Booking.id (f b) = Booking.id b
             /\ Booking.item_id (f b) = Booking.item_id b) ->
  ownerCheck (set_Bookings db (update_where_id b' f (Bookings db))) bookingId user
  = ownerCheck db bookingId user.
Proof.
  intros Hf. unfold ownerCheck, update_where_id. simpl.
  induction (Bookings db) as [|b bs IH]; simpl; [reflexivity|].
  rewrite IH. f_equal.
  destruct (String.eqb (Booking.id b) b'); [|reflexivity].
  destruct (Hf b) as [H1 H2]. rewrite H1, H2. reflexivity.
Qed.

(** X1. Verifying a payment twice gives the same reply and the same store as
    verifying it once (the gateway may deliver its callback more than
    once). *)
Theorem verifyPayment_idempotent :
  forall (env : option string) (req : VerifyReq.body) (db : DB),
    verifyPayment env req (snd (verifyPayment env req db)) = verifyPayment env req db.
Proof.
  intros env req db. unfold verifyPayment.
  destruct (negb (String.eqb (expected_signature env req)
                             (VerifyReq.razorpay_signature req))); [reflexivity|].
  simpl. f_equal. unfold set_Bookings. simpl. f_equal.
  rewrite update_where_id_twice by reflexivity.
  apply update_where_id_ext. reflexivity.
Qed.

(** X2. A verification with a valid signature that names no booking of the
    store is still answered "payment verified", with HTTP 200, and the store
    is left as it was: the handler does not look the booking up. *)
Theorem verifyPayment_of_unknown_booking :
  forall (env : option string) (req : VerifyReq.body) (db : DB),
    VerifyReq.razorpay_signature req = expected_signature env req ->
    (forall b, In b (Bookings db) -> Booking.id b <> VerifyReq.booking_id req) ->
    verifyPayment env req db
    = (PaymentVerified (VerifyReq.razorpay_payment_id req), db)
    /\ http_status (fst (verifyPayment env req db)) = 200.
Proof.
  intros env req db Hs Hn. rewrite (verifyPayment_match env req db Hs).
  rewrite update_where_id_unnamed by exact Hn. rewrite set_Bookings_same.
  split; reflexivity.
Qed.

Lemma verifyPayment_of_unknown_booking_witness :
  verifyPayment Sample.secret (Sample.signed "order_N7a1" "pay_Q2b8" Sample.b2)
    (Sample.one_booking pending)
  = (PaymentVerified
       (VerifyReq.razorpay_payment_id (Sample.signed "order_N7a1" "pay_Q2b8" Sample.b2)),
     Sample.one_booking pending).
Proof.
  refine (proj1 (verifyPayment_of_unknown_booking Sample.secret
                   (Sample.signed "order_N7a1" "pay_Q2b8" Sample.b2)
                   (Sample.one_booking pending) _ _)).
  - vm_compute. reflexivity.
  - intros b [Hb|[]]. subst b. vm_compute. discriminate.
Defined.

(** X3. The last accepted status wins: a status update that follows another
    one by the same caller for the same booking has the reply and the store
    it would have had alone, whatever the first one asked for. *)
Theorem status_update_overwrites :
  forall (user bookingId status1 status2 : string) (db : DB),
    parse_status status2 <> None ->
    updateBookingStatus user bookingId status2
      (snd (updateBookingStatus user bookingId status1 db))
    = updateBookingStatus user bookingId status2 db.
Proof.
  intros user bookingId status1 status2 db Hp.
  unfold updateBookingStatus at 2.
  destruct (parse_status status1) as [st1|]; [|reflexivity].
  destruct (ownerCheck db bookingId user) eqn:Ho; [reflexivity|].
  simpl. unfold updateBookingStatus.
  destruct (parse_status status2) as [st2|]; [|contradiction].
  rewrite ownerCheck_after_update by (intros b; split; reflexivity).
  rewrite Ho. f_equal. unfold set_Bookings. simpl. f_equal.
  rewrite update_where_id_twice by reflexivity.
  apply update_where_id_ext. reflexivity.
Qed.

Lemma status_update_overwrites_witness :
  updateBookingStatus "owner-1" Sample.b1 "cancelled"
    (snd (updateBookingStatus "owner-1" Sample.b1 "confirmed" (Sample.one_booking pending)))
  = updateBookingStatus "owner-1" Sample.b1 "cancelled" (Sample.one_booking pending).
Proof.
  refine (status_update_overwrites "owner-1" Sample.b1 "confirmed" "cancelled"
            (Sample.one_booking pending) _).
  vm_compute. discriminate.
Defined.

(* ------------------------------------------------------------------------- *)
(** ** What no request does to a booking *)

Lemma evolves_refl (b : Booking.t) : evolves b b.
Proof. unfold evolves. repeat split; auto. Qed.

Lemma evolves_trans (a b c : Booking.t) : evolves a b -> evolves b c -> evolves a c.
Proof.
  unfold evolves. intros [A1 [A2 [A3 [A4 [A5 [A6 [A7 A8]]]]]]]
                         [B1 [B2 [B3 [B4 [B5 [B6 [B7 B8]]]]]]].
  repeat split; try congruence; auto.
Qed.

Lemma Forall2_evolves_refl (bs : list Booking.t) : Forall2 evolves bs bs.
Proof. induction bs; constructor; [apply evolves_refl|assumption]. Qed.

Lemma Forall2_evolves_trans (l1 : list Booking.t) :
  forall l2 l3, Forall2 evolves l1 l2 -> Forall2 evolves l2 l3 -> Forall2 evolves l1 l3.
Proof.
  induction l1 as [|a l1 IH]; intros l2 l3 H12 H23.
  - inversion H12; subst. inversion H23; subst. constructor.
  - inversion H12 as [|? b ? l2' Hab Hl]; subst.
    inversion H23 as [|? c ? l3' Hbc Hl']; subst.
    constructor; [exact (evolves_trans _ _ _ Hab Hbc)|exact (IH _ _ Hl Hl')].
Qed.

Lemma extends_refl (bs : list Booking.t) : extends bs bs.
Proof.
  exists bs, []. split; [symmetry; apply app_nil_r|apply Forall2_evolves_refl].
Qed.

Lemma extends_trans (l1 l2 l3 : list Booking.t) :
  extends l1 l2 -> extends l2 l3 -> extends l1 l3.
Proof.
  intros [o1 [a1 [E1 F1]]] [o2 [a2 [E2 F2]]]. subst l2 l3.
  apply Forall2_app_inv_l in F2. destruct F2 as [o2a [o2b [Fa [Fb E]]]]. subst o2.
  exists o2a, (o2b ++ a2). split; [symmetry; apply app_assoc|].
  exact (Forall2_evolves_trans _ _ _ F1 Fa).
Qed.

Lemma extends_update (bookingId : string) (f : Booking.t -> Booking.t)
    (bs : list Booking.t) :
  (forall b, evolves b (f b)) -> extends bs (update_where_id bookingId f bs).
Proof.
  intros Hf. exists (update_where_id bookingId f bs), [].
  split; [symmetry; apply app_nil_r|].
  unfold update_where_id. induction bs as [|b bs IH]; simpl; constructor; [|exact IH].
  destruct (String.eqb (Booking.id b) bookingId); [apply Hf|apply evolves_refl].
Qed.

Lemma extends_snoc (bs : list Booking.t) (b : Booking.t) : extends bs (bs ++ [b]).
Proof. exists bs, [b]. split; [reflexivity|apply Forall2_evolves_refl]. Qed.

Lemma parse_status_not_pending (s : string) (st : booking_status) :
  parse_status s = Some st -> st <> pending.
Proof.
  unfold parse_status.
  repeat match goal with
         | |- context [if ?c then _ else _] => destruct c
         end; intros H; inversion H; discriminate.
Qed.

Lemma evolves_set_status (st : booking_status) (b : Booking.t) :
  st <> pending -> evolves b (set_status st b).
Proof. intros H. unfold evolves. simpl. repeat split; auto. Qed.

Lemma evolves_set_confirmed_paid (b : Booking.t) : evolves b (set_confirmed_paid b).
Proof. unfold evolves. simpl. repeat split; intros; discriminate. Qed.

Lemma evolves_set_payment_completed (b : Booking.t) :
  evolves b (Payments.set_payment_completed b).
Proof. unfold evolves. simpl. repeat split; auto; intros; discriminate. Qed.

Section Serve.

Variable isUUID : string -> bool.

Lemma run_extends (o : op) (db : DB) :
  Items (snd (run isUUID o db)) = Items db
  /\ extends (Bookings db) (Bookings (snd (run isUUID o db))).
Proof.
  destruct o as [user req bookingId now|user bookingId status|env req]; simpl.
  - destruct (createBooking_cases isUUID user req bookingId now db)
      as [E|[s [e [_ [_ [_ E]]]]]]; rewrite E.
    + split; [reflexivity|apply extends_refl].
    + split; [reflexivity|apply extends_snoc].
  - unfold updateBookingStatus.
    destruct (parse_status status) as [st|] eqn:Hp;
      [|split; [reflexivity|apply extends_refl]].
    destruct (ownerCheck db bookingId user);
      [split; [reflexivity|apply extends_refl]|].
    split; [reflexivity|]. simpl. apply extends_update. intros b.
    apply evolves_set_status. exact (parse_status_not_pending status st Hp).
  - unfold verifyPayment.
    destruct (negb _); [split; [reflexivity|apply extends_refl]|].
    split; [reflexivity|]. simpl. apply extends_update.
    exact evolves_set_confirmed_paid.
Qed.

Lemma processPayment_extends (user : string) (req : Payments.body) (paymentId : string)
    (db : DB) :
  Items (snd (Payments.processPayment user req paymentId db)) = Items db
  /\ extends (Bookings db) (Bookings (snd (Payments.processPayment user req paymentId db))).
Proof.
  unfold Payments.processPayment.
  destruct (_ || _); [split; [reflexivity|apply extends_refl]|].
  destruct (Payments.bookingCheck db _ user) as [|[[b i] d] l];
    [split; [reflexivity|apply extends_refl]|].
  split; [reflexivity|]. simpl. apply extends_update.
  exact evolves_set_payment_completed.
Qed.

Lemma serve_extends (r : request) (st : DB * list Review.t) :
  Items (fst (serve isUUID r st)) = Items (fst st)
  /\ extends (Bookings (fst st)) (Bookings (fst (serve isUUID r st))).
Proof.
  destruct r as [o|user req paymentId|user req reviewId now]; simpl.
  - apply run_extends.
  - apply processPayment_extends.
  - split; [reflexivity|apply extends_refl].
Qed.

Lemma serve_all_extends (rs : list request) :
  forall st, Items (fst (serve_all isUUID rs st)) = Items (fst st)
             /\ extends (Bookings (fst st)) (Bookings (fst (serve_all isUUID rs st))).
Proof.
  induction rs as [|r rs IH]; intros st; simpl.
  - split; [reflexivity|apply extends_refl].
  - destruct (IH (serve isUUID r st)) as [I1 E1].
    destruct (serve_extends r st) as [I2 E2].
    split; [congruence|exact (extends_trans _ _ _ E2 E1)].
Qed.

End Serve.

Lemma extends_nth_error (bs bs' : list Booking.t) :
  extends bs bs' ->
  forall n b, nth_error bs n = Some b ->
              exists b', nth_error bs' n = Some b' /\ evolves b b'.
Proof.
  intros [old [added [E F]]]. subst bs'.
  induction F as [|b0 b0' l l' H0 F IH]; intros n b Hn.
  - destruct n; discriminate.
  - destruct n as [|n]; simpl in *.
    + inversion Hn; subst. exists b0'. split; [reflexivity|exact H0].
    + apply IH. exact Hn.
Qed.

(** X4. No request removes, moves or rewrites a booking: after any sequence
    of booking creations, status updates, payment verifications, processed
    payments and reviews, the booking that was at a position of the table is
    still there with its identifier, renter, item, dates and creation
    time. *)
Theorem bookings_are_kept :
  forall (isUUID : string -> bool) (rs : list request) (st : DB * list Review.t)
         (n : nat) (b : Booking.t),
    nth_error (Bookings (fst st)) n = Some b ->
    exists b',
      nth_error (Bookings (fst (serve_all isUUID rs st))) n = Some b'
      /\ Booking.id b' = Booking.id b
      /\ Booking.user_id b' = Booking.user_id b
      /\ Booking.item_id b' = Booking.item_id b
      /\ Booking.start_date b' = Booking.start_date b
      /\ Booking.end_date b' = Booking.end_date b
      /\ Booking.created_at b' = Booking.created_at b.
Proof.
  intros isUUID rs st n b Hn.
  destruct (serve_all_extends isUUID rs st) as [_ E].
  destruct (extends_nth_error _ _ E n b Hn) as [b' [Hn' Hev]].
  exists b'. split; [exact Hn'|]. unfold evolves in Hev. tauto.
Qed.

Lemma bookings_are_kept_witness :
  exists b',
    nth_error (Bookings (fst (serve_all Sample.isUUID (skipn 1 Sample2.season)
                                Sample2.booked))) 0 = Some b'
    /\ Booking.id b' = Sample.b1
    /\ Booking.user_id b' = "renter-1"%string
    /\ Booking.item_id b' = Sample.drill
    /\ Booking.start_date b' = Sample.may_1
    /\ Booking.end_date b' = Sample.may_5
    /\ Booking.created_at b' = 1.
Proof.
  refine (bookings_are_kept Sample.isUUID (skipn 1 Sample2.season) Sample2.booked 0
            (Booking.mk Sample.b1 "renter-1" Sample.drill Sample.may_1 Sample.may_5
                        pending unpaid 1) _).
  vm_compute. reflexivity.
Defined.

(** X5. A booking never returns to pending once it has left it, and never
    returns to unpaid once it is paid, whatever requests follow. *)
Theorem statuses_never_return :
  forall (isUUID : string -> bool) (rs : list request) (st : DB * list Review.t)
         (n : nat) (b : Booking.t),
    nth_error (Bookings (fst st)) n = Some b ->
    exists b',
      nth_error (Bookings (fst (serve_all isUUID rs st))) n = Some b'
      /\ (Booking.status b <> pending -> Booking.status b' <> pending)
      /\ (Booking.payment_status b <> unpaid -> Booking.payment_status b' <> unpaid).
Proof.
  intros isUUID rs st n b Hn.
  destruct (serve_all_extends isUUID rs st) as [_ E].
  destruct (extends_nth_error _ _ E n b Hn) as [b' [Hn' Hev]].
  exists b'. split; [exact Hn'|]. unfold evolves in Hev. tauto.
Qed.

Lemma statuses_never_return_witness :
  exists b',
    nth_error (Bookings (fst (serve_all Sample.isUUID (skipn 3 Sample2.season)
                                Sample2.paid_for))) 0 = Some b'
    /\ (confirmed <> pending -> Booking.status b' <> pending)
    /\ (payment_completed <> unpaid -> Booking.payment_status b' <> unpaid).
Proof.
  refine (statuses_never_return Sample.isUUID (skipn 3 Sample2.season) Sample2.paid_for 0
            (Booking.mk Sample.b1 "renter-1" Sample.drill Sample.may_1 Sample.may_5
                        confirmed payment_completed 1) _).
  vm_compute. reflexivity.
Defined.

(* ------------------------------------------------------------------------- *)
(** ** Whose item a booking is of *)

Lemma books_item_of_another_Items (db db' : DB) (b b' : Booking.t) :
  Items db' = Items db ->
  Booking.item_id b' = Booking.item_id b ->
  Booking.user_id b' = Booking.user_id b ->
  books_item_of_another db b -> books_item_of_another db' b'.
Proof.
  unfold books_item_of_another, itemCheck. intros HI Hi Hu [it [rest [H1 H2]]].
  exists it, rest. rewrite HI, Hi, Hu. split; assumption.
Qed.

Section OwnItem.

Variable isUUID : string -> bool.

Lemma Forall_update_where_id (P : Booking.t -> Prop) (bookingId : string)
    (f : Booking.t -> Booking.t) (bs : list Booking.t) :
  (forall b, P b -> P (f b)) -> Forall P bs -> Forall P (update_where_id bookingId f bs).
Proof.
  intros Hf H. unfold update_where_id. induction H as [|b bs Hb H IH]; simpl; constructor.
  - destruct (String.eqb (Booking.id b) bookingId); [apply Hf|]; assumption.
  - exact IH.
Qed.

Lemma all_of_another_update (db : DB) (bookingId : string) (f : Booking.t -> Booking.t) :
  (forall b, Booking.item_id (f b) = Booking.item_id b
             /\ Booking.user_id (f b) = Booking.user_id b) ->
  all_of_another db ->
  all_of_another (set_Bookings db (update_where_id bookingId f (Bookings db))).
Proof.
  intros Hf H. unfold all_of_another. simpl.
  apply Forall_update_where_id.
  - intros b Hb. destruct (Hf b) as [H1 H2].
    exact (books_item_of_another_Items db _ b (f b) eq_refl H1 H2 Hb).
  - revert H. unfold all_of_another. apply Forall_impl. intros b.
    apply books_item_of_another_Items; reflexivity.
Qed.

Lemma createBooking_of_another (user : string) (req : BookingReq.body)
    (bookingId : string) (now : Z) (db : DB) :
  all_of_another db ->
  all_of_another (snd (createBooking isUUID user req bookingId now db)).
Proof.
  intros H. unfold createBooking.
  destruct (isUUID (BookingReq.item_id req)); [|exact H].
  destruct (BookingReq.start_date req) as [s|]; [|exact H].
  destruct (BookingReq.end_date req) as [e|]; [|exact H].
  destruct (itemCheck db (BookingReq.item_id req)) as [|it rest] eqn:Hi; [exact H|].
  destruct (String.eqb (Item.owner_id it) user) eqn:Ho; [exact H|].
  destruct (overlapCheck db (BookingReq.item_id req) s e); [|exact H].
  unfold all_of_another. simpl. apply Forall_app. split.
  - revert H. unfold all_of_another. apply Forall_impl. intros b.
    apply books_item_of_another_Items; reflexivity.
  - constructor; [|constructor]. exists it, rest. simpl. split; [exact Hi|].
    apply String.eqb_neq. exact Ho.
Qed.

Lemma serve_of_another (r : request) (st : DB * list Review.t) :
  all_of_another (fst st) -> all_of_another (fst (serve isUUID r st)).
Proof.
  intros H. destruct r as [[user req bookingId now|user bookingId status|env req]
                          |user req paymentId|user req reviewId now]; simpl.
  - apply createBooking_of_another. exact H.
  - unfold updateBookingStatus.
    destruct (parse_status status) as [st'|]; [|exact H].
    destruct (ownerCheck (fst st) bookingId user) as [|x l]; [exact H|].
    apply all_of_another_update; [intros b; split; reflexivity|exact H].
  - unfold verifyPayment. destruct (negb _); [exact H|].
    apply all_of_another_update; [intros b; split; reflexivity|exact H].
  - unfold Payments.processPayment. destruct (_ || _); [exact H|].
    destruct (Payments.bookingCheck (fst st) _ user) as [|[[b i] d] l]; [exact H|].
    apply all_of_another_update; [intros b'; split; reflexivity|exact H].
  - exact H.
Qed.

Lemma serve_all_of_another (rs : list request) :
  forall st, all_of_another (fst st) -> all_of_another (fst (serve_all isUUID rs st)).
Proof.
  induction rs as [|r rs IH]; intros st H; simpl; [exact H|].
  apply IH. apply serve_of_another. exact H.
Qed.

End OwnItem.

(** X6. Starting without bookings, whatever requests are served, every
    booking of the store is of an item that exists and that its renter does
    not own. *)
Theorem nobody_books_own_item :
  forall (isUUID : string -> bool) (items : list Item.t) (reviews : list Review.t)
         (rs : list request) (b : Booking.t),
    In b (Bookings (fst (serve_all isUUID rs (initial items, reviews)))) ->
    exists it rest,
      itemCheck (initial items) (Booking.item_id b) = it :: rest
      /\ Item.owner_id it <> Booking.user_id b.
Proof.
  intros isUUID items reviews rs b Hin.
  assert (H : all_of_another (fst (serve_all isUUID rs (initial items, reviews)))).
  { apply serve_all_of_another. unfold all_of_another. simpl. constructor. }
  unfold all_of_another in H. rewrite Forall_forall in H.
  destruct (H b Hin) as [it [rest [H1 H2]]]. exists it, rest. split; [|exact H2].
  destruct (serve_all_extends isUUID rs (initial items, reviews)) as [HI _].
  unfold itemCheck in *. rewrite HI in H1. exact H1.
Qed.

Lemma nobody_books_own_item_witness :
  exists it rest,
    itemCheck (initial Sample.items)
      (Booking.item_id (Booking.mk Sample.b2 "renter-2" Sample.drill
                          Sample.may_6 Sample.may_10 pending unpaid 10))
    = it :: rest
    /\ Item.owner_id it
       <> Booking.user_id (Booking.mk Sample.b2 "renter-2" Sample.drill
                             Sample.may_6 Sample.may_10 pending unpaid 10).
Proof.
  refine (nobody_books_own_item Sample.isUUID Sample.items [] Sample2.season
            (Booking.mk Sample.b2 "renter-2" Sample.drill Sample.may_6 Sample.may_10
                        pending unpaid 10) _).
  vm_compute. right. left. reflexivity.
Defined.

(* ------------------------------------------------------------------------- *)
(** ** Reviews *)

Lemma extends_In (bs bs' : list Booking.t) (b : Booking.t) :
  extends bs bs' -> In b bs -> exists b', In b' bs' /\ evolves b b'.
Proof.
  intros E Hin. apply In_nth_error in Hin. destruct Hin as [n Hn].
  destruct (extends_nth_error bs bs' E n b Hn) as [b' [Hn' Hev]].
  exists b'. split; [exact (nth_error_In _ _ Hn')|exact Hev].
Qed.

Lemma backed_by_booking_extends (db db' : DB) (r : Review.t) :
  extends (Bookings db) (Bookings db') ->
  backed_by_booking db r -> backed_by_booking db' r.
Proof.
  intros E [b [Hin [Hu [Hi Hs]]]].
  destruct (extends_In _ _ b E Hin) as [b' [Hin' Hev]].
  exists b'. unfold evolves in Hev.
  destruct Hev as [_ [E2 [E3 [_ [_ [_ [E7 _]]]]]]].
  split; [exact Hin'|]. split; [congruence|]. split; [congruence|]. exact (E7 Hs).
Qed.

Section Reviews.

Variable isUUID : string -> bool.

(** Whatever the request, the reviews are left as they are or one
    well-formed review is appended, of an item of which the author has a
    completed booking and which the author had not reviewed. *)
Lemma createReview_cases (user : string) (req : Reviews.body) (reviewId : string)
    (now : Z) (db : DB) (reviews : list Review.t) :
  snd (Reviews.createReview isUUID user req reviewId now db reviews) = reviews
  \/ exists r b,
       snd (Reviews.createReview isUUID user req reviewId now db reviews) = reviews ++ [r]
       /\ Review.user_id r = user
       /\ Review.item_id r = Reviews.item_id req
       /\ well_formed_review r
       /\ Reviews.existingReview reviews user (Reviews.item_id req) = []
       /\ In b (Bookings db)
       /\ Booking.user_id b = user
       /\ Booking.item_id b = Reviews.item_id req
       /\ Booking.status b = completed.
Proof.
  unfold Reviews.createReview.
  destruct (isUUID (Reviews.item_id req)); [|left; reflexivity].
  destruct (Reviews.valid_rating (Reviews.rating req)) as [stars|] eqn:Hr;
    [|left; reflexivity].
  destruct (Reviews.valid_comment (Reviews.comment req)) eqn:Hc; [|left; reflexivity].
  destruct (Reviews.bookingCheck db user (Reviews.item_id req)) as [|b l] eqn:Hb;
    [left; reflexivity|].
  destruct (Reviews.existingReview reviews user (Reviews.item_id req)) eqn:He;
    [|left; reflexivity].
  right.
  exists (Review.mk reviewId user (Reviews.item_id req) stars (Reviews.comment req) now), b.
  assert (Hin : In b (Reviews.bookingCheck db user (Reviews.item_id req)))
    by (rewrite Hb; left; reflexivity).
  apply filter_In in Hin. destruct Hin as [Hin Hf].
  rewrite !andb_true_iff, !String.eqb_eq in Hf. destruct Hf as [[Hu Hi] Hs].
  repeat split; try assumption.
  - unfold Reviews.valid_rating in Hr. destruct (Reviews.rating req) as [z|]; [|discriminate].
    destruct ((1 <=? z) && (z <=? 5)) eqn:Hz; [|discriminate].
    inversion Hr; subst. apply andb_true_iff in Hz. simpl. lia.
  - unfold Reviews.valid_rating in Hr. destruct (Reviews.rating req) as [z|]; [|discriminate].
    destruct ((1 <=? z) && (z <=? 5)) eqn:Hz; [|discriminate].
    inversion Hr; subst. apply andb_true_iff in Hz. simpl. lia.
  - simpl. apply Nat.leb_le. exact Hc.
  - destruct (Booking.status b); try discriminate. reflexivity.
Qed.

Lemma existingReview_none (reviews : list Review.t) (user item : string) :
  Reviews.existingReview reviews user item = [] ->
  Forall (fun a => ~ (Review.user_id a = user /\ Review.item_id a = item)) reviews.
Proof.
  unfold Reviews.existingReview. intros H. apply Forall_forall. intros a Ha [Hu Hi].
  assert (Hin : In a (filter (fun r => String.eqb (Review.user_id r) user
                                       && String.eqb (Review.item_id r) item) reviews)).
  { apply filter_In. split; [exact Ha|]. apply andb_true_iff.
    split; apply String.eqb_eq; assumption. }
  rewrite H in Hin. destruct Hin.
Qed.

Lemma serve_reviews (r : request) (st : DB * list Review.t) :
  one_review_each (snd st) /\ Forall well_formed_review (snd st)
  /\ Forall (backed_by_booking (fst st)) (snd st) ->
  one_review_each (snd (serve isUUID r st))
  /\ Forall well_formed_review (snd (serve isUUID r st))
  /\ Forall (backed_by_booking (fst (serve isUUID r st))) (snd (serve isUUID r st)).
Proof.
  intros [H1 [H2 H3]].
  destruct (serve_extends isUUID r st) as [_ E].
  assert (H3' : Forall (backed_by_booking (fst (serve isUUID r st))) (snd st)).
  { revert H3. apply Forall_impl. intros a. apply backed_by_booking_extends. exact E. }
  destruct r as [o|user req paymentId|user req reviewId now]; simpl in *;
    try (split; [exact H1|split; [exact H2|exact H3']]).
  destruct (createReview_cases user req reviewId now (fst st) (snd st))
    as [Es|[r [b [Es [Hu [Hi [Hw [He [Hin [Hbu [Hbi Hbs]]]]]]]]]]]; rewrite Es.
  - split; [exact H1|split; [exact H2|exact H3]].
  - split; [|split].
    + apply ForallOrdPairs_snoc; [exact H1|].
      rewrite Hu, Hi. apply existingReview_none. exact He.
    + apply Forall_app. split; [exact H2|]. constructor; [exact Hw|constructor].
    + apply Forall_app. split; [exact H3|]. constructor; [|constructor].
      exists b. rewrite Hu, Hi, Hbs. repeat split; try assumption. discriminate.
Qed.

Lemma serve_all_reviews (rs : list request) :
  forall st,
    one_review_each (snd st) /\ Forall well_formed_review (snd st)
    /\ Forall (backed_by_booking (fst st)) (snd st) ->
    one_review_each (snd (serve_all isUUID rs st))
    /\ Forall well_formed_review (snd (serve_all isUUID rs st))
    /\ Forall (backed_by_booking (fst (serve_all isUUID rs st)))
              (snd (serve_all isUUID rs st)).
Proof.
  induction rs as [|r rs IH]; intros st H; simpl; [exact H|].
  apply IH. apply serve_reviews. exact H.
Qed.

End Reviews.

Section FlightReviews.

Variable isUUID : string -> bool.

Lemma arrive_well_formed (r : request) : carries_well_formed (arrive isUUID r).
Proof.
  destruct r as [[user req bookingId now|user bookingId status|env req]
                |user req paymentId|user req reviewId now]; unfold arrive.
  - destruct (isUUID _); [|exact I]. destruct (BookingReq.start_date req); [|exact I].
    destruct (BookingReq.end_date req); exact I.
  - destruct (parse_status status); exact I.
  - destruct (negb _); exact I.
  - destruct (_ || _); exact I.
  - destruct (isUUID _); [|exact I].
    destruct (Reviews.valid_rating (Reviews.rating req)) as [stars|] eqn:Hr; [|exact I].
    destruct (Reviews.valid_comment (Reviews.comment req)) eqn:Hc; [|exact I].
    unfold Reviews.valid_rating in Hr. destruct (Reviews.rating req) as [z|]; [|discriminate].
    destruct ((1 <=? z) && (z <=? 5)) eqn:Hz; [|discriminate].
    inversion Hr; subst. apply andb_true_iff in Hz.
    split; [simpl; lia|]. simpl. apply Nat.leb_le. exact Hc.
Qed.

Lemma resume_well_formed (t : task) (st : DB * list Review.t) :
  carries_well_formed t -> Forall well_formed_review (snd st) ->
  carries_well_formed (fst (resume t st))
  /\ Forall well_formed_review (snd (snd (resume t st))).
Proof.
  intros Ht Hst. destruct st as [db reviews].
  destruct t as [row|row|row|user bookingId status|bookingId status|req
                |user booking_id paymentId|booking_id paymentId amount
                |row|row|row|a]; cbn [resume fst snd] in *.
  - destruct (itemCheck db _) as [|it rest]; [split; [exact I|exact Hst]|].
    destruct (String.eqb _ _); split; try exact I; exact Hst.
  - destruct (overlapCheck db _ _ _); split; try exact I; exact Hst.
  - split; [exact I|exact Hst].
  - destruct (ownerCheck db bookingId user); split; try exact I; exact Hst.
  - split; [exact I|exact Hst].
  - split; [exact I|exact Hst].
  - destruct (Payments.bookingCheck db booking_id user) as [|[[b i] d] l];
      split; try exact I; exact Hst.
  - split; [exact I|exact Hst].
  - destruct (Reviews.bookingCheck db _ _); split; try exact I; try exact Ht; exact Hst.
  - destruct (Reviews.existingReview reviews _ _);
      split; try exact I; try exact Ht; exact Hst.
  - split; [exact I|]. apply Forall_app. split; [exact Hst|].
    constructor; [exact Ht|constructor].
  - split; [exact I|exact Hst].
Qed.

Lemma steps_well_formed (evs : list event) :
  forall w,
    Forall carries_well_formed (flight w) ->
    Forall well_formed_review (snd (tables w)) ->
    Forall well_formed_review (snd (tables (steps isUUID evs w))).
Proof.
  induction evs as [|e evs IH]; intros w Hf Hst; [exact Hst|].
  cbn [steps]. destruct e as [r|n].
  - apply IH; [|exact Hst]. cbn [step flight]. apply Forall_app. split; [exact Hf|].
    constructor; [apply arrive_well_formed|constructor].
  - unfold step. destruct (nth_error (flight w) n) as [t|] eqn:Hn;
      [|apply IH; assumption].
    destruct (resume_well_formed t (tables w)
                (Forall_nth_error _ _ _ _ Hf Hn) Hst) as [H1 H2].
    apply IH; cbn [flight tables]; [|exact H2].
    apply Forall_replace_nth; assumption.
Qed.

Lemma resume_one_review (t : task) (st : DB * list Review.t) :
  stale_review t st = false ->
  one_review_each (snd st) ->
  one_review_each (snd (snd (resume t st))).
Proof.
  intros Hs Hinv. destruct st as [db reviews].
  destruct t as [row|row|row|user bookingId status|bookingId status|req
                |user booking_id paymentId|booking_id paymentId amount
                |row|row|row|a]; cbn [resume fst snd] in *; try exact Hinv.
  - destruct (itemCheck db _) as [|it rest]; [exact Hinv|].
    destruct (String.eqb _ _); exact Hinv.
  - destruct (overlapCheck db _ _ _); exact Hinv.
  - destruct (ownerCheck db bookingId user); exact Hinv.
  - destruct (Payments.bookingCheck db booking_id user) as [|[[b i] d] l]; exact Hinv.
  - destruct (Reviews.bookingCheck db _ _); exact Hinv.
  - destruct (Reviews.existingReview reviews _ _); exact Hinv.
  - cbn [stale_review snd] in Hs.
    destruct (Reviews.existingReview reviews (Review.user_id row) (Review.item_id row))
      eqn:He; [|discriminate].
    apply ForallOrdPairs_snoc; [exact Hinv|].
    apply existingReview_none. exact He.
Qed.

Lemma steps_one_review (evs : list event) :
  forall w,
    never isUUID stale_review evs w = true ->
    one_review_each (snd (tables w)) ->
    one_review_each (snd (tables (steps isUUID evs w))).
Proof.
  induction evs as [|e evs IH]; intros w Hg Hinv; [exact Hinv|].
  cbn [never steps] in *. apply andb_true_iff in Hg. destruct Hg as [He Hevs].
  apply IH; [exact Hevs|]. destruct e as [r|n]; [exact Hinv|].
  unfold step. destruct (nth_error (flight w) n) as [t|]; [|exact Hinv].
  cbn [tables]. apply resume_one_review; [|exact Hinv].
  apply negb_true_iff. exact He.
Qed.

End FlightReviews.

(** X7. Starting without reviews, after any interleaving of the statements
    of any requests every stored review has between one and five stars and
    a comment of at least ten characters. No user has two reviews of the
    same item as long as no review is inserted at a moment when the query
    for a review of the same user and item would return a row, and so in
    particular when the requests are handled one at a time. *)
Theorem one_well_formed_review_each :
  forall (isUUID : string -> bool) (db : DB),
    (forall evs : list event,
        Forall well_formed_review
               (snd (tables (steps isUUID evs (mkWorld (db, []) [])))))
    /\ (forall evs : list event,
          never isUUID stale_review evs (mkWorld (db, []) []) = true ->
          one_review_each (snd (tables (steps isUUID evs (mkWorld (db, []) [])))))
    /\ (forall rs : list request,
          tables (steps isUUID (serially 0 rs) (mkWorld (db, []) []))
          = serve_all isUUID rs (db, [])
          /\ one_review_each (snd (serve_all isUUID rs (db, [])))).
Proof.
  intros isUUID db. split; [|split].
  - intros evs. apply steps_well_formed; constructor.
  - intros evs Hg. apply steps_one_review; [exact Hg|]. constructor.
  - intros rs. split.
    + exact (serially_is_serve_all isUUID rs (mkWorld (db, []) [])).
    + destruct (serve_all_reviews isUUID rs (db, [])) as [H1 _].
      * simpl. split; [constructor|split; constructor].
      * exact H1.
Qed.

Lemma one_well_formed_review_each_witness :
  one_review_each
    (snd (tables (steps Sample.isUUID Sample3.review_twice
                        (mkWorld (Sample3.rented, []) [])))).
Proof.
  refine (proj1 (proj2 (one_well_formed_review_each Sample.isUUID Sample3.rented))
            Sample3.review_twice _).
  vm_compute. reflexivity.
Defined.

(** The condition is needed: the same review sent twice, each request
    running its checks before the other inserts its row, is stored twice. *)
Example interleaved_reviews_are_doubled :
  ~ one_review_each
      (snd (tables (steps Sample.isUUID Sample3.review_race
                          (mkWorld (Sample3.rented, []) [])))).
Proof.
  intros R. unfold one_review_each in R.
  assert (E : map (fun r => (Review.user_id r, Review.item_id r))
                  (snd (tables (steps Sample.isUUID Sample3.review_race
                                      (mkWorld (Sample3.rented, []) []))))
              = [("renter-1"%string, Sample.drill); ("renter-1"%string, Sample.drill)])
    by (vm_compute; reflexivity).
  destruct (snd (tables (steps Sample.isUUID Sample3.review_race
                               (mkWorld (Sample3.rented, []) []))))
    as [|r1 [|r2 l]]; try discriminate.
  inversion E as [[E1 E2 E3 E4 E5]]. 
  inversion R as [|a l0 Ha _]; subst. inversion Ha as [|b l' Hab _]; subst.
  apply Hab. split; congruence.
Qed.

(** X8. Starting without reviews, whatever requests are served, every review
    is by a user who has, in the store as it is then, a booking of the
    reviewed item that is no longer pending: a review is only accepted for a
    completed booking, and no later request makes a booking pending again. *)
Theorem reviews_are_backed_by_a_booking :
  forall (isUUID : string -> bool) (db : DB) (rs : list request) (r : Review.t),
    In r (snd (serve_all isUUID rs (db, []))) ->
    exists b, In b (Bookings (fst (serve_all isUUID rs (db, []))))
              /\ Booking.user_id b = Review.user_id r
              /\ Booking.item_id b = Review.item_id r
              /\ Booking.status b <> pending.
Proof.
  intros isUUID db rs r Hin.
  destruct (serve_all_reviews isUUID rs (db, [])) as [_ [_ H3]].
  - simpl. split; [constructor|split; constructor].
  - rewrite Forall_forall in H3. exact (H3 r Hin).
Qed.

Lemma reviews_are_backed_by_a_booking_witness :
  exists b, In b (Bookings (fst (serve_all Sample.isUUID Sample2.season
                                   (initial Sample.items, []))))
            /\ Booking.user_id b = "renter-1"%string
            /\ Booking.item_id b = Sample.drill
            /\ Booking.status b <> pending.
Proof.
  refine (reviews_are_backed_by_a_booking Sample.isUUID (initial Sample.items)
            Sample2.season
            (Review.mk "rev-1" "renter-1" Sample.drill 5
                       "Worked well, battery lasted two days." 9) _).
  vm_compute. left. reflexivity.
Defined.

(* ------------------------------------------------------------------------- *)
(** ** The authorization header *)

Local Open Scope string_scope.

Lemma split_free (sep : ascii) (w : string) :
  Auth.free_of sep w = true -> Auth.split sep w = [w].
Proof.
  induction w as [|c w IH]; simpl; intros H; [reflexivity|].
  apply andb_true_iff in H. destruct H as [Hc Hw].
  apply negb_true_iff in Hc. rewrite Hc, (IH Hw). reflexivity.
Qed.

Lemma split_word (sep : ascii) (w rest : string) :
  Auth.free_of sep w = true ->
  Auth.split sep (w ++ String sep rest) = w :: Auth.split sep rest.
Proof.
  induction w as [|c w IH]; simpl; intros H.
  - rewrite Ascii.eqb_refl. reflexivity.
  - apply andb_true_iff in H. destruct H as [Hc Hw].
    apply negb_true_iff in Hc. rewrite Hc, (IH Hw). reflexivity.
Qed.

Lemma append_not_empty (w : string) (c : ascii) (rest : string) :
  String.eqb (w ++ String c rest) EmptyString = false.
Proof. destruct w; reflexivity. Qed.

Lemma token_of_second_word (w t : string) :
  Auth.free_of " " w = true -> Auth.free_of " " t = true -> t <> EmptyString ->
  Auth.token_of (Some (w ++ String " " t)) = Some t
  /\ forall rest, Auth.token_of (Some (w ++ String " " (t ++ String " " rest))) = Some t.
Proof.
  intros Hw Ht Hne. apply String.eqb_neq in Hne. unfold Auth.token_of. split.
  - rewrite append_not_empty, (split_word _ _ _ Hw), (split_free _ _ Ht). simpl.
    rewrite Hne. reflexivity.
  - intros rest.
    rewrite append_not_empty, (split_word _ _ _ Hw), (split_word _ _ _ Ht). simpl.
    rewrite Hne. reflexivity.
Qed.

(** X9. The middleware takes the second word of the authorization header as
    the token and looks at nothing else: whatever the first word is
    ("Bearer" or any other scheme), and whatever follows the token after a
    further space, the request is let through with the payload of the token
    when the token verifies, and refused with "invalid token" when it does
    not. *)
Theorem token_is_second_word_of_header :
  forall (user : Type) (jwt_verify : string -> string -> option user)
         (env : option string) (w t rest : string),
    Auth.free_of " " w = true -> Auth.free_of " " t = true -> t <> EmptyString ->
    let outcome := match jwt_verify t (Auth.jwt_secret env) with
                   | Some u => Auth.Next u
                   | None => Auth.InvalidToken
                   end in
    Auth.authenticateToken user jwt_verify env (Some (w ++ String " " t)) = outcome
    /\ Auth.authenticateToken user jwt_verify env
         (Some (w ++ String " " (t ++ String " " rest))) = outcome.
Proof.
  intros user jwt_verify env w t rest Hw Ht Hne outcome.
  destruct (token_of_second_word w t Hw Ht Hne) as [H1 H2].
  unfold Auth.authenticateToken. rewrite H1, (H2 rest). split; reflexivity.
Qed.

Lemma token_is_second_word_of_header_witness :
  Auth.authenticateToken string Sample2.jwt_verify None
    (Some ("Basic" ++ String " " "renter-1.your-secret-key"))%string
  = Auth.Next "renter-1"%string
  /\ Auth.authenticateToken string Sample2.jwt_verify None
       (Some ("Basic" ++ String " " ("renter-1.your-secret-key" ++ String " " "x")))%string
     = Auth.Next "renter-1"%string.
Proof.
  refine (token_is_second_word_of_header string Sample2.jwt_verify None
            "Basic" "renter-1.your-secret-key" "x" _ _ _);
    vm_compute; first [reflexivity | discriminate].
Defined.

(** X10. A request without authorization header, with a header of a single
    word, or with a header in which two spaces follow the first word is
    refused with "access token required", and the token verifier is not
    consulted. *)
Theorem missing_token_is_refused :
  forall (user : Type) (jwt_verify : string -> string -> option user)
         (env : option string),
    Auth.authenticateToken user jwt_verify env None = Auth.AccessTokenRequired
    /\ (forall h, Auth.free_of " " h = true ->
          Auth.authenticateToken user jwt_verify env (Some h) = Auth.AccessTokenRequired)
    /\ (forall w rest, Auth.free_of " " w = true ->
          Auth.authenticateToken user jwt_verify env
            (Some (w ++ String " " (String " " rest))) = Auth.AccessTokenRequired).
Proof.
  intros user jwt_verify env. split; [reflexivity|]. split.
  - intros h Hh. unfold Auth.authenticateToken, Auth.token_of.
    destruct (String.eqb h EmptyString); [reflexivity|].
    rewrite (split_free _ _ Hh). reflexivity.
  - intros w rest Hw. unfold Auth.authenticateToken, Auth.token_of.
    rewrite append_not_empty, (split_word _ _ _ Hw). reflexivity.
Qed.

Lemma missing_token_is_refused_witness :
  Auth.authenticateToken string Sample2.jwt_verify None
    (Some "renter-1.your-secret-key"%string)
  = Auth.AccessTokenRequired.
Proof.
  refine (proj1 (proj2 (missing_token_is_refused string Sample2.jwt_verify None))
            "renter-1.your-secret-key"%string _).
  vm_compute. reflexivity.
Defined.

Local Close Scope string_scope.

(* ------------------------------------------------------------------------- *)
(** ** The lists of bookings *)

Lemma in_insert_desc (r x : Listing.row) (rs : list Listing.row) :
  In x (Listing.insert_desc r rs) <-> x = r \/ In x rs.
Proof.
  induction rs as [|r' rs IH]; simpl.
  - intuition.
  - destruct (_ <? _); simpl; [intuition|]. rewrite IH. intuition.
Qed.

Lemma in_order_by (x : Listing.row) (rs : list Listing.row) :
  In x (Listing.order_by_created_at_desc rs) <-> In x rs.
Proof.
  induction rs as [|r rs IH]; simpl; [tauto|].
  rewrite in_insert_desc, IH. intuition.
Qed.

Lemma in_join (on_renter : bool) (users : list User.t) (db : DB) (r : Listing.row) :
  In r (Listing.join on_renter users db) <->
  In (Listing.booking r) (Bookings db)
  /\ In (Listing.item r) (Items db)
  /\ In (Listing.person r) users
  /\ Booking.item_id (Listing.booking r) = Item.id (Listing.item r)
  /\ (if on_renter then Booking.user_id (Listing.booking r)
      else Item.owner_id (Listing.item r)) = User.id (Listing.person r).
Proof.
  unfold Listing.join. rewrite in_flat_map. split.
  - intros [b [Hb H]]. apply in_flat_map in H. destruct H as [i [Hi H]].
    destruct (String.eqb (Booking.item_id b) (Item.id i)) eqn:E; [|destruct H].
    apply in_map_iff in H. destruct H as [u [Hr Hu]]. apply filter_In in Hu.
    destruct Hu as [Hu Hf]. subst r. simpl.
    apply String.eqb_eq in E, Hf. tauto.
  - intros [Hb [Hi [Hu [E Hf]]]]. exists (Listing.booking r). split; [exact Hb|].
    apply in_flat_map. exists (Listing.item r). split; [exact Hi|].
    apply String.eqb_eq in E. rewrite E.
    apply in_map_iff. exists (Listing.person r). split; [destruct r; reflexivity|].
    apply filter_In. split; [exact Hu|]. apply String.eqb_eq. exact Hf.
Qed.

Lemma in_getBookings (type : option string) (user : string) (users : list User.t)
    (db : DB) (r : Listing.row) :
  In r (Listing.getBookings type user users db) <->
  In (Listing.booking r) (Bookings db)
  /\ In (Listing.item r) (Items db)
  /\ In (Listing.person r) users
  /\ Booking.item_id (Listing.booking r) = Item.id (Listing.item r)
  /\ (if String.eqb (match type with Some t => t | None => "renter"%string end) "owner"
      then Item.owner_id (Listing.item r) = user
           /\ Booking.user_id (Listing.booking r) = User.id (Listing.person r)
      else Booking.user_id (Listing.booking r) = user
           /\ Item.owner_id (Listing.item r) = User.id (Listing.person r)).
Proof.
  unfold Listing.getBookings.
  destruct (String.eqb _ "owner");
    rewrite in_order_by, filter_In, in_join, String.eqb_eq; tauto.
Qed.

(** X11. The list of bookings shows a caller nothing but bookings of their
    own: every row returned is a booking of the store with its item, and in
    the owner's view the caller owns the item, in the renter's view (also
    the view for any other or no [type]) the caller is the renter. *)
Theorem getBookings_shows_only_own :
  forall (type : option string) (user : string) (users : list User.t) (db : DB)
         (r : Listing.row),
    In r (Listing.getBookings type user users db) ->
    In (Listing.booking r) (Bookings db)
    /\ In (Listing.item r) (Items db)
    /\ Booking.item_id (Listing.booking r) = Item.id (Listing.item r)
    /\ (type = Some "owner"%string -> Item.owner_id (Listing.item r) = user)
    /\ (type <> Some "owner"%string -> Booking.user_id (Listing.booking r) = user).
Proof.
  intros type user users db r H. apply in_getBookings in H.
  destruct H as [Hb [Hi [_ [E H]]]]. repeat split; try assumption.
  - intros ->. simpl in H. tauto.
  - intros Hn.
    destruct (String.eqb (match type with Some t => t | None => "renter"%string end)
                         "owner") eqn:Ht; [|tauto].
    apply String.eqb_eq in Ht. destruct type as [t|]; [|discriminate].
    subst t. contradiction.
Qed.

Lemma getBookings_shows_only_own_witness :
  In (Booking.mk Sample.b2 "renter-2" Sample.drill Sample.may_6 Sample.may_10
                 pending unpaid 10) (Bookings (fst (serve_all Sample.isUUID Sample2.season Sample2.start)))
  /\ In (Item.mk Sample.drill "owner-1" (100 # 1) "day")
        (Items (fst (serve_all Sample.isUUID Sample2.season Sample2.start)))
  /\ Sample.drill = Sample.drill
  /\ (Some "owner"%string = Some "owner"%string -> "owner-1"%string = "owner-1"%string)
  /\ (Some "owner"%string <> Some "owner"%string -> "renter-2"%string = "owner-1"%string).
Proof.
  refine (getBookings_shows_only_own (Some "owner"%string) "owner-1" Sample2.users
            (fst (serve_all Sample.isUUID Sample2.season Sample2.start))
            (Listing.mk
               (Booking.mk Sample.b2 "renter-2" Sample.drill Sample.may_6 Sample.may_10
                           pending unpaid 10)
               (Item.mk Sample.drill "owner-1" (100 # 1) "day")
               (User.mk "renter-2" "Chitra" "9810000003")) _).
  vm_compute. left. reflexivity.
Defined.

Lemma insert_desc_sorted (r : Listing.row) (rs : list Listing.row) :
  StronglySorted (fun a b => Booking.created_at (Listing.booking b)
                             <= Booking.created_at (Listing.booking a)) rs ->
  StronglySorted (fun a b => Booking.created_at (Listing.booking b)
                             <= Booking.created_at (Listing.booking a))
                 (Listing.insert_desc r rs).
Proof.
  induction rs as [|r' rs IH]; intros H; simpl.
  - constructor; constructor.
  - inversion H as [|? ? Hs Hf]; subst.
    destruct (Z.ltb_spec (Booking.created_at (Listing.booking r'))
                         (Booking.created_at (Listing.booking r))) as [Hlt|Hge].
    + constructor; [exact H|]. constructor; [lia|].
      revert Hf. apply Forall_impl. intros a Ha. lia.
    + constructor; [apply IH; exact Hs|].
      apply Forall_forall. intros x Hx. apply in_insert_desc in Hx.
      destruct Hx as [->|Hx]; [lia|]. rewrite Forall_forall in Hf. apply Hf. exact Hx.
Qed.

(** X12. The renter's list is complete and ordered: it holds every booking
    of the caller whose item exists and whose item's owner has a user row,
    and it runs from the latest creation time to the earliest. *)
Theorem renter_list_is_complete_and_ordered :
  forall (user : string) (users : list User.t) (db : DB),
    (forall b i u,
        In b (Bookings db) -> Booking.user_id b = user ->
        In i (Items db) -> Item.id i = Booking.item_id b ->
        In u users -> User.id u = Item.owner_id i ->
        In (Listing.mk b i u) (Listing.getBookings None user users db))
    /\ StronglySorted (fun a b => Booking.created_at (Listing.booking b)
                                  <= Booking.created_at (Listing.booking a))
                      (Listing.getBookings None user users db).
Proof.
  intros user users db. split.
  - intros b i u Hb Hbu Hi Hii Hu Hui. apply in_getBookings. simpl.
    repeat split; try assumption; congruence.
  - unfold Listing.getBookings. simpl.
    induction (filter _ _) as [|r rs IH]; simpl; [constructor|].
    apply insert_desc_sorted. exact IH.
Qed.

Lemma renter_list_is_complete_and_ordered_witness :
  In (Listing.mk
        (Booking.mk Sample.b2 "renter-2" Sample.drill Sample.may_6 Sample.may_10
                    pending unpaid 10)
        (Item.mk Sample.drill "owner-1" (100 # 1) "day")
        (User.mk "owner-1" "Asha" "9810000001"))
     (Listing.getBookings None "renter-2" Sample2.users
        (fst (serve_all Sample.isUUID Sample2.season Sample2.start))).
Proof.
  refine (proj1 (renter_list_is_complete_and_ordered "renter-2" Sample2.users
                   (fst (serve_all Sample.isUUID Sample2.season Sample2.start)))
            (Booking.mk Sample.b2 "renter-2" Sample.drill Sample.may_6 Sample.may_10
                        pending unpaid 10)
            (Item.mk Sample.drill "owner-1" (100 # 1) "day")
            (User.mk "owner-1" "Asha" "9810000001") _ _ _ _ _ _);
    vm_compute; tauto.
Defined.

(* ------------------------------------------------------------------------- *)
(** ** Payments without the gateway *)

Lemma in_bookingCheck (db : DB) (booking_id user : string)
    (b : Booking.t) (i : Item.t) (d : Z) :
  In (b, i, d) (Payments.bookingCheck db booking_id user) <->
  In b (Bookings db) /\ Booking.id b = booking_id /\ Booking.user_id b = user
  /\ In i (Items db) /\ Booking.item_id b = Item.id i
  /\ d = Booking.end_date b - Booking.start_date b.
Proof.
  unfold Payments.bookingCheck. rewrite in_flat_map. split.
  - intros [b' [Hb H]].
    destruct (String.eqb (Booking.id b') booking_id && String.eqb (Booking.user_id b') user)
      eqn:E; [|destruct H].
    apply andb_true_iff in E. destruct E as [E1 E2].
    apply String.eqb_eq in E1, E2.
    apply in_map_iff in H. destruct H as [i' [Heq Hi]]. apply filter_In in Hi.
    destruct Hi as [Hi Hf]. apply String.eqb_eq in Hf.
    injection Heq as -> -> <-. tauto.
  - intros [Hb [E1 [E2 [Hi [Hf ->]]]]]. exists b. split; [exact Hb|].
    apply String.eqb_eq in E1, E2. rewrite E1, E2. simpl.
    apply in_map_iff. exists i. split; [reflexivity|].
    apply filter_In. split; [exact Hi|]. apply String.eqb_eq. exact Hf.
Qed.

Lemma processPayment_cases (user : string) (req : Payments.body) (paymentId : string)
    (db : DB) :
  (exists x y z,
      Payments.processPayment user req paymentId db
      = (Payments.MissingRequiredFields x y z, db))
  \/ Payments.processPayment user req paymentId db = (Payments.BookingNotFound, db)
  \/ exists id b i rest,
       Payments.booking_id req = Some id
       /\ Payments.bookingCheck db id user
          = (b, i, Booking.end_date b - Booking.start_date b) :: rest
       /\ Payments.processPayment user req paymentId db
          = (Payments.PaymentProcessed paymentId
               (Payments.totalAmount (Booking.end_date b - Booking.start_date b)
                                     (Item.price i)) id,
             set_Bookings db
               (update_where_id id Payments.set_payment_completed (Bookings db))).
Proof.
  unfold Payments.processPayment.
  destruct (Payments.missing (Payments.booking_id req)) eqn:M1;
    [left; eexists; eexists; eexists; reflexivity|].
  destruct (Payments.missing (Payments.payment_method req) ||
            Payments.missing_details (Payments.payment_details req)) eqn:M2;
    simpl; rewrite M2; [left; eexists; eexists; eexists; reflexivity|].
  right. destruct (Payments.booking_id req) as [id|] eqn:Hid; [|discriminate].
  destruct (Payments.bookingCheck db id user) as [|[[b i] d] rest] eqn:Hc;
    [left; reflexivity|].
  right. exists id, b, i, rest.
  assert (Hin : In (b, i, d) (Payments.bookingCheck db id user))
    by (rewrite Hc; left; reflexivity).
  apply in_bookingCheck in Hin. destruct Hin as [_ [_ [_ [_ [_ ->]]]]].
  split; [reflexivity|]. split; [exact Hc|reflexivity].
Qed.

(** X13. Only the renter of a booking can pay for it on the direct payment
    route: when no booking of the given identifier belongs to the caller,
    the request is answered with "booking not found" (or with "missing
    required fields") and the store is left as it was. *)
Theorem only_the_renter_pays :
  forall (user : string) (id : string) (method : option string)
         (details : option (list (string * string))) (paymentId : string) (db : DB),
    (forall b, In b (Bookings db) -> Booking.id b = id -> Booking.user_id b <> user) ->
    snd (Payments.processPayment user (Payments.mk (Some id) method details) paymentId db)
    = db
    /\ (fst (Payments.processPayment user (Payments.mk (Some id) method details)
               paymentId db) = Payments.BookingNotFound
        \/ exists x y z,
             fst (Payments.processPayment user (Payments.mk (Some id) method details)
                    paymentId db) = Payments.MissingRequiredFields x y z).
Proof.
  intros user id method details paymentId db Hnot.
  destruct (processPayment_cases user (Payments.mk (Some id) method details) paymentId db)
    as [[x [y [z H]]]|[H|[id' [b [i [rest [Hid [Hc _]]]]]]]].
  - rewrite H. split; [reflexivity|]. right. exists x, y, z. reflexivity.
  - rewrite H. split; [reflexivity|]. left. reflexivity.
  - exfalso. simpl in Hid. injection Hid as <-.
    assert (Hin : In (b, i, Booking.end_date b - Booking.start_date b)
                     (Payments.bookingCheck db id user))
      by (rewrite Hc; left; reflexivity).
    apply in_bookingCheck in Hin. destruct Hin as [Hb [E1 [E2 _]]].
    exact (Hnot b Hb E1 E2).
Qed.

Lemma only_the_renter_pays_witness :
  snd (Payments.processPayment "renter-2" (Sample2.pay Sample.b1) "pay-2"
         (fst Sample2.booked))
  = fst Sample2.booked
  /\ (fst (Payments.processPayment "renter-2" (Sample2.pay Sample.b1) "pay-2"
             (fst Sample2.booked)) = Payments.BookingNotFound
      \/ exists x y z,
           fst (Payments.processPayment "renter-2" (Sample2.pay Sample.b1) "pay-2"
                  (fst Sample2.booked)) = Payments.MissingRequiredFields x y z).
Proof.
  refine (only_the_renter_pays "renter-2" Sample.b1 (Some "upi"%string)
            (Some [("vpa", "bala@upi")]%string) "pay-2" (fst Sample2.booked) _).
  vm_compute. intros b [<-|[]] _. discriminate.
Defined.

(** X14. The direct payment route asks nothing of the booking but that it
    is the caller's and that its item exists: a complete request of the
    renter is accepted whatever the status of the booking (also rejected or
    cancelled) and whether or not it was paid before. *)
Theorem payment_is_taken_in_any_status :
  forall (user id method : string) (details : list (string * string))
         (paymentId : string) (db : DB) (b : Booking.t) (i : Item.t),
    id <> EmptyString -> method <> EmptyString ->
    In b (Bookings db) -> Booking.id b = id -> Booking.user_id b = user ->
    In i (Items db) -> Item.id i = Booking.item_id b ->
    exists amount,
      fst (Payments.processPayment user
             (Payments.mk (Some id) (Some method) (Some details)) paymentId db)
      = Payments.PaymentProcessed paymentId amount id.
Proof.
  intros user id method details paymentId db b i Hid Hm Hb E1 E2 Hi E3.
  destruct (processPayment_cases user (Payments.mk (Some id) (Some method) (Some details))
              paymentId db)
    as [[x [y [z H]]]|[H|[id' [b' [i' [rest [Hid' [_ H]]]]]]]].
  - exfalso. unfold Payments.processPayment in H. simpl in H.
    apply String.eqb_neq in Hid, Hm. rewrite Hid, Hm in H. simpl in H.
    destruct (Payments.bookingCheck db id user) as [|[[b' i'] d] l]; discriminate.
  - exfalso. unfold Payments.processPayment in H. simpl in H.
    apply String.eqb_neq in Hid, Hm. rewrite Hid, Hm in H. simpl in H.
    assert (Hin : In (b, i, Booking.end_date b - Booking.start_date b)
                     (Payments.bookingCheck db id user))
      by (apply in_bookingCheck; repeat split; auto).
    destruct (Payments.bookingCheck db id user) as [|[[b' i'] d] l];
      [destruct Hin|discriminate].
  - simpl in Hid'. injection Hid' as <-. rewrite H. eexists. reflexivity.
Qed.

Lemma payment_is_taken_in_any_status_witness :
  exists amount,
    fst (Payments.processPayment "renter-1"
           (Payments.mk (Some Sample.b1) (Some "upi"%string)
                        (Some [("vpa", "bala@upi")]%string))
           "pay-2" (fst Sample2.paid_for))
    = Payments.PaymentProcessed "pay-2" amount Sample.b1.
Proof.
  refine (payment_is_taken_in_any_status "renter-1" Sample.b1 "upi"
            [("vpa", "bala@upi")]%string "pay-2" (fst Sample2.paid_for)
            (Booking.mk Sample.b1 "renter-1" Sample.drill Sample.may_1 Sample.may_5
                        confirmed payment_completed 1)
            (Item.mk Sample.drill "owner-1" (100 # 1) "day") _ _ _ _ _ _ _);
    vm_compute; first [discriminate | reflexivity | tauto].
Defined.

(** X15. An accepted direct payment charges the days from start to end of
    the caller's booking at the price of its item, and changes nothing but
    the payment status: every row of the booking becomes "completed" in
    payment, all rows keep their booking status (the booking is not
    confirmed by paying), the other rows and the items stay as they were,
    and a store without double booking remains one. *)
Theorem accepted_payment_marks_payment_only :
  forall (user : string) (req : Payments.body) (paymentId : string) (db db' : DB)
         (id : string) (amount : Binary64.float) (booking_id : string),
    Payments.processPayment user req paymentId db
    = (Payments.PaymentProcessed id amount booking_id, db') ->
    Payments.booking_id req = Some booking_id
    /\ id = paymentId
    /\ (exists b i,
           In b (Bookings db) /\ Booking.id b = booking_id /\ Booking.user_id b = user
           /\ In i (Items db) /\ Item.id i = Booking.item_id b
           /\ amount = Payments.totalAmount (Booking.end_date b - Booking.start_date b)
                                            (Item.price i))
    /\ Items db' = Items db
    /\ map Booking.status (Bookings db') = map Booking.status (Bookings db)
    /\ Forall (fun b' => Booking.id b' = booking_id ->
                         Booking.payment_status b' = payment_completed) (Bookings db')
    /\ (forall b, In b (Bookings db) -> Booking.id b <> booking_id -> In b (Bookings db'))
    /\ (no_double_booking db -> no_double_booking db').
Proof.
  intros user req paymentId db db' id amount booking_id H.
  destruct (processPayment_cases user req paymentId db)
    as [[x [y [z H']]]|[H'|[id' [b [i [rest [Hid [Hc H']]]]]]]];
    rewrite H' in H; try discriminate.
  remember (Payments.totalAmount _ _) as a eqn:Ha.
  injection H as <- <- <- <-.
  assert (Hin : In (b, i, Booking.end_date b - Booking.start_date b)
                   (Payments.bookingCheck db id' user))
    by (rewrite Hc; left; reflexivity).
  apply in_bookingCheck in Hin. destruct Hin as [Hb [E1 [E2 [Hi [E3 _]]]]].
  split; [exact Hid|]. split; [reflexivity|].
  split; [exists b, i; repeat split; auto|].
  split; [reflexivity|]. simpl. split; [|split; [|split]].
  - unfold update_where_id. rewrite map_map. apply map_ext. intros x.
    destruct (String.eqb (Booking.id x) id'); reflexivity.
  - apply update_where_id_marks. reflexivity.
  - intros x Hx Hne. apply update_where_id_others; assumption.
  - unfold no_double_booking. simpl. apply update_where_id_compatible.
    + intros x. repeat split.
    + intros x _ _ Hact. exact Hact.
Qed.

Lemma accepted_payment_marks_payment_only_witness :
  Payments.booking_id (Sample2.pay Sample.b1) = Some Sample.b1
  /\ "pay-1"%string = "pay-1"%string
  /\ (exists b i,
         In b (Bookings (fst Sample2.booked)) /\ Booking.id b = Sample.b1
         /\ Booking.user_id b = "renter-1"%string
         /\ In i (Items (fst Sample2.booked)) /\ Item.id i = Booking.item_id b
         /\ Binary64.Float (400 * 2 ^ 44) (- 44)
            = Payments.totalAmount (Booking.end_date b - Booking.start_date b)
                                   (Item.price i))
  /\ Items (snd (Payments.processPayment "renter-1" (Sample2.pay Sample.b1) "pay-1"
                   (fst Sample2.booked))) = Items (fst Sample2.booked)
  /\ map Booking.status
         (Bookings (snd (Payments.processPayment "renter-1" (Sample2.pay Sample.b1)
                           "pay-1" (fst Sample2.booked))))
     = map Booking.status (Bookings (fst Sample2.booked))
  /\ Forall (fun b' => Booking.id b' = Sample.b1 ->
                       Booking.payment_status b' = payment_completed)
            (Bookings (snd (Payments.processPayment "renter-1" (Sample2.pay Sample.b1)
                              "pay-1" (fst Sample2.booked))))
  /\ (forall b, In b (Bookings (fst Sample2.booked)) -> Booking.id b <> Sample.b1 ->
        In b (Bookings (snd (Payments.processPayment "renter-1" (Sample2.pay Sample.b1)
                               "pay-1" (fst Sample2.booked)))))
  /\ (no_double_booking (fst Sample2.booked) ->
      no_double_booking (snd (Payments.processPayment "renter-1" (Sample2.pay Sample.b1)
                                "pay-1" (fst Sample2.booked)))).
Proof.
  refine (accepted_payment_marks_payment_only "renter-1" (Sample2.pay Sample.b1) "pay-1"
            (fst Sample2.booked)
            (snd (Payments.processPayment "renter-1" (Sample2.pay Sample.b1) "pay-1"
                    (fst Sample2.booked)))
            "pay-1" (Binary64.Float (400 * 2 ^ 44) (- 44)) Sample.b1 _).
  vm_compute. reflexivity.
Defined.

(* ------------------------------------------------------------------------- *)
(** ** The two ways of pricing a booking *)

Lemma fsub_self (x : Binary64.float) : Binary64.fsub x x = Binary64.Float 0 0.
Proof.
  unfold Binary64.fsub, Binary64.fadd, Binary64.fopp. cbn [Binary64.mant Binary64.expo].
  rewrite Z.min_id, Z.sub_diag, Z.pow_0_r.
  replace (Binary64.mant x * 1 + - Binary64.mant x * 1) with 0 by ring.
  reflexivity.
Qed.

Lemma daysDiff_same (d : date) : daysDiff d d = 0.
Proof. unfold daysDiff. rewrite fsub_self. reflexivity. Qed.

Lemma rentPayment_no_days (PRICE : Q) : rentPayment PRICE 0 = 0.
Proof.
  unfold rentPayment, Binary64.fmul.
  change (Binary64.of_Z 0) with (Binary64.Float 0 0). cbn [Binary64.mant Binary64.expo].
  rewrite Z.mul_0_r. reflexivity.
Qed.

(** X16. For a booking that starts and ends on the same day the order route
    charges no rent and no fee, only the deposit of 200, whatever the price
    of the item. *)
Theorem same_day_order_is_deposit_only :
  forall (PRICE : Q) (d : date),
    computeBreakdown PRICE d d = mkBreakdown 0 0 200 200.
Proof.
  intros PRICE d. unfold computeBreakdown.
  rewrite daysDiff_same, rentPayment_no_days. reflexivity.
Qed.

(** X17. The direct payment route charges the whole price times the days
    from start to end, exactly, as long as the product stays below 2^53;
    a booking of no days is charged as one day, so a same-day booking costs
    one day's price on this route (and the deposit only on the order
    route). *)
Theorem direct_payment_amount :
  forall (P DAYS : Z),
    Z.abs P < 2 ^ 53 -> Z.abs DAYS < 2 ^ 53 -> Z.abs (DAYS * P) < 2 ^ 53 ->
    Payments.totalAmount DAYS (P # 1)
    = Binary64.normal ((if DAYS =? 0 then 1 else DAYS) * P)
    /\ Payments.totalAmount 0 (P # 1) = Binary64.normal P.
Proof.
  intros P DAYS HP HD HDP.
  assert (H1 : forall n, Z.abs n < 2 ^ 53 -> Z.abs (n * P) < 2 ^ 53 ->
                         Binary64.fmul (Binary64.of_Z n) (Binary64.of_Q (P # 1))
                         = Binary64.normal (n * P)).
  { intros n Hn HnP. change (Binary64.of_Q (P # 1)) with (Binary64.of_Z P).
    rewrite !of_Z_normal by assumption. apply fmul_normal; assumption. }
  unfold Payments.totalAmount, Payments.days_or_1. split.
  - destruct (Z.eqb_spec DAYS 0) as [->|Hne].
    + apply H1; [reflexivity|]. rewrite Z.mul_1_l. exact HP.
    + apply H1; assumption.
  - simpl (0 =? 0). cbv iota. rewrite <- (Z.mul_1_l P) at 2.
    apply H1; [reflexivity|]. rewrite Z.mul_1_l. exact HP.
Qed.

Lemma direct_payment_amount_witness :
  Payments.totalAmount 4 (100 # 1)
  = Binary64.normal ((if 4 =? 0 then 1 else 4) * 100)
  /\ Payments.totalAmount 0 (100 # 1) = Binary64.normal 100.
Proof.
  refine (direct_payment_amount 100 4 _ _ _); vm_compute; reflexivity.
Defined.
(* ------------------------------------------------------------------------- *)
(** ** The platform fee *)

Section Fee.

Import Binary64.

(** A whole number of 56 bits or more is rounded to the nearest multiple of
    the unit in its last of 53 places. *)
Lemma round_ne_large (a e : Z) :
  2 ^ 55 <= a ->
  exists m,
    round_ne a 1 e = Float m (e + (Z.log2 a - 52))
    /\ 2 * Z.abs (m * 2 ^ (Z.log2 a - 52) - a) <= 2 ^ (Z.log2 a - 52).
Proof.
  intros Ha.
  assert (Hpos : 0 < a) by (assert (0 < 2 ^ 55) by reflexivity; lia).
  assert (HL : 55 <= Z.log2 a).
  { change 55 with (Z.log2 (2 ^ 55)). apply Z.log2_le_mono. exact Ha. }
  set (L := Z.log2 a) in *.
  destruct (Z.log2_spec a Hpos) as [Hlo Hhi]. fold L in Hlo, Hhi.
  set (D := 2 ^ (L - 55)).
  assert (HD : 0 < D) by (apply pow2_pos; lia).
  assert (HLD : 2 ^ L = 2 ^ 55 * D).
  { unfold D. rewrite <- pow2_split by lia. f_equal. lia. }
  assert (HLD1 : 2 ^ Z.succ L = 2 ^ 56 * D).
  { unfold D. rewrite <- pow2_split by lia. f_equal. lia. }
  assert (HK : 2 ^ (L - 52) = 8 * D).
  { unfold D. change 8 with (2 ^ 3). rewrite <- pow2_split by lia. f_equal. lia. }
  assert (Hs : scaled a 1 = (a / D, negb (a mod D =? 0), 55 - L)).
  { unfold scaled, prec. change (Z.log2 1) with 0. fold L.
    replace (53 + 2 + 0 - L) with (55 - L) by lia.
    destruct (Z.leb_spec 0 (55 - L)) as [H|H].
    - assert (L = 55) by lia. unfold D. replace (L - 55) with 0 by lia.
      replace (55 - L) with 0 by lia. rewrite Z.pow_0_r, Z.mul_1_r. reflexivity.
    - unfold D. replace (- (55 - L)) with (L - 55) by lia. rewrite Z.mul_1_l.
      reflexivity. }
  pose proof (Z.div_mod a D ltac:(lia)) as Hdm.
  pose proof (Z.mod_pos_bound a D HD) as Hmod.
  set (t := a / D) in *. set (rho := a mod D) in *.
  assert (Ht : 2 ^ 55 <= t < 2 ^ 56).
  { unfold t. split.
    - apply Z.div_le_lower_bound; lia.
    - apply Z.div_lt_upper_bound; lia. }
  assert (Hlt : Z.log2 t = 55) by (apply Z.log2_unique; [lia|exact Ht]).
  pose proof (Z.div_mod t 8 ltac:(lia)) as Htm.
  pose proof (Z.mod_pos_bound t 8 ltac:(lia)) as Hlow.
  unfold round_ne. destruct (Z.eqb_spec a 0) as [H0|_]; [lia|].
  rewrite (Z.abs_eq a) by lia. rewrite Hs. unfold nearest_even. rewrite Hlt.
  unfold prec. change (55 + 1 - 53) with 3. change (2 ^ 3) with 8.
  change (2 ^ (3 - 1)) with 4. rewrite (Z.sgn_pos a) by lia.
  set (m := t / 8) in *. set (low := t mod 8) in *.
  set (up := (4 <? low) || ((low =? 4) && (negb (rho =? 0) || Z.odd m))).
  exists (1 * (if up then m + 1 else m)). split; [f_equal; lia|].
  rewrite HK, Z.mul_1_l.
  assert (Hup : up = true -> 4 <= low).
  { unfold up. intros H. apply orb_true_iff in H. destruct H as [H|H].
    - apply Z.ltb_lt in H. lia.
    - apply andb_true_iff in H. destruct H as [H _]. apply Z.eqb_eq in H. lia. }
  assert (Hdn : up = false -> low <= 3 \/ (low = 4 /\ rho = 0)).
  { unfold up. intros H. apply orb_false_iff in H. destruct H as [H1 H2].
    apply Z.ltb_ge in H1. apply andb_false_iff in H2. destruct H2 as [H2|H2].
    - apply Z.eqb_neq in H2. lia.
    - apply orb_false_iff in H2. destruct H2 as [H2 _].
      apply negb_false_iff in H2. apply Z.eqb_eq in H2.
      destruct (Z.eq_dec low 4); [right; split; assumption|left; lia]. }
  assert (Ha' : a = 8 * D * m + D * low + rho).
  { rewrite Hdm at 1. rewrite Htm at 1. ring. }
  destruct up.
  - specialize (Hup eq_refl). assert (4 * D <= D * low) by nia.
    assert (D * low < 8 * D) by nia. lia.
  - specialize (Hdn eq_refl). destruct Hdn as [Hdn|[Hdn Hr]].
    + assert (D * low <= 3 * D) by nia. assert (0 <= D * low) by nia. lia.
    + rewrite Hdn in Ha'. lia.
Qed.

(** Up to [2 ^ 51] the fee is 15 percent of the rent, rounded up to a whole
    number: the double nearest to 0.15 is a little below it, and the rounded
    product still lies strictly between the whole numbers around it. *)
Lemma platformFee_rounds_up (r : Z) :
  0 <= r < 2 ^ 51 -> platformFee r = (3 * r + 19) / 20.
Proof.
  intros [H0 Hr]. destruct (Z.eq_dec r 0) as [->|Hn]; [reflexivity|].
  assert (Hb : Z.abs r < 2 ^ 53) by lia.
  unfold platformFee. rewrite (of_Z_normal r Hb). unfold normal.
  destruct (Z.eqb_spec r 0) as [|_]; [contradiction|].
  rewrite (Z.abs_eq r) by lia.
  assert (Hl : 0 <= Z.log2 r <= 50).
  { split; [apply Z.log2_nonneg|].
    assert (Z.log2 r < 51) by (apply Z.log2_lt_pow2; lia). lia. }
  destruct (Z.log2_spec r ltac:(lia)) as [Hlo Hhi].
  set (l := Z.log2 r) in *. set (u := 52 - l).
  assert (Hu : 2 <= u <= 52) by (unfold u; lia).
  set (U := 2 ^ u).
  assert (HU : 4 <= U).
  { unfold U. change 4 with (2 ^ 2). apply Z.pow_le_mono_r; lia. }
  assert (HlU : 2 ^ l * U = 2 ^ 52).
  { unfold U. rewrite <- pow2_split by lia. f_equal. unfold u. lia. }
  assert (HlU1 : 2 ^ Z.succ l * U = 2 ^ 53).
  { unfold U. rewrite <- pow2_split by lia. f_equal. unfold u. lia. }
  set (X := r * U).
  assert (HX : 2 ^ 52 <= X < 2 ^ 53) by (unfold X; split; nia).
  replace (of_Q (15 # 100)) with (Float 5404319552844595 (-55))
    by (vm_compute; reflexivity).
  unfold fmul. cbn [mant expo]. fold U X.
  set (a := X * 5404319552844595).
  assert (Ha : 2 ^ 104 <= a < 2 ^ 106) by (unfold a; lia).
  assert (HL : 104 <= Z.log2 a <= 105).
  { split.
    - change 104 with (Z.log2 (2 ^ 104)). apply Z.log2_le_mono. lia.
    - assert (Z.log2 a < 106) by (apply Z.log2_lt_pow2; lia). lia. }
  destruct (round_ne_large a (l - 52 + -55)) as [m [Hm Hbound]]; [lia|].
  rewrite Hm. set (L := Z.log2 a) in *.
  set (E := 2 ^ (L - 52)) in *.
  assert (HE : 0 < E <= 2 ^ 53).
  { unfold E. split; [apply pow2_pos; lia|]. apply Z.pow_le_mono_r; lia. }
  unfold Math_ceil. cbn [mant expo].
  destruct (Z.leb_spec 0 (l - 52 + -55 + (L - 52))) as [H|_]; [lia|].
  replace (- (l - 52 + -55 + (L - 52))) with (u + 55 - (L - 52)) by (unfold u; lia).
  set (F := 2 ^ (u + 55 - (L - 52))).
  assert (HF : 0 < F) by (apply pow2_pos; lia).
  assert (HEF : E * F = U * 2 ^ 55).
  { unfold E, F, U. rewrite <- !pow2_split by lia. f_equal. lia. }
  set (N := (3 * r + 19) / 20).
  assert (HN : 20 * N - 19 <= 3 * r <= 20 * N).
  { pose proof (Z.div_mod (3 * r + 19) 20 ltac:(lia)) as Hdm.
    pose proof (Z.mod_pos_bound (3 * r + 19) 20 ltac:(lia)) as Hmb.
    fold N in Hdm. lia. }
  assert (HNU : 20 * (N * U) - 19 * U <= 3 * X <= 20 * (N * U)) by (unfold X; nia).
  assert (H20a : 20 * a = 3 * 2 ^ 55 * X - 4 * X) by (unfold a; lia).
  assert (HNEF : N * F * E = N * U * 2 ^ 55).
  { rewrite <- Z.mul_assoc, (Z.mul_comm F E), HEF. ring. }
  assert (Hlow : (N - 1) * F < m).
  { destruct (Z.lt_ge_cases ((N - 1) * F) m) as [|Hc]; [assumption|exfalso].
    assert (m * E <= (N - 1) * F * E) by (apply Z.mul_le_mono_nonneg_r; lia).
    assert ((N - 1) * F * E = N * U * 2 ^ 55 - U * 2 ^ 55)
      by (rewrite <- HNEF, <- HEF; ring).
    lia. }
  assert (Hupp : m <= N * F).
  { destruct (Z.le_gt_cases m (N * F)) as [|Hc]; [assumption|exfalso].
    assert ((N * F + 1) * E <= m * E) by (apply Z.mul_le_mono_nonneg_r; lia).
    assert ((N * F + 1) * E = N * U * 2 ^ 55 + E) by (rewrite <- HNEF; ring).
    lia. }
  assert (Hq : - m / F = - N).
  { symmetry. apply (Z.div_unique_pos (- m) F (- N) (N * F - m)); [lia|ring]. }
  rewrite Hq. lia.
Qed.

End Fee.

(** X18. For a rent of up to [2 ^ 51] the platform fee is 15 percent of the
    rent rounded up to a whole number: it is the least whole number that is
    not below three twentieths of the rent. The fee is computed on doubles,
    with the double nearest to 0.15, and the result is nevertheless that of
    the exact fraction. *)
Theorem platform_fee_is_fifteen_percent_rounded_up :
  forall r : Z,
    0 <= r < 2 ^ 51 ->
    3 * r <= 20 * platformFee r
    /\ forall n : Z, 3 * r <= 20 * n -> platformFee r <= n.
Proof.
  intros r Hr. rewrite (platformFee_rounds_up r Hr).
  pose proof (Z.div_mod (3 * r + 19) 20 ltac:(lia)) as Hdm.
  pose proof (Z.mod_pos_bound (3 * r + 19) 20 ltac:(lia)) as Hmb.
  split; [lia|]. intros n Hn. lia.
Qed.

Lemma platform_fee_is_fifteen_percent_rounded_up_witness :
  3 * 250 <= 20 * platformFee 250
  /\ forall n : Z, 3 * 250 <= 20 * n -> platformFee 250 <= n.
Proof.
  refine (platform_fee_is_fifteen_percent_rounded_up 250 _).
  vm_compute. split; [discriminate|reflexivity].
Defined.

(** Above the bound the fee can fall one short of the rounded fraction. *)
Example platform_fee_of_a_large_rent :
  platformFee 3378144248262807 = 506721637239421
  /\ (3 * 3378144248262807 + 19) / 20 = 506721637239422.
Proof. vm_compute. split; reflexivity. Qed.

(** X19. For an item with a whole price and a booking whose rent, price
    times the days from start to end, is not negative and below [2 ^ 46],
    the order route charges the rent, 15 percent of it rounded up, and the
    deposit of 200; the gateway is asked for 100 times their sum, in
    paise. *)
Theorem order_amount_of_price_and_dates :
  forall (P : Z) (start_date end_date : date) (req : OrderReq.body),
    Z.abs start_date <= 10 ^ 8 -> Z.abs end_date <= 10 ^ 8 ->
    Z.abs P < 2 ^ 53 ->
    0 <= P * (end_date - start_date) < 2 ^ 46 ->
    let rent := P * (end_date - start_date) in
    let fee := (3 * rent + 19) / 20 in
    computeBreakdown (P # 1) start_date end_date
    = mkBreakdown rent fee 200 (rent + fee + 200)
    /\ Order.amount (order_options req (computeBreakdown (P # 1) start_date end_date))
       = 100 * (rent + fee + 200).
Proof.
  intros P start_date end_date req Hs He HP Hr rent fee.
  assert (Hrent : 0 <= rent < 2 ^ 46) by exact Hr.
  assert (Hfee : 0 <= fee /\ 20 * fee <= 3 * rent + 19).
  { pose proof (Z.div_mod (3 * rent + 19) 20 ltac:(lia)) as Hdm.
    pose proof (Z.mod_pos_bound (3 * rent + 19) 20 ltac:(lia)) as Hmb.
    fold fee in Hdm. lia. }
  assert (Hbd : computeBreakdown (P # 1) start_date end_date
                = mkBreakdown rent fee 200 (rent + fee + 200)).
  { unfold computeBreakdown. rewrite (daysDiff_exact start_date end_date Hs He).
    rewrite rentPayment_whole by (try assumption; fold rent; lia). fold rent.
    rewrite platformFee_rounds_up by lia. fold fee.
    unfold totalAmount, safetyDeposit. clearbody rent fee.
    rewrite (add_exact rent fee) by lia. rewrite add_exact by lia. reflexivity. }
  split; [exact Hbd|]. rewrite Hbd. cbn [order_options Order.amount total].
  clearbody rent fee. rewrite mul_exact by lia. ring.
Qed.

Lemma order_amount_of_price_and_dates_witness :
  computeBreakdown (100 # 1) Sample.may_1 Sample.may_5
  = mkBreakdown (100 * (Sample.may_5 - Sample.may_1))
                ((3 * (100 * (Sample.may_5 - Sample.may_1)) + 19) / 20) 200
                (100 * (Sample.may_5 - Sample.may_1)
                 + (3 * (100 * (Sample.may_5 - Sample.may_1)) + 19) / 20 + 200)
  /\ Order.amount (order_options Sample.order_req
                     (computeBreakdown (100 # 1) Sample.may_1 Sample.may_5))
     = 100 * (100 * (Sample.may_5 - Sample.may_1)
              + (3 * (100 * (Sample.may_5 - Sample.may_1)) + 19) / 20 + 200).
Proof.
  refine (order_amount_of_price_and_dates 100 Sample.may_1 Sample.may_5
            Sample.order_req _ _ _ _);
    vm_compute; first [reflexivity | discriminate | (split; [discriminate|reflexivity])].
Defined.


(* ------------------------------------------------------------------------- *)
(** ** Orders and the bookings *)

Lemma createOrder_reads_items (gateway : Order.options -> option string)
    (req : OrderReq.body) (db db' : DB) :
  Items db' = Items db -> createOrder gateway req db' = createOrder gateway req db.
Proof.
  intros H. unfold createOrder, itemCheck. rewrite H. reflexivity.
Qed.

(** X20. The order route never reads the bookings: whatever requests for
    bookings, status changes, payments and reviews have been served in
    between, the same order request gets the same reply and the gateway the
    same call. In particular the booking named in the request is not looked
    up, and the amount follows the dates of the request, not those of the
    booking. *)
Theorem order_does_not_depend_on_bookings :
  forall (isUUID : string -> bool) (gateway : Order.options -> option string)
         (req : OrderReq.body) (rs : list request) (st : DB * list Review.t),
    createOrder gateway req (fst (serve_all isUUID rs st))
    = createOrder gateway req (fst st).
Proof.
  intros isUUID gateway req rs st. apply createOrder_reads_items.
  exact (proj1 (serve_all_extends isUUID rs st)).
Qed.
